(** * opencode-wrapped: the collector and the statistics engine

    A shallow embedding of [src/collector.ts] (the four format parsers,
    [collectAll], [findJsonlFiles] and [getAvailableSources]), of
    [src/stats.ts] ([calculateStats], [calculateStreaks],
    [countStreakBackwards], [formatDateKey], [findMostActiveDay] and
    [buildWeekdayActivity]) and of the choice of the source in
    [src/index.ts], with the properties of the ingestion-and-aggregation
    pipeline proved about it.

    Conventions of the embedding.
    - A decoded JSON document is a [value]; TypeScript's interfaces are erased
      at run time, so every field read is a property access on a [value] with
      JavaScript's rules (a read on [null]/[undefined] throws, a missing
      property is [undefined], [||] and [if] test truthiness).
    - Numbers are integers ([Z]) plus [NaN]: epoch milliseconds, token counts
      and years are integers in the logs, and a cost is counted in whole
      units; fractions and the rounding of doubles are outside the model.
    - A thrown exception is [None] in the [exn] monad; every [try]/[catch] of
      the source is a [catch] here.
    - A [Map] is an association list in insertion order, with JavaScript's
      key equality (SameValueZero).
    - The wall clock ([Date.now()]), the local time zone (a fixed offset from
      UTC) and the host's parser for date strings other than [YYYY-MM-DD] are
      parameters.
    - So are the host's reading of [Number(s)] for a string that is not made
      of decimal digits and the name lookups of [src/models.ts]; the
      directory tree that [findJsonlFiles] walks, the answers of
      [checkDataExists] and the answer of the source prompt are inputs. *)

From Stdlib Require Import ZArith List Bool String Ascii Lia Permutation.
From Stdlib Require Import Sorting.Sorted Sorting.Mergesort Orders.
From Stdlib Require Import Numbers.DecimalString Numbers.DecimalZ.
Import ListNotations.

Local Open Scope string_scope.
Local Open Scope list_scope.
Local Open Scope Z_scope.

(** ** JavaScript values *)

#[local] Set Warnings "-register-all".

Inductive value : Type :=
| VUndef
| VNull
| VBool (b : bool)
| VNaN
| VNum (n : Z)
| VStr (s : string)
| VArr (items : list value)
| VObj (fields : list (string * value)).

(** [exn A]: a computation that returns an [A] or throws. *)
Definition exn (A : Type) : Type := option A.

Definition ret {A} (a : A) : exn A := Some a.
Definition throw {A} : exn A := None.
Definition bind {A B} (m : exn A) (k : A -> exn B) : exn B :=
  match m with
  | Some a => k a
  | None => None
  end.

Notation "x <- m ;; k" := (bind m (fun x => k))
  (at level 61, m at next level, right associativity).

(** [try { body } catch { }] around a state update: a throw leaves the state
    as it was. *)
Definition catch {S} (old : S) (body : exn S) : S :=
  match body with
  | Some s => s
  | None => old
  end.

(** The own properties of an object are a list of names and values, each name
    once (of a repeated name in the text [JSON.parse] keeps one value). *)
Fixpoint assoc (k : string) (fields : list (string * value)) : value :=
  match fields with
  | [] => VUndef
  | (k', v) :: rest => if String.eqb k k' then v else assoc k rest
  end.

(** [v.k]: throws a TypeError on [undefined] and [null]; none of the property
    names the collector reads exists on the prototypes of strings, numbers,
    booleans or arrays, so those give [undefined]. *)
Definition get (v : value) (k : string) : exn value :=
  match v with
  | VUndef | VNull => throw
  | VObj fields => ret (assoc k fields)
  | _ => ret VUndef
  end.

(** [v?.k] *)
Definition getOpt (v : value) (k : string) : value :=
  match v with
  | VObj fields => assoc k fields
  | _ => VUndef
  end.

(** ToBoolean *)
Definition truthy (v : value) : bool :=
  match v with
  | VUndef | VNull | VNaN => false
  | VBool b => b
  | VNum n => negb (n =? 0)
  | VStr s => negb (String.eqb s "")
  | VArr _ | VObj _ => true
  end.

(** [a || b] and [a ?? b] *)
Definition or_else (a b : value) : value := if truthy a then a else b.

Definition nullish (v : value) : bool :=
  match v with
  | VUndef | VNull => true
  | _ => false
  end.

(** [v === "lit"] *)
Definition is_str (v : value) (lit : string) : bool :=
  match v with
  | VStr s => String.eqb s lit
  | _ => false
  end.

(** SameValueZero, the key equality of [Map] and [Set].  Every object and
    array the collector uses as a key comes out of its own [JSON.parse] call
    and is compared only with keys stored earlier, so two such keys are never
    the same object. *)
Definition same_value_zero (a b : value) : bool :=
  match a, b with
  | VUndef, VUndef => true
  | VNull, VNull => true
  | VBool x, VBool y => Bool.eqb x y
  | VNaN, VNaN => true
  | VNum x, VNum y => x =? y
  | VStr x, VStr y => String.eqb x y
  | _, _ => false
  end.

(** ** Maps in insertion order *)

Section JsMap.
Context {K V : Type}.
Variable keq : K -> K -> bool.

Fixpoint map_get (m : list (K * V)) (k : K) : option V :=
  match m with
  | [] => None
  | (k', v) :: rest => if keq k' k then Some v else map_get rest k
  end.

Definition map_has (m : list (K * V)) (k : K) : bool :=
  match map_get m k with
  | Some _ => true
  | None => false
  end.

(** [m.set(k, v)]: an existing key keeps its position. *)
Fixpoint map_set (m : list (K * V)) (k : K) (v : V) : list (K * V) :=
  match m with
  | [] => [(k, v)]
  | (k', v') :: rest =>
      if keq k' k then (k', v) :: rest else (k', v') :: map_set rest k v
  end.

Definition map_keys (m : list (K * V)) : list K := map fst m.
Definition map_values (m : list (K * V)) : list V := map snd m.
End JsMap.

(** ** Dates

    A [Date] holds a time value: epoch milliseconds, or [None] for an Invalid
    Date.  The civil calendar is the proleptic Gregorian one of ECMAScript. *)

Definition msPerDay : Z := 24 * 60 * 60 * 1000.

Definition date : Type := option Z.

(** TimeClip: time values beyond 8.64e15 ms are invalid. *)
Definition timeClip (t : Z) : date :=
  if Z.abs t <=? 8640000000000000 then Some t else None.

(** Year, month (1..12) and day of month of a day number (days since
    1970-01-01). *)
Definition civil_from_days (n : Z) : Z * Z * Z :=
  let z := n + 719468 in
  let era := z / 146097 in
  let doe := z mod 146097 in
  let yoe := (doe - doe / 1460 + doe / 36524 - doe / 146096) / 365 in
  let doy := doe - (365 * yoe + yoe / 4 - yoe / 100) in
  let mp := (5 * doy + 2) / 153 in
  let d := doy - (153 * mp + 2) / 5 + 1 in
  let m := if mp <? 10 then mp + 3 else mp - 9 in
  let y := yoe + era * 400 in
  ((if m <=? 2 then y + 1 else y), m, d).

(** The day number of a civil date. *)
Definition days_from_civil (y m d : Z) : Z :=
  let y' := if m <=? 2 then y - 1 else y in
  let era := y' / 400 in
  let yoe := y' mod 400 in
  let mp := if 2 <? m then m - 3 else m + 9 in
  let doy := (153 * mp + 2) / 5 + d - 1 in
  let doe := yoe * 365 + yoe / 4 - yoe / 100 + doy in
  era * 146097 + doe - 719468.

Definition isLeapYear (y : Z) : bool :=
  (y mod 4 =? 0) && (negb (y mod 100 =? 0) || (y mod 400 =? 0)).

Definition daysInMonth (y m : Z) : Z :=
  if m =? 2 then (if isLeapYear y then 29 else 28)
  else if (m =? 4) || (m =? 6) || (m =? 9) || (m =? 11) then 30
  else 31.

(** [String(n)] for an integer. *)
Definition string_of_Z (n : Z) : string := NilZero.string_of_int (Z.to_int n).

(** [s.padStart(2, "0")] *)
Definition padStart2 (s : string) : string :=
  match String.length s with
  | O => "00"
  | S O => ("0" ++ s)%string
  | _ => s
  end.

Definition digit_of_ascii (c : ascii) : option Z :=
  let n := Z.of_nat (nat_of_ascii c) in
  if (48 <=? n) && (n <=? 57) then Some (n - 48) else None.

Fixpoint digits_value (acc : Z) (s : string) : option Z :=
  match s with
  | EmptyString => Some acc
  | String c rest =>
      match digit_of_ascii c with
      | Some d => digits_value (10 * acc + d) rest
      | None => None
      end
  end.

(** The ISO date-only form [YYYY-MM-DD], which ECMAScript reads as midnight
    UTC of that day. *)
Definition parseIsoDateOnly (s : string) : option Z :=
  if (String.length s =? 10)%nat
     && String.eqb (substring 4 1 s) "-" && String.eqb (substring 7 1 s) "-"
  then
    match digits_value 0 (substring 0 4 s),
          digits_value 0 (substring 5 2 s),
          digits_value 0 (substring 8 2 s) with
    | Some y, Some m, Some d =>
        if (1 <=? m) && (m <=? 12) && (1 <=? d) && (d <=? daysInMonth y m)
        then Some (days_from_civil y m d * msPerDay)
        else None
    | _, _, _ => None
    end
  else None.

(** [Math.round(a / b)] for integers [a] and [b > 0]: the nearest integer,
    halves upwards. *)
Definition round_div (a b : Z) : Z := (2 * a + b) / (2 * b).

(** ** The normalized data model ([src/types.ts]) *)

Inductive DataSource : Type := pi | codex | claude | opencode.

Record SessionData : Type := mkSession {
  session_id : value;
  session_timestamp : value;
  session_cwd : value;
  session_provider : value;
  session_modelId : value;
  session_source : DataSource
}.

Record MessageData : Type := mkMessage {
  message_sessionId : value;
  message_role : value;
  message_timestamp : value;
  message_provider : value;
  message_modelId : value;
  message_usage : value;
  message_source : DataSource
}.

Record ProjectData : Type := mkProject {
  project_path : value;
  project_sessionCount : Z;
  project_source : DataSource
}.

(** One line of a [.jsonl] file after [JSON.parse]: [None] is a blank line or
    a line on which [JSON.parse] throws (both are skipped).  A file is [None]
    when reading it throws. *)
Definition line : Type := option value.
Definition file : Type := option (list line).

(** What one loop iteration does to the loop: go on with a new state, or
    leave the function with the empty result. *)
Inductive step (S : Type) : Type :=
| Next (s : S)
| Abandon.
Arguments Next {S} s.
Arguments Abandon {S}.

(** ** Strings in order, sets of strings, and [+]

    [Array.prototype.sort] without a comparator orders strings by code unit;
    the date keys are ASCII, where that is [String.compare]. *)

Module StringOrder <: TotalLeBool.
Definition t := string.
Definition leb := String.leb.
Theorem leb_total (a b : t) : leb a b = true \/ leb b a = true.
Proof. apply String.leb_total. Qed.
End StringOrder.

Module StringSort := Sort StringOrder.

(** [set.add(x)] on a [Set<string>] kept in insertion order *)
Definition set_add (set : list string) (x : string) : list string :=
  if existsb (String.eqb x) set then set else set ++ [x].

Fixpoint join_comma (parts : list string) : string :=
  match parts with
  | [] => ""
  | [p] => p
  | p :: rest => (p ++ "," ++ join_comma rest)%string
  end.

(** ToString *)
Fixpoint to_string (v : value) : string :=
  match v with
  | VUndef => "undefined"
  | VNull => "null"
  | VBool true => "true"
  | VBool false => "false"
  | VNaN => "NaN"
  | VNum n => string_of_Z n
  | VStr s => s
  | VArr items =>
      join_comma (map (fun x => if nullish x then "" else to_string x) items)
  | VObj _ => "[object Object]"
  end.

(** ToPrimitive: arrays and objects become their string. *)
Definition to_primitive (v : value) : value :=
  match v with
  | VArr _ | VObj _ => VStr (to_string v)
  | _ => v
  end.

(** ToNumber of a primitive that is not a string; [None] is NaN. *)
Definition to_number (v : value) : option Z :=
  match v with
  | VNull => Some 0
  | VBool b => Some (if b then 1 else 0)
  | VNum n => Some n
  | _ => None
  end.

(** [a + b] *)
Definition js_plus (a b : value) : value :=
  let pa := to_primitive a in
  let pb := to_primitive b in
  match pa, pb with
  | VStr _, _ | _, VStr _ => VStr (to_string pa ++ to_string pb)
  | _, _ =>
      match to_number pa, to_number pb with
      | Some x, Some y => VNum (x + y)
      | _, _ => VNaN
      end
  end.

Section Host.

(** The offset of local time from UTC in milliseconds (a zone without
    transitions), and the host's reading of [new Date(v)] where [new Date]
    is not modelled here: [v] a string that is not of the form [YYYY-MM-DD]
    with a date of the calendar, an array or an object. *)
Variable tz : Z.
Variable hostDate : value -> option Z.

(** [new Date(v)] *)
Definition newDate (v : value) : date :=
  match v with
  | VUndef | VNaN => None
  | VNull => timeClip 0
  | VBool b => timeClip (if b then 1 else 0)
  | VNum n => timeClip n
  | VStr s =>
      match parseIsoDateOnly s with
      | Some t => timeClip t
      | None => bind (hostDate v) timeClip
      end
  | VArr _ | VObj _ => bind (hostDate v) timeClip
  end.

(** [d.getTime()] *)
Definition getTime (d : date) : value :=
  match d with
  | Some t => VNum t
  | None => VNaN
  end.

(** The local day number of a time value. *)
Definition localDay (t : Z) : Z := (t + tz) / msPerDay.

(** [d.getFullYear()], [d.getMonth() + 1], [d.getDate()]; [None] is NaN. *)
Definition getFullYear (d : date) : option Z :=
  option_map (fun t => fst (fst (civil_from_days (localDay t)))) d.
Definition getMonth1 (d : date) : option Z :=
  option_map (fun t => snd (fst (civil_from_days (localDay t)))) d.
Definition getDate (d : date) : option Z :=
  option_map (fun t => snd (civil_from_days (localDay t))) d.

(** [String(n)] for a number or NaN *)
Definition string_of_number (n : option Z) : string :=
  match n with
  | Some z => string_of_Z z
  | None => "NaN"
  end.

Definition formatDateKey (d : date) : string :=
  let year := string_of_number (getFullYear d) in
  let month := padStart2 (string_of_number (getMonth1 d)) in
  let day := padStart2 (string_of_number (getDate d)) in
  (year ++ "-" ++ month ++ "-" ++ day)%string.

(** [new Date(timestamp).getFullYear() === year] *)
Definition yearIs (timestamp : value) (year : Z) : bool :=
  match getFullYear (newDate timestamp) with
  | Some y => y =? year
  | None => false
  end.

(** The filter of the parsers:
    [year && new Date(timestamp).getFullYear() !== year], for the optional
    parameter [year?: number]. *)
Definition yearMismatch (year : option Z) (timestamp : value) : bool :=
  match year with
  | Some y => negb (y =? 0) && negb (yearIs timestamp y)
  | None => false
  end.

Definition parseTimestamp (ts : value) : value :=
  match ts with
  | VNum _ | VNaN => ts
  | _ => getTime (newDate ts)
  end.

(** [session?.id ?? ""] *)
Definition sessionIdOrEmpty (session : option SessionData) : value :=
  match session with
  | Some s => if nullish (session_id s) then VStr "" else session_id s
  | None => VStr ""
  end.

(** *** Pi format *)

Definition PiResult : Type := (option SessionData * list MessageData)%type.

Definition parsePiLine (year : option Z) (st : PiResult) (parsed : value)
  : exn (step PiResult) :=
  let '(session, messages) := st in
  type <- get parsed "type" ;;
  if is_str type "session" then
    raw_timestamp <- get parsed "timestamp" ;;
    let timestamp := parseTimestamp raw_timestamp in
    if yearMismatch year timestamp then ret Abandon
    else
      id <- get parsed "id" ;;
      cwd <- get parsed "cwd" ;;
      provider <- get parsed "provider" ;;
      modelId <- get parsed "modelId" ;;
      ret (Next (Some (mkSession id timestamp cwd provider modelId pi),
                 messages))
  else if is_str type "message" then
    raw_timestamp <- get parsed "timestamp" ;;
    let timestamp := parseTimestamp raw_timestamp in
    if yearMismatch year timestamp then ret (Next st)
    else
      message <- get parsed "message" ;;
      role <- get message "role" ;;
      provider <- get message "provider" ;;
      model <- get message "model" ;;
      usage <- get message "usage" ;;
      ret (Next (session,
                 messages ++ [mkMessage (sessionIdOrEmpty session) role
                                timestamp provider model usage pi]))
  else ret (Next st).

Fixpoint parsePiLines (year : option Z) (lines : list line) (st : PiResult)
  : PiResult :=
  match lines with
  | [] => st
  | None :: rest => parsePiLines year rest st
  | Some parsed :: rest =>
      match catch (Next st) (parsePiLine year st parsed) with
      | Next st' => parsePiLines year rest st'
      | Abandon => (None, [])
      end
  end.

Definition parsePiFile (f : file) (year : option Z) : PiResult :=
  match f with
  | Some lines => parsePiLines year lines (None, [])
  | None => (None, [])
  end.

(** *** Claude Code format *)

Definition ClaudeResult : Type :=
  (list (value * SessionData) * list MessageData)%type.

Definition claudeUsage (usage : value) : exn value :=
  if truthy usage then
    input_tokens <- get usage "input_tokens" ;;
    output_tokens <- get usage "output_tokens" ;;
    cache_read <- get usage "cache_read_input_tokens" ;;
    cache_creation <- get usage "cache_creation_input_tokens" ;;
    ret (VObj [("input", or_else input_tokens (VNum 0));
               ("output", or_else output_tokens (VNum 0));
               ("cacheRead", cache_read);
               ("cacheWrite", cache_creation)])
  else ret VUndef.

Definition parseClaudeLine (year : option Z) (st : ClaudeResult)
  (parsed : value) : exn ClaudeResult :=
  let '(sessions, messages) := st in
  type <- get parsed "type" ;;
  sessionId <- get parsed "sessionId" ;;
  if negb (truthy type) || negb (truthy sessionId) then ret st
  else
    raw_timestamp <- get parsed "timestamp" ;;
    let timestamp := parseTimestamp raw_timestamp in
    if yearMismatch year timestamp then ret st
    else
      message <- get parsed "message" ;;
      cwd <- get parsed "cwd" ;;
      let sessions' :=
        if map_has same_value_zero sessions sessionId then sessions
        else map_set same_value_zero sessions sessionId
               (mkSession sessionId timestamp cwd (VStr "anthropic")
                  (or_else (getOpt message "model") (VStr "claude")) claude)
      in
      if is_str type "user" || is_str type "assistant" then
        usage <- claudeUsage (getOpt message "usage") ;;
        ret (sessions',
             messages ++ [mkMessage sessionId type timestamp
                            (VStr "anthropic") (getOpt message "model")
                            usage claude])
      else ret (sessions', messages).

Fixpoint parseClaudeLines (year : option Z) (lines : list line)
  (st : ClaudeResult) : ClaudeResult :=
  match lines with
  | [] => st
  | None :: rest => parseClaudeLines year rest st
  | Some parsed :: rest =>
      parseClaudeLines year rest (catch st (parseClaudeLine year st parsed))
  end.

Definition parseClaudeFile (f : file) (year : option Z) : ClaudeResult :=
  match f with
  | Some lines => parseClaudeLines year lines ([], [])
  | None => ([], [])
  end.

(** *** Codex CLI format *)

Definition CodexResult : Type := (option SessionData * list MessageData)%type.

(** [session?.provider || "openai"] *)
Definition sessionProviderOrOpenai (session : option SessionData) : value :=
  match session with
  | Some s => or_else (session_provider s) (VStr "openai")
  | None => VStr "openai"
  end.

Definition setUsage (m : MessageData) (usage : value) : MessageData :=
  mkMessage (message_sessionId m) (message_role m) (message_timestamp m)
    (message_provider m) (message_modelId m) usage (message_source m).

(** [messages[i] = m] for an index inside the array. *)
Fixpoint setNth (messages : list MessageData) (i : nat) (m : MessageData)
  : list MessageData :=
  match messages, i with
  | [], _ => []
  | _ :: rest, O => m :: rest
  | x :: rest, S j => x :: setNth rest j m
  end.

(** The loop [for (let i = messages.length - 1; i >= 0; i--)] of the
    token-count branch, entered with [n = i + 1]. *)
Fixpoint attachUsage (n : nat) (messages : list MessageData) (usage : value)
  : list MessageData :=
  match n with
  | O => messages
  | S i =>
      match nth_error messages i with
      | Some m =>
          if is_str (message_role m) "assistant"
             && negb (truthy (message_usage m))
          then setNth messages i (setUsage m usage)
          else attachUsage i messages usage
      | None => messages
      end
  end.

Definition codexUsage (usage : value) : exn value :=
  input_tokens <- get usage "input_tokens" ;;
  output_tokens <- get usage "output_tokens" ;;
  ret (VObj [("input", or_else input_tokens (VNum 0));
             ("output", or_else output_tokens (VNum 0))]).

Definition parseCodexLine (year : option Z) (st : CodexResult)
  (parsed : value) : exn (step CodexResult) :=
  let '(session, messages) := st in
  type <- get parsed "type" ;;
  if is_str type "session_meta" then
    raw_timestamp <- get parsed "timestamp" ;;
    let timestamp := parseTimestamp raw_timestamp in
    if yearMismatch year timestamp then ret Abandon
    else
      payload <- get parsed "payload" ;;
      id <- get payload "id" ;;
      cwd <- get payload "cwd" ;;
      model_provider <- get payload "model_provider" ;;
      ret (Next (Some (mkSession id timestamp cwd
                         (or_else model_provider (VStr "openai"))
                         (VStr "codex") codex),
                 messages))
  else if is_str type "response_item" then
    raw_timestamp <- get parsed "timestamp" ;;
    let timestamp := parseTimestamp raw_timestamp in
    if yearMismatch year timestamp then ret (Next st)
    else
      payload <- get parsed "payload" ;;
      role <- get payload "role" ;;
      ret (Next (session,
                 messages ++ [mkMessage (sessionIdOrEmpty session) role
                                timestamp (sessionProviderOrOpenai session)
                                (VStr "codex") VUndef codex]))
  else
    payload <- get parsed "payload" ;;
    if is_str type "event_msg" && is_str (getOpt payload "type") "token_count"
    then
      info <- get payload "info" ;;
      let usage := getOpt info "last_token_usage" in
      if truthy usage then
        normalized <- codexUsage usage ;;
        ret (Next (session,
                   attachUsage (List.length messages) messages normalized))
      else ret (Next st)
    else ret (Next st).

Fixpoint parseCodexLines (year : option Z) (lines : list line)
  (st : CodexResult) : CodexResult :=
  match lines with
  | [] => st
  | None :: rest => parseCodexLines year rest st
  | Some parsed :: rest =>
      match catch (Next st) (parseCodexLine year st parsed) with
      | Next st' => parseCodexLines year rest st'
      | Abandon => (None, [])
      end
  end.

Definition parseCodexFile (f : file) (year : option Z) : CodexResult :=
  match f with
  | Some lines => parseCodexLines year lines (None, [])
  | None => (None, [])
  end.

(** *** OpenCode format and [collectAll]

    What lies under a source's root directory.  [jsonlFiles] are the files
    found by [findJsonlFiles]; [sessionDocs] and [messageDocs] are the
    [.json] documents under [session/*/] and [message/*/], [None] where
    reading or decoding one throws.  Each list is in the order in which the
    reads complete: the callbacks under [Promise.all] run one at a time in
    that order, each to its end. *)
Record SourceData : Type := mkSourceData {
  jsonlFiles : list file;
  sessionDocs : list (option value);
  messageDocs : list (option value)
}.

Record Collected : Type := mkCollected {
  sessions : list SessionData;
  messages : list MessageData;
  projects : list ProjectData
}.

Definition ProjectMap : Type := list (value * Z).

(** [(m.get(k) || 0) + 1] for a map of counters *)
Definition countPlusOne {K} (keq : K -> K -> bool) (m : list (K * Z)) (k : K)
  : Z :=
  match map_get keq m k with
  | Some n => (if n =? 0 then 0 else n) + 1
  | None => 0 + 1
  end.

(** [projectMap.set(path, (projectMap.get(path) || 0) + 1)] *)
Definition countProject (projectMap : ProjectMap) (path : value) : ProjectMap :=
  map_set same_value_zero projectMap path
    (countPlusOne same_value_zero projectMap path).

Definition projectList (source : DataSource) (projectMap : ProjectMap)
  : list ProjectData :=
  map (fun '(path, sessionCount) => mkProject path sessionCount source)
    projectMap.

Definition openCodeSession (year : option Z)
  (st : list SessionData * ProjectMap) (raw : value)
  : exn (list SessionData * ProjectMap) :=
  let '(sessions, projectMap) := st in
  time <- get raw "time" ;;
  timestamp <- get time "created" ;;
  if yearMismatch year timestamp then ret st
  else
    id <- get raw "id" ;;
    directory <- get raw "directory" ;;
    ret (sessions ++ [mkSession id timestamp directory (VStr "opencode")
                        (VStr "opencode") opencode],
         countProject projectMap directory).

Definition openCodeUsage (tokens : value) : exn value :=
  if truthy tokens then
    input <- get tokens "input" ;;
    output <- get tokens "output" ;;
    cache <- get tokens "cache" ;;
    ret (VObj [("input", or_else input (VNum 0));
               ("output", or_else output (VNum 0));
               ("cacheRead", getOpt cache "read");
               ("cacheWrite", getOpt cache "write")])
  else ret VUndef.

Definition openCodeMessage (year : option Z) (allMessages : list MessageData)
  (raw : value) : exn (list MessageData) :=
  time <- get raw "time" ;;
  timestamp <- get time "created" ;;
  if yearMismatch year timestamp then ret allMessages
  else
    sessionID <- get raw "sessionID" ;;
    role <- get raw "role" ;;
    providerID <- get raw "providerID" ;;
    modelID <- get raw "modelID" ;;
    tokens <- get raw "tokens" ;;
    usage <- openCodeUsage tokens ;;
    ret (allMessages ++ [mkMessage sessionID role timestamp providerID
                           modelID usage opencode]).

(** A document that could not be read is skipped like one that throws. *)
Definition eachDoc {S} (body : S -> value -> exn S) (st : S)
  (doc : option value) : S :=
  match doc with
  | Some raw => catch st (body st raw)
  | None => st
  end.

Definition collectOpenCode (data : SourceData) (year : option Z) : Collected :=
  let '(sessions, projectMap) :=
    fold_left (eachDoc (openCodeSession year)) (sessionDocs data) ([], []) in
  let allMessages :=
    fold_left (eachDoc (openCodeMessage year)) (messageDocs data) [] in
  mkCollected sessions allMessages (projectList opencode projectMap).

Definition Acc : Type :=
  (list SessionData * list MessageData * ProjectMap)%type.

(** The callback of the [pi] and [codex] branches, after its parser. *)
Definition addFileSession (acc : Acc)
  (parsed : option SessionData * list MessageData) : Acc :=
  let '(sessions, allMessages, projectMap) := acc in
  let '(session, messages) := parsed in
  match session with
  | Some s =>
      (sessions ++ [s], allMessages ++ messages,
       countProject projectMap (session_cwd s))
  | None => (sessions, allMessages ++ messages, projectMap)
  end.

(** The loop [for (const [id, session] of fileSessions)] of the [claude]
    branch. *)
Definition mergeSession (st : list (value * SessionData) * ProjectMap)
  (entry : value * SessionData) : list (value * SessionData) * ProjectMap :=
  let '(allSessions, projectMap) := st in
  let '(id, session) := entry in
  if map_has same_value_zero allSessions id then st
  else (map_set same_value_zero allSessions id session,
        countProject projectMap (session_cwd session)).

Definition ClaudeAcc : Type :=
  (list (value * SessionData) * list MessageData * ProjectMap)%type.

Definition addClaudeFile (year : option Z) (acc : ClaudeAcc) (f : file)
  : ClaudeAcc :=
  let '(allSessions, allMessages, projectMap) := acc in
  let '(fileSessions, messages) := parseClaudeFile f year in
  let '(allSessions', projectMap') :=
    fold_left mergeSession fileSessions (allSessions, projectMap) in
  (allSessions', allMessages ++ messages, projectMap').

Definition collectAll (source : DataSource) (data : SourceData)
  (year : option Z) : Collected :=
  match source with
  | opencode => collectOpenCode data year
  | pi =>
      let '(sessions, allMessages, projectMap) :=
        fold_left (fun acc f => addFileSession acc (parsePiFile f year))
          (jsonlFiles data) ([], [], []) in
      mkCollected sessions allMessages (projectList pi projectMap)
  | claude =>
      let '(allSessions, allMessages, projectMap) :=
        fold_left (addClaudeFile year) (jsonlFiles data) ([], [], []) in
      mkCollected (map_values allSessions) allMessages
        (projectList claude projectMap)
  | codex =>
      let '(sessions, allMessages, projectMap) :=
        fold_left (fun acc f => addFileSession acc (parseCodexFile f year))
          (jsonlFiles data) ([], [], []) in
      mkCollected sessions allMessages (projectList codex projectMap)
  end.

(** ** The statistics engine ([src/stats.ts]) *)

Definition DailyActivity : Type := list (string * Z).

(** [activeDates[i]] as the argument of [new Date] *)
Definition dateAt (activeDates : list string) (i : nat) : value :=
  match nth_error activeDates i with
  | Some s => VStr s
  | None => VUndef
  end.

(** [Math.round((curr.getTime() - prev.getTime()) / msPerDay)]; [None] is
    NaN. *)
Definition diffDays (prevDate currDate : date) : option Z :=
  match currDate, prevDate with
  | Some c, Some p => Some (round_div (c - p) msPerDay)
  | _, _ => None
  end.

Definition isNextDay (activeDates : list string) (i : nat) : bool :=
  match diffDays (newDate (dateAt activeDates (i - 1)))
                 (newDate (dateAt activeDates i)) with
  | Some n => n =? 1
  | None => false
  end.

Record Scan : Type := mkScan {
  scan_maxStreak : Z;
  scan_tempStreak : Z;
  scan_tempStreakStart : nat;
  scan_maxStreakStart : nat;
  scan_maxStreakEnd : nat
}.

(** The body of [for (let i = 1; i < activeDates.length; i++)] *)
Definition scanStep (activeDates : list string) (st : Scan) (i : nat) : Scan :=
  if isNextDay activeDates i then
    let tempStreak := scan_tempStreak st + 1 in
    if scan_maxStreak st <? tempStreak then
      mkScan tempStreak tempStreak (scan_tempStreakStart st)
        (scan_tempStreakStart st) i
    else
      mkScan (scan_maxStreak st) tempStreak (scan_tempStreakStart st)
        (scan_maxStreakStart st) (scan_maxStreakEnd st)
  else
    mkScan (scan_maxStreak st) 1 i (scan_maxStreakStart st)
      (scan_maxStreakEnd st).

Definition scanStreaks (activeDates : list string) : Scan :=
  fold_left (scanStep activeDates)
    (seq 1 (List.length activeDates - 1)) (mkScan 1 1 0 0 0).

(** [for (let i = maxStreakStart; i <= maxStreakEnd; i++)
      maxStreakDays.add(activeDates[i])]; the index stays inside the
    array. *)
Definition streakDays (activeDates : list string) (st : Scan) : list string :=
  fold_left
    (fun set i =>
       match nth_error activeDates i with
       | Some d => set_add set d
       | None => set
       end)
    (seq (scan_maxStreakStart st)
         (S (scan_maxStreakEnd st) - scan_maxStreakStart st)) [].

Definition hasDay (dailyActivity : DailyActivity) (key : string) : bool :=
  map_has String.eqb dailyActivity key.

(** [new Date(d.getTime() - 24 * 60 * 60 * 1000)] *)
Definition dayBefore (d : date) : date :=
  bind d (fun t => timeClip (t - msPerDay)).

(** The loop of [countStreakBackwards]; [None] when it does not end within
    [fuel] rounds. *)
Fixpoint countBack (dailyActivity : DailyActivity) (fuel : nat) (streak : Z)
  (checkDate : date) : option Z :=
  match fuel with
  | O => None
  | S fuel' =>
      let checkDate' := dayBefore checkDate in
      if hasDay dailyActivity (formatDateKey checkDate')
      then countBack dailyActivity fuel' (streak + 1) checkDate'
      else Some streak
  end.

(** A walk that has gone through more rounds than the map has keys has met
    some key twice and goes on for ever. *)
Definition countStreakBackwards (dailyActivity : DailyActivity)
  (startDate : date) : option Z :=
  countBack dailyActivity (S (List.length dailyActivity)) 1 startDate.

Record Streaks : Type := mkStreaks {
  streaks_maxStreak : Z;
  streaks_currentStreak : Z;
  streaks_maxStreakDays : list string
}.

Definition activeDatesOf (dailyActivity : DailyActivity) (year : Z)
  : list string :=
  StringSort.sort
    (filter (fun date => String.prefix (string_of_Z year) date)
       (map_keys dailyActivity)).

(** [now] is the wall clock, [Date.now()]; [None] when the function does
    not return. *)
Definition calculateStreaks (dailyActivity : DailyActivity) (year : Z)
  (now : Z) : option Streaks :=
  let activeDates := activeDatesOf dailyActivity year in
  if (List.length activeDates =? 0)%nat then Some (mkStreaks 0 0 [])
  else
    let st := scanStreaks activeDates in
    let maxStreakDays := streakDays activeDates st in
    let today := formatDateKey (timeClip now) in
    let yesterday := formatDateKey (timeClip (now - msPerDay)) in
    currentStreak <-
      (if hasDay dailyActivity today
       then countStreakBackwards dailyActivity (timeClip now)
       else if hasDay dailyActivity yesterday
       then countStreakBackwards dailyActivity (timeClip (now - msPerDay))
       else Some 0) ;;
    Some (mkStreaks (scan_maxStreak st) currentStreak maxStreakDays).

Record Totals : Type := mkTotals {
  acc_totalInputTokens : value;
  acc_totalOutputTokens : value;
  acc_totalCost : value;
  acc_dailyActivity : DailyActivity
}.

(** The body of [for (const message of yearMessages)], for the totals and
    the daily activity.  Under [if (message.usage)] the usage is neither
    [null] nor [undefined], so its properties are read without a throw. *)
Definition accumulate (acc : Totals) (message : MessageData) : Totals :=
  let usage := message_usage message in
  let input := if truthy usage
    then js_plus (acc_totalInputTokens acc)
           (or_else (getOpt usage "input") (VNum 0))
    else acc_totalInputTokens acc in
  let output := if truthy usage
    then js_plus (acc_totalOutputTokens acc)
           (or_else (getOpt usage "output") (VNum 0))
    else acc_totalOutputTokens acc in
  let total := getOpt (getOpt usage "cost") "total" in
  let cost := if truthy usage && truthy total
    then js_plus (acc_totalCost acc) total
    else acc_totalCost acc in
  let dateKey := formatDateKey (newDate (message_timestamp message)) in
  mkTotals input output cost
    (map_set String.eqb (acc_dailyActivity acc) dateKey
       (countPlusOne String.eqb (acc_dailyActivity acc) dateKey)).

Record WrappedStats : Type := mkStats {
  year : Z;
  source : DataSource;
  totalSessions : nat;
  totalMessages : nat;
  totalProjects : nat;
  totalInputTokens : value;
  totalOutputTokens : value;
  totalTokens : value;
  totalCost : value;
  maxStreak : Z;
  currentStreak : Z;
  maxStreakDays : list string;
  dailyActivity : DailyActivity
}.

Definition yearMessagesOf (year : Z) (c : Collected) : list MessageData :=
  filter (fun m => yearIs (message_timestamp m) year) (messages c).

Definition yearSessionsOf (year : Z) (c : Collected) : list SessionData :=
  filter (fun s => yearIs (session_timestamp s) year) (sessions c).

(** [calculateStats(year, source)] over the files of the source and the
    wall clock; the record carries the fields of [WrappedStats] that do not
    come from the model-name lookups.  [None] when the function does not
    return. *)
Definition calculateStats (year : Z) (source : DataSource)
  (data : SourceData) (now : Z) : option WrappedStats :=
  let collected := collectAll source data None in
  let sessions := yearSessionsOf year collected in
  let yearMessages := yearMessagesOf year collected in
  let acc := fold_left accumulate yearMessages
               (mkTotals (VNum 0) (VNum 0) (VNum 0) []) in
  streaks <- calculateStreaks (acc_dailyActivity acc) year now ;;
  Some (mkStats year source
          (List.length sessions) (List.length yearMessages)
          (List.length (projects collected))
          (acc_totalInputTokens acc) (acc_totalOutputTokens acc)
          (js_plus (acc_totalInputTokens acc) (acc_totalOutputTokens acc))
          (acc_totalCost acc)
          (streaks_maxStreak streaks) (streaks_currentStreak streaks)
          (streaks_maxStreakDays streaks) (acc_dailyActivity acc)).

End Host.

(** ** The rest of the summary ([src/stats.ts])

    The fields of the summary that [WrappedStats] above leaves out: the
    rankings of models and providers, the weekday distribution, the most
    active day and the first-session metrics.  The loop over the year's
    messages that fills [dailyActivity] also fills the three counters of
    [Tally]. *)

Section Summary.

Variable tz : Z.
Variable hostDate : value -> option Z.

(** The host's reading of [Number(s)] for a string that is not made of
    decimal digits only ([None] is NaN), and the three lookups of
    [src/models.ts] after [fetchModelsData] has returned. *)
Variable hostNumber : string -> option Z.
Variable getModelDisplayName : value -> value.
Variable getModelProvider : value -> value.
Variable getProviderDisplayName : value -> value.

(** [d.getDay()]: 0 is Sunday, and 1970-01-01 was a Thursday; [None] is
    NaN. *)
Definition getDay (d : date) : option Z :=
  option_map (fun t => (localDay tz t + 4) mod 7) d.

(** [counts[i]++] for an index of the array. *)
Fixpoint increment (counts : list Z) (i : nat) : list Z :=
  match counts, i with
  | [], _ => []
  | c :: rest, O => (c + 1) :: rest
  | c :: rest, S j => c :: increment rest j
  end.

(** [weekdayCounts[date.getDay()]++]; with NaN for an index the seven
    counters stay as they are. *)
Definition countWeekday (weekdayCounts : list Z) (d : date) : list Z :=
  match getDay d with
  | Some w => increment weekdayCounts (Z.to_nat w)
  | None => weekdayCounts
  end.

Definition CountMap : Type := list (value * Z).

(** [counts.set(k, (counts.get(k) || 0) + 1)] *)
Definition countUse (counts : CountMap) (k : value) : CountMap :=
  map_set same_value_zero counts k (countPlusOne same_value_zero counts k).

Record Tally : Type := mkTally {
  tally_modelCounts : CountMap;
  tally_providerCounts : CountMap;
  tally_weekdayCounts : list Z
}.

(** The body of [for (const message of yearMessages)], for the model and
    provider counters and the weekday counters. *)
Definition tally (acc : Tally) (message : MessageData) : Tally :=
  let assistant := is_str (message_role message) "assistant" in
  mkTally
    (if assistant && truthy (message_modelId message)
     then countUse (tally_modelCounts acc) (message_modelId message)
     else tally_modelCounts acc)
    (if assistant && truthy (message_provider message)
     then countUse (tally_providerCounts acc) (message_provider message)
     else tally_providerCounts acc)
    (countWeekday (tally_weekdayCounts acc)
       (newDate hostDate (message_timestamp message))).

Definition tally0 : Tally := mkTally [] [] [0; 0; 0; 0; 0; 0; 0].

(** [entries.sort((a, b) => b[1] - a[1])]: [Array.prototype.sort] is stable,
    so with integer counts the result is the one arrangement in descending
    count in which entries of equal count keep the order of the map; it is
    computed here by insertion from the right. *)
Fixpoint insertByCount (e : value * Z) (sorted : list (value * Z))
  : list (value * Z) :=
  match sorted with
  | [] => [e]
  | e' :: rest =>
      if snd e' <=? snd e then e :: sorted else e' :: insertByCount e rest
  end.

Definition sortByCount (entries : list (value * Z)) : list (value * Z) :=
  fold_right insertByCount [] entries.

(** [Array.from(counts.entries()).sort(...).slice(0, 3)] *)
Definition topEntries (counts : CountMap) : list (value * Z) :=
  firstn 3 (sortByCount counts).

Record ModelStats : Type := mkModelStats {
  model_id : value;
  model_name : value;
  model_providerId : value;
  model_count : Z;
  model_percentage : Z
}.

Record ProviderStats : Type := mkProviderStats {
  provider_id : value;
  provider_name : value;
  provider_count : Z;
  provider_percentage : Z
}.

Definition topModelsOf (modelCounts : CountMap) : list ModelStats :=
  map (fun '(id, count) =>
         mkModelStats id (getModelDisplayName id) (getModelProvider id)
           count 0)
    (topEntries modelCounts).

Definition topProvidersOf (providerCounts : CountMap) : list ProviderStats :=
  map (fun '(id, count) =>
         mkProviderStats id (getProviderDisplayName id) count 0)
    (topEntries providerCounts).

(** [Number(s)] for a string: a string of decimal digits is its value (the
    empty string is 0). *)
Definition numberOfString (s : string) : option Z :=
  match digits_value 0 s with
  | Some n => Some n
  | None => hostNumber s
  end.

(** ToNumber; [None] is NaN. *)
Definition toNumber (v : value) : option Z :=
  match to_primitive v with
  | VStr s => numberOfString s
  | p => to_number p
  end.

(** [Math.min(first, ...rest)]: NaN as soon as one argument is NaN. *)
Fixpoint mathMin (first : option Z) (rest : list (option Z)) : option Z :=
  match rest with
  | [] => first
  | x :: rest' =>
      mathMin (match first, x with
               | Some a, Some b => Some (Z.min a b)
               | _, _ => None
               end) rest'
  end.

(** [firstSessionDate] and [daysSinceFirstSession], over the sessions of
    all years. *)
Definition firstSession (allSessions : list SessionData) (now : Z)
  : date * option Z :=
  match map (fun s => toNumber (session_timestamp s)) allSessions with
  | [] => (timeClip now, Some 0)
  | t :: rest =>
      let firstSessionTimestamp := mathMin t rest in
      (bind firstSessionTimestamp timeClip,
       option_map (fun first => (now - first) / msPerDay)
         firstSessionTimestamp)
  end.

(** [s.split(sep)] for a separator of one character. *)
Fixpoint split (sep : ascii) (s : string) : list string :=
  match s with
  | EmptyString => [EmptyString]
  | String c rest =>
      if Ascii.eqb c sep then EmptyString :: split sep rest
      else
        match split sep rest with
        | piece :: pieces => String c piece :: pieces
        | [] => [String c EmptyString]
        end
  end.

(** [new Date(year, month, day)]: a year from 0 to 99 stands for 1900 plus
    that year, a month outside 0..11 carries into the year, the day counts
    on from the first of the month, and the result is read in local time. *)
Definition localDate (year month day : option Z) : date :=
  match year, month, day with
  | Some y, Some m, Some dt =>
      let yr := if (0 <=? y) && (y <=? 99) then 1900 + y else y in
      let first := days_from_civil (yr + m / 12) (m mod 12 + 1) 1 in
      if Z.abs (first * msPerDay) <=? 8640000000000000
      then timeClip ((first + dt - 1) * msPerDay - tz)
      else None
  | _, _, _ => None
  end.

Definition monthNames : list string :=
  ["Jan"; "Feb"; "Mar"; "Apr"; "May"; "Jun";
   "Jul"; "Aug"; "Sep"; "Oct"; "Nov"; "Dec"].

(** [`${monthNames[d.getMonth()]} ${d.getDate()}`] *)
Definition formatMonthDay (d : date) : string :=
  let name :=
    match getMonth1 tz d with
    | Some m =>
        match nth_error monthNames (Z.to_nat (m - 1)) with
        | Some name => name
        | None => "undefined"
        end
    | None => "undefined"
    end in
  (name ++ " " ++ string_of_number (getDate tz d))%string.

Record MostActiveDay : Type := mkMostActiveDay {
  mostActive_date : string;
  mostActive_count : Z;
  mostActive_formattedDate : string
}.

(** The body of [for (const [date, count] of dailyActivity.entries())] *)
Definition mostActiveStep (st : string * Z) (entry : string * Z)
  : string * Z :=
  if snd st <? snd entry then entry else st.

Definition findMostActiveDay (dailyActivity : DailyActivity)
  : option MostActiveDay :=
  if (List.length dailyActivity =? 0)%nat then None
  else
    let '(maxDate, maxCount) :=
      fold_left mostActiveStep dailyActivity (EmptyString, 0) in
    if String.eqb maxDate "" then None
    else
      let parts := map numberOfString (split "-" maxDate) in
      let year := nth 0 parts None in
      let month := nth 1 parts None in
      let day := nth 2 parts None in
      let dateObj := localDate year (option_map (fun m => m - 1) month) day in
      Some (mkMostActiveDay maxDate maxCount (formatMonthDay dateObj)).

Definition WEEKDAY_NAMES_FULL : list string :=
  ["Sunday"; "Monday"; "Tuesday"; "Wednesday"; "Thursday"; "Friday";
   "Saturday"].

Record WeekdayActivity : Type := mkWeekdayActivity {
  weekday_counts : list Z;
  weekday_mostActiveDay : nat;
  weekday_mostActiveDayName : value;
  weekday_maxCount : Z
}.

(** The body of [for (let i = 0; i < 7; i++)]; a missing counter is
    [undefined], which is not greater than any number. *)
Definition weekdayStep (counts : list Z) (st : nat * Z) (i : nat) : nat * Z :=
  match nth_error counts i with
  | Some c => if snd st <? c then (i, c) else st
  | None => st
  end.

Definition buildWeekdayActivity (counts : list Z) : WeekdayActivity :=
  let '(mostActiveDay, maxCount) :=
    fold_left (weekdayStep counts) (seq 0 7) (O, 0) in
  mkWeekdayActivity counts mostActiveDay
    (match nth_error WEEKDAY_NAMES_FULL mostActiveDay with
     | Some name => VStr name
     | None => VUndef
     end)
    maxCount.

Record Highlights : Type := mkHighlights {
  firstSessionDate : date;
  daysSinceFirstSession : option Z;
  topModels : list ModelStats;
  topProviders : list ProviderStats;
  mostActiveDay : option MostActiveDay;
  weekdayActivity : WeekdayActivity
}.

(** What [calculateStats(year, source)] puts into the fields above; the
    daily-activity map is the one of [calculateStats]. *)
Definition calculateHighlights (year : Z) (source : DataSource)
  (data : SourceData) (now : Z) : Highlights :=
  let collected := collectAll tz hostDate source data None in
  let yearMessages := yearMessagesOf tz hostDate year collected in
  let '(firstSessionDate, daysSinceFirstSession) :=
    firstSession (sessions collected) now in
  let acc := fold_left (accumulate tz hostDate) yearMessages
               (mkTotals (VNum 0) (VNum 0) (VNum 0) []) in
  let counts := fold_left tally yearMessages tally0 in
  mkHighlights firstSessionDate daysSinceFirstSession
    (topModelsOf (tally_modelCounts counts))
    (topProvidersOf (tally_providerCounts counts))
    (findMostActiveDay (acc_dailyActivity acc))
    (buildWeekdayActivity (tally_weekdayCounts counts)).

End Summary.

(** ** Finding the data ([src/collector.ts], [src/index.ts]) *)

(** What [stat] and [readdir] say of a path: a directory with its entries
    ([None] where [readdir] throws), or something that is not a directory.
    An entry whose [stat] throws has no node. *)
Inductive FsNode : Type :=
| FsFile
| FsDir (entries : option (list (string * option FsNode))).

(** [join(currentDir, entry)] for a normalized directory path and a name
    that [readdir] gives. *)
Definition join (currentDir entry : string) : string :=
  (currentDir ++ "/" ++ entry)%string.

(** [s.endsWith(suffix)] *)
Definition endsWith (s suffix : string) : bool :=
  (String.length suffix <=? String.length s)%nat
  && String.eqb
       (substring (String.length s - String.length suffix)
          (String.length suffix) s)
       suffix.

(** [walk(currentDir)]: [readdir] throws on a path that is not a directory
    and the walk skips it; an entry is walked when [stat] calls it a
    directory, and listed when it is not one and its name ends in
    [.jsonl]. *)
Fixpoint walk (currentDir : string) (node : FsNode) : list string :=
  match node with
  | FsFile => []
  | FsDir None => []
  | FsDir (Some entries) =>
      (fix each (entries : list (string * option FsNode)) : list string :=
         match entries with
         | [] => []
         | (entry, stats) :: rest =>
             let fullPath := join currentDir entry in
             match stats with
             | None => each rest
             | Some child =>
                 match child with
                 | FsDir _ => walk fullPath child ++ each rest
                 | FsFile =>
                     if endsWith entry ".jsonl" then fullPath :: each rest
                     else each rest
                 end
             end
         end) entries
  end.

(** [findJsonlFiles(dir)] over what lies at [dir]. *)
Definition findJsonlFiles (dir : string) (node : FsNode) : list string :=
  walk dir node.

(** [getAvailableSources()], over the answers of [checkDataExists]. *)
Definition getAvailableSources (checkDataExists : DataSource -> bool)
  : list DataSource :=
  filter checkDataExists [opencode; claude; codex; pi].

(** The test [["opencode", "claude", "codex", "pi"].includes(name)] of
    [main] and the source it lets through. *)
Definition sourceOfName (name : string) : option DataSource :=
  if String.eqb name "opencode" then Some opencode
  else if String.eqb name "claude" then Some claude
  else if String.eqb name "codex" then Some codex
  else if String.eqb name "pi" then Some pi
  else None.

(** How [main] leaves its choice of a source: with the source to scan, or
    by [process.exit(code)]. *)
Inductive Choice : Type :=
| Scan_source (source : DataSource)
| Exit (code : Z).

(** The part of [main] that determines the data source: [requested] is
    [values.source], [select] the answer of the prompt to its options
    ([None] when it is cancelled). *)
Definition chooseSource (requested : option string)
  (checkDataExists : DataSource -> bool)
  (select : list DataSource -> option DataSource) : Choice :=
  let given :=
    match requested with
    | Some name => negb (String.eqb name "")
    | None => false
    end in
  if given then
    match bind requested sourceOfName with
    | None => Exit 1
    | Some source =>
        if checkDataExists source then Scan_source source else Exit 1
    end
  else
    match getAvailableSources checkDataExists with
    | [] => Exit 1
    | [source] => Scan_source source
    | available =>
        match select available with
        | Some source => Scan_source source
        | None => Exit 0
        end
    end.

(** ** Vocabulary of the properties *)

(** The date key of a civil date and of a day number, as [formatDateKey]
    writes it. *)
Definition dateKey (y m d : Z) : string :=
  (string_of_Z y ++ "-" ++ padStart2 (string_of_Z m) ++ "-"
   ++ padStart2 (string_of_Z d))%string.

Definition keyOfDay (n : Z) : string :=
  let '(y, m, d) := civil_from_days n in dateKey y m d.

Definition two_digits_ok (m : Z) : bool :=
  let s := padStart2 (string_of_Z m) in
  (String.length s =? 2)%nat
  && match digits_value 0 s with Some v => v =? m | None => false end.

Definition four_digits_ok (y : Z) : bool :=
  let s := string_of_Z y in
  (String.length s =? 4)%nat
  && match digits_value 0 s with Some v => v =? y | None => false end.

(** A daily-activity map whose keys are date keys, as [calculateStats]
    builds it. *)
Definition dateKeyed (dailyActivity : list (string * Z)) : Prop :=
  Forall (fun key => exists n, key = keyOfDay n) (map_keys dailyActivity).

(** The sum of the counters of a daily-activity map. *)
Definition sumValues (dailyActivity : list (string * Z)) : Z :=
  fold_right Z.add 0 (map_values dailyActivity).

(** The totals before the first message. *)
Definition totals0 : Totals := mkTotals (VNum 0) (VNum 0) (VNum 0) [].

(** A message whose usage block carries no truthy [cost.total]. *)
Definition noCost (m : MessageData) : Prop :=
  truthy (getOpt (getOpt (message_usage m) "cost") "total") = false.

(** The distinct values of a list, up to the key equality of [Map]. *)
Fixpoint distinctValues (seen : list value) (vs : list value) : list value :=
  match vs with
  | [] => seen
  | v :: rest =>
      if existsb (fun k => same_value_zero k v) seen
      then distinctValues seen rest
      else distinctValues (seen ++ [v]) rest
  end.

(** The number of distinct working-directory paths among some sessions. *)
Definition distinctPaths (ss : list SessionData) : nat :=
  List.length (distinctValues [] (map session_cwd ss)).

(** A line that defines the session of its file (its [type] is [tag]) with a
    timestamp whose local year is not [y]. *)
Definition definesSessionOutside (tz : Z) (hostDate : value -> option Z)
  (tag : string) (y : Z) (l : line) : bool :=
  match l with
  | Some parsed =>
      match get parsed "type", get parsed "timestamp" with
      | Some type, Some timestamp =>
          is_str type tag
          && negb (yearIs tz hostDate (parseTimestamp hostDate timestamp) y)
      | _, _ => false
      end
  | None => false
  end.

(** An assistant message that lacks usage data: the test of the backwards
    scan of the token-count branch. *)
Definition wantsUsage (m : MessageData) : bool :=
  is_str (message_role m) "assistant" && negb (truthy (message_usage m)).

(** The usage that a line carries as a token-count event
    ([type] is [event_msg], [payload.type] is [token_count]):
    [payload.info?.last_token_usage], or [undefined] for any other line. *)
Definition tokenCountUsage (parsed : value) : value :=
  if is_str (getOpt parsed "type") "event_msg"
     && is_str (getOpt (getOpt parsed "payload") "type") "token_count"
  then getOpt (getOpt (getOpt parsed "payload") "info") "last_token_usage"
  else VUndef.

(** The usage block made of a token-count usage. *)
Definition normalizedUsage (usage : value) : value :=
  VObj [("input", or_else (getOpt usage "input_tokens") (VNum 0));
        ("output", or_else (getOpt usage "output_tokens") (VNum 0))].

(** Values that are pairwise different keys of a [Map]. *)
Definition pairwiseDistinct (keys : list value) : Prop :=
  ForallOrdPairs (fun a b => same_value_zero a b = false) keys.

(** A line counts when its [type] and its [sessionId] are truthy and its
    timestamp passes the year filter; a turn is a line of type [user] or
    [assistant]. *)
Definition claudeCounted (tz : Z) (hostDate : value -> option Z)
  (year : option Z) (parsed : value) : bool :=
  truthy (getOpt parsed "type") && truthy (getOpt parsed "sessionId")
  && negb (yearMismatch tz hostDate year
             (parseTimestamp hostDate (getOpt parsed "timestamp"))).

Definition isTurn (parsed : value) : bool :=
  is_str (getOpt parsed "type") "user"
  || is_str (getOpt parsed "type") "assistant".

(** The session record and the message that a line stands for. *)
Definition claudeSessionOf (hostDate : value -> option Z) (parsed : value)
  : SessionData :=
  mkSession (getOpt parsed "sessionId")
    (parseTimestamp hostDate (getOpt parsed "timestamp"))
    (getOpt parsed "cwd") (VStr "anthropic")
    (or_else (getOpt (getOpt parsed "message") "model") (VStr "claude"))
    claude.

Definition claudeUsageOf (usage : value) : value :=
  if truthy usage then
    VObj [("input", or_else (getOpt usage "input_tokens") (VNum 0));
          ("output", or_else (getOpt usage "output_tokens") (VNum 0));
          ("cacheRead", getOpt usage "cache_read_input_tokens");
          ("cacheWrite", getOpt usage "cache_creation_input_tokens")]
  else VUndef.

Definition claudeMessageOf (hostDate : value -> option Z) (parsed : value)
  : MessageData :=
  mkMessage (getOpt parsed "sessionId") (getOpt parsed "type")
    (parseTimestamp hostDate (getOpt parsed "timestamp"))
    (VStr "anthropic") (getOpt (getOpt parsed "message") "model")
    (claudeUsageOf (getOpt (getOpt parsed "message") "usage")) claude.

(** The messages of one line: one for a counted turn, none otherwise. *)
Definition claudeMessagesOfLine (tz : Z) (hostDate : value -> option Z)
  (year : option Z) (l : line) : list MessageData :=
  match l with
  | Some parsed =>
      if claudeCounted tz hostDate year parsed && isTurn parsed
      then [claudeMessageOf hostDate parsed]
      else []
  | None => []
  end.

(** No counted line of [before] carries the session id of [parsed]. *)
Definition firstWithItsId (tz : Z) (hostDate : value -> option Z)
  (year : option Z) (before : list line) (parsed : value) : Prop :=
  forall p, In (Some p) before -> claudeCounted tz hostDate year p = true ->
            same_value_zero (getOpt p "sessionId") (getOpt parsed "sessionId")
            = false.

(** What one line does to the sessions registered so far. *)
Definition claudeRegister (tz : Z) (hostDate : value -> option Z)
  (year : option Z) (registered : list (value * SessionData)) (l : line)
  : list (value * SessionData) :=
  match l with
  | Some parsed =>
      if claudeCounted tz hostDate year parsed
         && negb (map_has same_value_zero registered
                    (getOpt parsed "sessionId"))
      then registered ++ [(getOpt parsed "sessionId",
                           claudeSessionOf hostDate parsed)]
      else registered
  | None => registered
  end.

(** The session that one parsed file or one decoded document gives to the
    collection, as a list of none or one. *)
Definition sessionOfFile (parsed : option SessionData * list MessageData)
  : list SessionData :=
  match fst parsed with
  | Some s => [s]
  | None => []
  end.

Definition sessionOfDoc (tz : Z) (hostDate : value -> option Z)
  (year : option Z) (doc : option value) : list SessionData :=
  fst (eachDoc (openCodeSession tz hostDate year) ([], []) doc).

(** A map entry whose session record carries the entry's key as its id. *)
Definition keyed (e : value * SessionData) : Prop := session_id (snd e) = fst e.

(** [activeDates[s..e]] is a run: the indices lie in the array and every date
    after the first is, by the test of the scan, the day after the one before
    it. *)
Definition isRun (hostDate : value -> option Z) (activeDates : list string)
  (s e : nat) : Prop :=
  (s <= e < List.length activeDates)%nat
  /\ forall j, (s < j <= e)%nat -> isNextDay hostDate activeDates j = true.

(** The state of the scan after the rounds [i = 1 .. k]. *)
Record ScanInvariant (hostDate : value -> option Z)
  (activeDates : list string) (k : nat) (st : Scan) : Prop := mkScanInvariant {
  inv_temp_run : isRun hostDate activeDates (scan_tempStreakStart st) k;
  inv_temp_length :
    scan_tempStreak st = Z.of_nat (k - scan_tempStreakStart st + 1);
  inv_temp_start :
    scan_tempStreakStart st = O
    \/ isNextDay hostDate activeDates (scan_tempStreakStart st) = false;
  inv_max_run :
    isRun hostDate activeDates (scan_maxStreakStart st) (scan_maxStreakEnd st);
  inv_max_seen : (scan_maxStreakEnd st <= k)%nat;
  inv_max_length :
    scan_maxStreak st
    = Z.of_nat (scan_maxStreakEnd st - scan_maxStreakStart st + 1);
  inv_max_longest :
    forall s e, (e <= k)%nat -> isRun hostDate activeDates s e ->
                Z.of_nat (e - s + 1) <= scan_maxStreak st;
  inv_max_first :
    forall s e, (e <= k)%nat -> isRun hostDate activeDates s e ->
                Z.of_nat (e - s + 1) = scan_maxStreak st ->
                (scan_maxStreakEnd st <= e)%nat
}.

(** A daily-activity map whose keys are the date keys [YYYY-MM-DD] of days
    in the years 1000 to 9999. *)
Definition isoKeyed (dailyActivity : list (string * Z)) : Prop :=
  Forall (fun key => exists n, key = keyOfDay n
                               /\ 1000 <= fst (fst (civil_from_days n)) <= 9999)
    (map_keys dailyActivity).

(** A daily-activity map whose keys are date keys of days of one year. *)
Definition dateKeyedIn (year : Z) (dailyActivity : list (string * Z)) : Prop :=
  Forall (fun key => exists n, key = keyOfDay n
                               /\ fst (fst (civil_from_days n)) = year)
    (map_keys dailyActivity).

(** The date key of the local day of a message. *)
Definition messageDay (tz : Z) (hostDate : value -> option Z)
  (m : MessageData) : string :=
  formatDateKey tz (newDate hostDate (message_timestamp m)).

(** The keys of the project map are the distinct working directories of the
    sessions collected so far. *)
Definition projectsOf (ss : list SessionData) (projectMap : ProjectMap)
  : Prop :=
  map_keys projectMap = distinctValues [] (map session_cwd ss).

(** A message whose local date falls on the weekday [w], 0 for Sunday. *)
Definition onWeekday (tz : Z) (hostDate : value -> option Z) (w : nat)
  (m : MessageData) : bool :=
  match getDay tz (newDate hostDate (message_timestamp m)) with
  | Some d => d =? Z.of_nat w
  | None => false
  end.

(** The number of elements of a list that pass a test, and the sum of a
    list of numbers. *)
Definition countOn {A} (p : A -> bool) (l : list A) : Z :=
  Z.of_nat (List.length (filter p l)).

Definition sumOf (counts : list Z) : Z := fold_right Z.add 0 counts.

(** Entries in descending order of count. *)
Definition descending (entries : list (value * Z)) : Prop :=
  StronglySorted (fun a b => snd b <= snd a) entries.

(** The entries of a given count. *)
Definition ofCount (c : Z) (entries : list (value * Z)) : list (value * Z) :=
  filter (fun e => snd e =? c) entries.

(** An assistant message that names the model, or the provider, [k]. *)
Definition namesModel (k : value) (m : MessageData) : bool :=
  is_str (message_role m) "assistant" && truthy (message_modelId m)
  && same_value_zero (message_modelId m) k.

Definition namesProvider (k : value) (m : MessageData) : bool :=
  is_str (message_role m) "assistant" && truthy (message_provider m)
  && same_value_zero (message_provider m) k.

(** The counter of a key in a map of counters, 0 for a key that is not in
    the map. *)
Definition countOf (counts : list (value * Z)) (k : value) : Z :=
  match map_get same_value_zero counts k with
  | Some n => n
  | None => 0
  end.

(** A path that [findJsonlFiles(dir)] may list: it lies under [dir] and
    ends in [.jsonl]. *)
Definition jsonlUnder (dir path : string) : Prop :=
  endsWith path ".jsonl" = true
  /\ exists rest, path = join dir rest.

(** A session, or a message, whose timestamp lies in the local year [y]. *)
Definition sessionIn (tz : Z) (hostDate : value -> option Z) (y : Z)
  (s : SessionData) : Prop :=
  yearIs tz hostDate (session_timestamp s) y = true.

Definition messageIn (tz : Z) (hostDate : value -> option Z) (y : Z)
  (m : MessageData) : Prop :=
  yearIs tz hostDate (message_timestamp m) y = true.

(** The session of a parsed file, if it has one, lies in the year [y]. *)
Definition fileSessionIn (tz : Z) (hostDate : value -> option Z) (y : Z)
  (session : option SessionData) : Prop :=
  match session with
  | Some s => sessionIn tz hostDate y s
  | None => True
  end.

(** The state of a collection loop: the counters of the project map are
    positive, its keys are pairwise different, they sum to the number of
    sessions, and the counter of a path is the number of sessions with that
    working directory. *)
Definition projectsCount (ss : list SessionData) (projectMap : ProjectMap)
  : Prop :=
  Forall (fun e => 1 <= snd e) projectMap
  /\ pairwiseDistinct (map_keys projectMap)
  /\ sumOf (map_values projectMap) = Z.of_nat (List.length ss)
  /\ forall k, countOf projectMap k
               = countOn (fun s => same_value_zero (session_cwd s) k) ss.

(** The counter of a day in a daily-activity map, 0 for a day that is not
    in the map. *)
Definition countOfDay (dailyActivity : list (string * Z)) (key : string) : Z :=
  match map_get String.eqb dailyActivity key with
  | Some n => n
  | None => 0
  end.

(** A message whose local date has the date key [key]. *)
Definition onDay (tz : Z) (hostDate : value -> option Z) (key : string)
  (m : MessageData) : bool :=
  String.eqb (messageDay tz hostDate m) key.

(** What a message adds to a token total: [usage.input || 0] or
    [usage.output || 0] under [if (message.usage)], and 0 without usage. *)
Definition tokensOf (field : string) (m : MessageData) : value :=
  if truthy (message_usage m)
  then or_else (getOpt (message_usage m) field) (VNum 0)
  else VNum 0.

(** A message whose token counts, where it has any, are numbers. *)
Definition numericTokens (m : MessageData) : Prop :=
  exists input output,
    tokensOf "input" m = VNum input /\ tokensOf "output" m = VNum output.

(** The number that a value holds, and the sum of what the messages add to
    a token total. *)
Definition numberOf (v : value) : Z :=
  match v with
  | VNum n => n
  | _ => 0
  end.

Definition sumTokens (field : string) (msgs : list MessageData) : Z :=
  sumOf (map (fun m => numberOf (tokensOf field m)) msgs).

(** The message that one decoded document gives to the collection, as a
    list of none or one. *)
Definition messageOfDoc (tz : Z) (hostDate : value -> option Z)
  (year : option Z) (doc : option value) : list MessageData :=
  eachDoc (openCodeMessage tz hostDate year) [] doc.

(** A line whose [type] is [tag]: [session] defines the session of a Pi
    file, [session_meta] the one of a Codex file. *)
Definition hasType (tag : string) (l : line) : bool :=
  match l with
  | Some parsed => is_str (getOpt parsed "type") tag
  | None => false
  end.

(** A message that carries the id of the session [s]. *)
Definition messageOf (s : SessionData) (m : MessageData) : Prop :=
  message_sessionId m = sessionIdOrEmpty (Some s).

(** ** Sample inputs *)

(** The ISO date-time form [YYYY-MM-DDTHH:mm:ss.sssZ], as [toISOString]
    writes it and the logs carry it. *)
Definition parseIsoDateTime (s : string) : option Z :=
  if (String.length s =? 24)%nat
     && String.eqb (substring 10 1 s) "T" && String.eqb (substring 13 1 s) ":"
     && String.eqb (substring 16 1 s) ":" && String.eqb (substring 19 1 s) "."
     && String.eqb (substring 23 1 s) "Z"
  then
    match parseIsoDateOnly (substring 0 10 s),
          digits_value 0 (substring 11 2 s),
          digits_value 0 (substring 14 2 s),
          digits_value 0 (substring 17 2 s),
          digits_value 0 (substring 20 3 s) with
    | Some day, Some h, Some m, Some sec, Some ms =>
        if (h <? 24) && (m <? 60) && (sec <? 60)
        then Some (day + ((h * 60 + m) * 60 + sec) * 1000 + ms)
        else None
    | _, _, _, _, _ => None
    end
  else None.

(** The UTC zone, a host that reads the ISO date-time strings and no other
    string, array or object, and a few moments in epoch milliseconds:
    2023-07-01, 2024-12-31, 2025-01-01 and 2025-06-15, each at 12:00 UTC. *)
Definition utc : Z := 0.

Definition isoHost (v : value) : option Z :=
  match v with
  | VStr s => parseIsoDateTime s
  | _ => None
  end.

Definition noon_2023_07_01 : Z := 1688212800000.

Definition noon_2024_12_31 : Z := 1735646400000.

Definition noon_2025_01_01 : Z := 1735732800000.

Definition noon_2025_06_15 : Z := 1749988800000.

(** A Claude transcript of one assistant line that carries [costUSD]. *)
Definition claudeCostFile : file :=
  Some [Some (VObj [("type", VStr "assistant");
                    ("sessionId", VStr "s1");
                    ("timestamp", VStr "2025-06-15T12:00:00.000Z");
                    ("cwd", VStr "/work");
                    ("message",
                     VObj [("role", VStr "assistant");
                           ("model", VStr "claude-sonnet");
                           ("usage", VObj [("input_tokens", VNum 10);
                                           ("output_tokens", VNum 20)])]);
                    ("costUSD", VNum 5)])].

(** A Pi log of one session and one assistant message with a cost. *)
Definition piCostFile : file :=
  Some [Some (VObj [("type", VStr "session"); ("id", VStr "p1");
                    ("timestamp", VNum noon_2025_06_15);
                    ("cwd", VStr "/work"); ("provider", VStr "anthropic");
                    ("modelId", VStr "claude-sonnet")]);
        Some (VObj [("type", VStr "message");
                    ("timestamp", VNum noon_2025_06_15);
                    ("message",
                     VObj [("role", VStr "assistant");
                           ("usage", VObj [("input", VNum 10);
                                           ("output", VNum 20);
                                           ("cost",
                                            VObj [("total", VNum 5)])])])])].

(** A Pi log of one session started in 2023 in [/old]. *)
Definition piOldSessionFile : file :=
  Some [Some (VObj [("type", VStr "session"); ("id", VStr "p0");
                    ("timestamp", VNum noon_2023_07_01);
                    ("cwd", VStr "/old"); ("provider", VStr "anthropic");
                    ("modelId", VStr "claude-sonnet")])].

(** A Pi log with a message of June 2025 before its session line of 2023. *)
Definition piLateSessionLines : list line :=
       [Some (VObj [("type", VStr "message");
                    ("timestamp", VNum noon_2025_06_15);
                    ("message", VObj [("role", VStr "user")])]);
        Some (VObj [("type", VStr "session"); ("id", VStr "p0");
                    ("timestamp", VNum noon_2023_07_01);
                    ("cwd", VStr "/old"); ("provider", VStr "anthropic");
                    ("modelId", VStr "claude-sonnet")])].

Definition piLateSessionFile : file := Some piLateSessionLines.

(** The same for Codex: a response item of June 2025 before the session
    meta-data of 2023. *)
Definition codexLateSessionLines : list line :=
       [Some (VObj [("type", VStr "response_item");
                    ("timestamp", VStr "2025-06-15T12:00:00.000Z");
                    ("payload", VObj [("role", VStr "user")])]);
        Some (VObj [("type", VStr "session_meta");
                    ("timestamp", VStr "2023-07-01T12:00:00.000Z");
                    ("payload", VObj [("id", VStr "c0"); ("cwd", VStr "/old");
                                      ("model_provider", VStr "openai")])])].

Definition codexLateSessionFile : file := Some codexLateSessionLines.

(** A Codex log: session meta-data, one assistant response item and one
    token-count event, in that order. *)
Definition codexTurnMeta : value :=
  VObj [("type", VStr "session_meta");
        ("timestamp", VStr "2025-06-15T12:00:00.000Z");
        ("payload", VObj [("id", VStr "c1"); ("cwd", VStr "/work");
                          ("model_provider", VStr "openai")])].

Definition codexTurnItem : value :=
  VObj [("type", VStr "response_item");
        ("timestamp", VStr "2025-06-15T12:00:00.000Z");
        ("payload", VObj [("role", VStr "assistant")])].

Definition codexTurnEvent : value :=
  VObj [("type", VStr "event_msg");
        ("timestamp", VStr "2025-06-15T12:00:00.000Z");
        ("payload",
         VObj [("type", VStr "token_count");
               ("info",
                VObj [("last_token_usage",
                       VObj [("input_tokens", VNum 120);
                             ("output_tokens", VNum 45)])])])].

(** A Claude transcript of one line that is neither a user nor an assistant
    line. *)
Definition claudeSystemLine : value :=
  VObj [("type", VStr "system"); ("sessionId", VStr "s9");
        ("timestamp", VStr "2025-06-15T12:00:00.000Z");
        ("cwd", VStr "/work")].

(** A Claude transcript of two turns of one session with a system line of
    another session in between. *)
Definition claudeTwoSessionLines : list line :=
  [Some (VObj [("type", VStr "user"); ("sessionId", VStr "s1");
               ("timestamp", VStr "2025-01-01T12:00:00.000Z");
               ("cwd", VStr "/a");
               ("message", VObj [("role", VStr "user")])]);
   Some claudeSystemLine;
   Some (VObj [("type", VStr "assistant"); ("sessionId", VStr "s1");
               ("timestamp", VStr "2025-06-15T12:00:00.000Z");
               ("cwd", VStr "/b");
               ("message", VObj [("role", VStr "assistant");
                                 ("model", VStr "claude-sonnet")])])].

(** Four active dates in two runs of two days each. *)
Definition tiedRuns : list string :=
  ["2025-01-01"; "2025-01-02"; "2025-01-04"; "2025-01-05"].

(** A daily-activity map of three active days of January 2025. *)
Definition januaryActivity : list (string * Z) :=
  [("2025-01-04", 2); ("2025-01-01", 1); ("2025-01-02", 5)].

(** A Pi log with one message on 2024-12-31 and one on 2025-01-01. *)
Definition piNewYearFile : file :=
  Some [Some (VObj [("type", VStr "session"); ("id", VStr "p2");
                    ("timestamp", VNum noon_2024_12_31);
                    ("cwd", VStr "/work"); ("provider", VStr "anthropic");
                    ("modelId", VStr "claude-sonnet")]);
        Some (VObj [("type", VStr "message");
                    ("timestamp", VNum noon_2024_12_31);
                    ("message", VObj [("role", VStr "user")])]);
        Some (VObj [("type", VStr "message");
                    ("timestamp", VNum noon_2025_01_01);
                    ("message", VObj [("role", VStr "user")])])].

(** One hour after noon of 2025-01-01. *)
Definition new_years_day_2025 : Z := noon_2025_01_01 + 3600000.

(** * Properties *)

(** ** The calendar *)

Ltac case_cmp :=
  repeat match goal with
  | |- context [?a <? ?b] => destruct (Z.ltb_spec a b)
  | |- context [?a <=? ?b] => destruct (Z.leb_spec a b)
  | |- context [?a =? ?b] => destruct (Z.eqb_spec a b)
  end.

Ltac calendar := Z.div_mod_to_equations; lia.

(** A day number's civil date is a date of the calendar, and
    [days_from_civil] gives the day number back. *)
Lemma civil_from_days_valid (n : Z) :
  let '(y, m, d) := civil_from_days n in
  1 <= m <= 12 /\ 1 <= d <= daysInMonth y m.
Proof.
  unfold civil_from_days, daysInMonth, isLeapYear; cbv zeta.
  case_cmp; cbn [andb orb negb]; calendar.
Qed.

Lemma days_from_civil_from_days (n : Z) :
  let '(y, m, d) := civil_from_days n in days_from_civil y m d = n.
Proof.
  unfold civil_from_days, days_from_civil; cbv zeta.
  case_cmp; calendar.
Qed.

Lemma civil_from_days_inj (a b : Z) :
  civil_from_days a = civil_from_days b -> a = b.
Proof.
  intros E.
  pose proof (days_from_civil_from_days a) as Ha.
  pose proof (days_from_civil_from_days b) as Hb.
  rewrite E in Ha. destruct (civil_from_days b) as [[y m] d]. congruence.
Qed.

(** The day before a first of January lies in the year before. *)
Lemma year_before_january_first (n y : Z) :
  civil_from_days n = (y, 1, 1) ->
  fst (fst (civil_from_days (n - 1))) = y - 1.
Proof.
  unfold civil_from_days; cbv zeta. intros H.
  pose proof (f_equal (fun p => fst (fst p)) H) as Hy.
  pose proof (f_equal (fun p => snd (fst p)) H) as Hm.
  pose proof (f_equal snd H) as Hd.
  cbv beta in Hy, Hm. cbn [fst snd] in *. clear H.
  set (z := n + 719468) in *.
  replace (n - 1 + 719468) with (z - 1) by (unfold z; lia).
  set (doe := z mod 146097) in *.
  set (yoe := (doe - doe / 1460 + doe / 36524 - doe / 146096) / 365) in *.
  set (doy := doe - (365 * yoe + yoe / 4 - yoe / 100)) in *.
  assert (Hdoe : 0 <= doe < 146097) by (unfold doe; calendar).
  assert (Hrange : 0 <= doy <= 365)
    by (unfold doy, yoe; clearbody doe; clear Hy Hm Hd; calendar).
  assert (Hdoy : doy = 306)
    by (clearbody doy; revert Hm Hd; case_cmp; intros; calendar).
  assert (Hdoe1 : 306 <= doe) by (unfold doy, yoe in Hdoy; calendar).
  assert (E1 : (z - 1) mod 146097 = doe - 1) by (unfold doe in *; calendar).
  assert (E2 : (z - 1) / 146097 = z / 146097) by (unfold doe in *; calendar).
  rewrite E1, E2.
  assert (E3 : (doe - 1 - (doe - 1) / 1460 + (doe - 1) / 36524
                - (doe - 1) / 146096) / 365 = yoe).
  { unfold doy, yoe in *. clearbody doe. clear E1 E2 Hy Hm Hd. calendar. }
  rewrite E3.
  replace (doe - 1 - (365 * yoe + yoe / 4 - yoe / 100)) with 305
    by (unfold doy in Hdoy; lia).
  cbn. revert Hy. rewrite Hdoy. cbn. lia.
Qed.

(** The sample moments, as the calendar and the sample host read them. *)
Example sample_moments :
  map (fun t => civil_from_days (t / msPerDay))
    [noon_2023_07_01; noon_2024_12_31; noon_2025_01_01; noon_2025_06_15]
  = [(2023, 7, 1); (2024, 12, 31); (2025, 1, 1); (2025, 6, 15)]
  /\ map isoHost
       [VStr "2023-07-01T12:00:00.000Z"; VStr "2025-01-01T12:00:00.000Z";
        VStr "2025-06-15T12:00:00.000Z"; VStr "yesterday"]
     = [Some noon_2023_07_01; Some noon_2025_01_01; Some noon_2025_06_15;
        None]
  /\ parseIsoDateOnly "2024-02-29" = Some (19782 * msPerDay)
  /\ parseIsoDateOnly "2025-02-29" = None.
Proof. repeat split; vm_compute; reflexivity. Qed.

(** ** Decimal strings and date keys *)

Lemma string_of_Z_inj (a b : Z) : string_of_Z a = string_of_Z b -> a = b.
Proof.
  unfold string_of_Z. intros E.
  apply DecimalZ.to_int_inj.
  assert (ok : forall z, Z.to_int z <> Decimal.Pos Decimal.Nil
                         /\ Z.to_int z <> Decimal.Neg Decimal.Nil).
  { intros [|p|p]; cbn; split; try discriminate;
      intros [= H]; now apply DecimalPos.Unsigned.to_uint_nonnil in H. }
  destruct (ok a) as [a1 a2], (ok b) as [b1 b2].
  pose proof (NilZero.isi _ a1 a2) as Ia.
  pose proof (NilZero.isi _ b1 b2) as Ib.
  rewrite E in Ia. congruence.
Qed.

(** A check over an interval of integers, run by computation. *)
Lemma forall_range (p : Z -> bool) (lo : Z) (len : nat) :
  forallb (fun i => p (lo + Z.of_nat i)) (seq 0 len) = true ->
  forall z, lo <= z < lo + Z.of_nat len -> p z = true.
Proof.
  intros H z Hz. rewrite forallb_forall in H.
  replace z with (lo + Z.of_nat (Z.to_nat (z - lo))) by lia.
  apply H, in_seq. lia.
Qed.

Lemma two_digits (m : Z) :
  0 <= m <= 99 ->
  String.length (padStart2 (string_of_Z m)) = 2%nat
  /\ digits_value 0 (padStart2 (string_of_Z m)) = Some m.
Proof.
  intros Hm.
  assert (H : two_digits_ok m = true).
  { apply (forall_range two_digits_ok 0 (Z.to_nat 100));
      [vm_compute; reflexivity | lia]. }
  unfold two_digits_ok in H. apply andb_prop in H as [H1 H2].
  apply Nat.eqb_eq in H1. split; [exact H1|].
  destruct (digits_value 0 _) as [v|]; [|discriminate].
  apply Z.eqb_eq in H2. now subst.
Qed.

Lemma four_digits (y : Z) :
  1000 <= y <= 9999 ->
  String.length (string_of_Z y) = 4%nat
  /\ digits_value 0 (string_of_Z y) = Some y.
Proof.
  intros Hy.
  assert (H : four_digits_ok y = true).
  { apply (forall_range four_digits_ok 1000 (Z.to_nat 9000));
      [vm_compute; reflexivity | lia]. }
  unfold four_digits_ok in H. apply andb_prop in H as [H1 H2].
  apply Nat.eqb_eq in H1. split; [exact H1|].
  destruct (digits_value 0 _) as [v|]; [|discriminate].
  apply Z.eqb_eq in H2. now subst.
Qed.

Lemma append_inj_length (a a' b b' : string) :
  String.length a = String.length a' ->
  (a ++ b)%string = (a' ++ b')%string -> a = a' /\ b = b'.
Proof.
  revert a'. induction a as [|c a IH]; intros [|c' a'] L E; try discriminate.
  - now split.
  - cbn in L, E. injection L as L. injection E as -> E.
    destruct (IH a' L E) as [-> ->]. now split.
Qed.

Lemma length_append (a b : string) :
  String.length (a ++ b) = (String.length a + String.length b)%nat.
Proof. induction a; cbn; congruence. Qed.

Lemma length_two (s : string) :
  String.length s = 2%nat -> exists a b, s = String a (String b "").
Proof.
  destruct s as [|a [|b [|c s]]]; try discriminate. intros _. now exists a, b.
Qed.

Lemma length_four (s : string) :
  String.length s = 4%nat ->
  exists a b c d, s = String a (String b (String c (String d ""))).
Proof.
  destruct s as [|a [|b [|c [|d [|e s]]]]]; try discriminate.
  intros _. now exists a, b, c, d.
Qed.

(** A date key determines its year, month and day. *)
Lemma dateKey_inj (y m d y' m' d' : Z) :
  0 <= m <= 99 -> 0 <= d <= 99 -> 0 <= m' <= 99 -> 0 <= d' <= 99 ->
  dateKey y m d = dateKey y' m' d' -> y = y' /\ m = m' /\ d = d'.
Proof.
  intros Hm Hd Hm' Hd' E. unfold dateKey in E.
  destruct (two_digits m Hm) as [Lm Vm], (two_digits d Hd) as [Ld Vd].
  destruct (two_digits m' Hm') as [Lm' Vm'], (two_digits d' Hd') as [Ld' Vd'].
  assert (L : String.length (string_of_Z y) = String.length (string_of_Z y')).
  { apply (f_equal String.length) in E.
    rewrite !length_append in E. cbn in E. rewrite ?length_append in E.
    cbn in E. lia. }
  destruct (append_inj_length _ _ _ _ L E) as [Ey E1].
  cbn in E1. injection E1 as E1.
  destruct (append_inj_length _ _ _ _ (eq_trans Lm (eq_sym Lm')) E1) as [Em E2].
  cbn in E2. injection E2 as E2.
  split; [now apply string_of_Z_inj|]. split; congruence.
Qed.

Lemma keyOfDay_inj (a b : Z) : keyOfDay a = keyOfDay b -> a = b.
Proof.
  unfold keyOfDay. intros E. apply civil_from_days_inj.
  pose proof (civil_from_days_valid a) as Va.
  pose proof (civil_from_days_valid b) as Vb.
  destruct (civil_from_days a) as [[y m] d].
  destruct (civil_from_days b) as [[y' m'] d'].
  assert (Bd : forall y m, daysInMonth y m <= 31).
  { intros; unfold daysInMonth.
    repeat match goal with
           | |- context [if ?c then _ else _] => destruct c
           end; lia. }
  specialize (Bd y m) as B1. specialize (Bd y' m') as B2.
  apply dateKey_inj in E; try lia. destruct E as (-> & -> & ->). reflexivity.
Qed.

(** The key of a day in the years 1000 to 9999 is an ISO date-only string,
    read back as midnight UTC of that day. *)
Lemma parseIsoDateOnly_keyOfDay (n : Z) :
  1000 <= fst (fst (civil_from_days n)) <= 9999 ->
  parseIsoDateOnly (keyOfDay n) = Some (n * msPerDay).
Proof.
  unfold keyOfDay. intros Hy.
  pose proof (civil_from_days_valid n) as V.
  pose proof (days_from_civil_from_days n) as R.
  destruct (civil_from_days n) as [[y m] d]. cbn [fst] in Hy.
  destruct V as [Vm Vd].
  assert (B : daysInMonth y m <= 31).
  { unfold daysInMonth.
    repeat match goal with
           | |- context [if ?c then _ else _] => destruct c
           end; lia. }
  destruct (four_digits y Hy) as [Ly Dy].
  destruct (two_digits m ltac:(lia)) as [Lm Dm].
  destruct (two_digits d ltac:(lia)) as [Ld Dd].
  unfold dateKey.
  destruct (length_four _ Ly) as (y1 & y2 & y3 & y4 & Ey).
  destruct (length_two _ Lm) as (m1 & m2 & Em).
  destruct (length_two _ Ld) as (d1 & d2 & Ed).
  rewrite Ey, Em, Ed in *.
  unfold parseIsoDateOnly.
  cbn [String.length append substring Nat.eqb andb String.eqb].
  rewrite !Ascii.eqb_refl. cbn [andb].
  rewrite Dy, Dm, Dd.
  replace ((1 <=? m) && (m <=? 12) && (1 <=? d) && (d <=? daysInMonth y m))
    with true by (symmetry; rewrite !andb_true_iff, !Z.leb_le; lia).
  now rewrite R.
Qed.

(** [String(NaN)] in the place of the year makes no date key. *)
Lemma dateKey_not_NaN (y m d : Z) :
  0 <= m <= 99 -> 0 <= d <= 99 -> dateKey y m d <> "NaN-NaN-NaN".
Proof.
  intros Hm Hd E. unfold dateKey in E.
  destruct (two_digits m Hm) as [Lm _], (two_digits d Hd) as [Ld _].
  assert (L : String.length (string_of_Z y) = String.length "NaN-N").
  { apply (f_equal String.length) in E.
    rewrite !length_append in E. cbn in E. rewrite ?length_append in E.
    cbn in E. cbn. lia. }
  change "NaN-NaN-NaN" with ("NaN-N" ++ "aN-NaN")%string in E.
  destruct (append_inj_length _ _ _ _ L E) as [_ E1].
  cbn in E1. discriminate.
Qed.

(** ** Maps *)

Section MapFacts.
Context {V : Type}.

Lemma map_has_In (m : list (string * V)) (k : string) :
  map_has String.eqb m k = true -> In k (map_keys m).
Proof.
  unfold map_has. induction m as [|[k' v] m IH]; cbn; [discriminate|].
  destruct (String.eqb_spec k' k) as [->|]; auto.
Qed.

Lemma In_map_has (m : list (string * V)) (k : string) :
  In k (map_keys m) -> map_has String.eqb m k = true.
Proof.
  unfold map_has. induction m as [|[k' v] m IH]; cbn; [tauto|].
  destruct (String.eqb_spec k' k) as [->|]; [reflexivity|].
  intros [E|H]; [contradiction|auto].
Qed.

Lemma map_keys_set (m : list (string * V)) (k : string) (v : V) :
  map_keys (map_set String.eqb m k v)
  = if map_has String.eqb m k then map_keys m else map_keys m ++ [k].
Proof.
  unfold map_has, map_keys.
  induction m as [|[k' v'] m IH]; cbn; [reflexivity|].
  destruct (String.eqb_spec k' k) as [->|]; cbn; [reflexivity|].
  rewrite IH. now destruct (map_get String.eqb m k).
Qed.

Lemma NoDup_map_keys_set (m : list (string * V)) (k : string) (v : V) :
  NoDup (map_keys m) -> NoDup (map_keys (map_set String.eqb m k v)).
Proof.
  intros N. rewrite map_keys_set.
  destruct (map_has String.eqb m k) eqn:E; [exact N|].
  apply NoDup_rev in N. rewrite <- (rev_involutive (_ ++ _)).
  apply NoDup_rev. rewrite rev_app_distr. cbn. constructor; [|exact N].
  rewrite <- in_rev. intros H. apply In_map_has in H. congruence.
Qed.
End MapFacts.

(** ** Date keys of the host's dates *)

Section HostFacts.
Variable tz : Z.
Variable hostDate : value -> option Z.

Lemma formatDateKey_valid (t : Z) :
  formatDateKey tz (Some t) = keyOfDay (localDay tz t).
Proof.
  unfold formatDateKey, keyOfDay, getFullYear, getMonth1, getDate, dateKey.
  cbn [option_map string_of_number].
  now destruct (civil_from_days (localDay tz t)) as [[y m] d].
Qed.

Lemma formatDateKey_invalid : formatDateKey tz None = "NaN-NaN-NaN".
Proof. reflexivity. Qed.

Lemma keyOfDay_not_NaN (n : Z) : keyOfDay n <> "NaN-NaN-NaN".
Proof.
  unfold keyOfDay. pose proof (civil_from_days_valid n) as V.
  destruct (civil_from_days n) as [[y m] d]. destruct V as [Vm Vd].
  assert (B : daysInMonth y m <= 31).
  { unfold daysInMonth.
    repeat match goal with |- context [if ?c then _ else _] => destruct c end;
      lia. }
  apply dateKey_not_NaN; lia.
Qed.

Lemma localDay_dayBefore (t : Z) :
  localDay tz (t - msPerDay) = localDay tz t - 1.
Proof.
  unfold localDay, msPerDay.
  replace (t - 24 * 60 * 60 * 1000 + tz)
    with (t + tz + (-1) * (24 * 60 * 60 * 1000)) by lia.
  rewrite Z.div_add by lia. lia.
Qed.

Lemma yearIs_valid (timestamp : value) (y : Z) :
  yearIs tz hostDate timestamp y = true ->
  exists t, newDate hostDate timestamp = Some t
            /\ fst (fst (civil_from_days (localDay tz t))) = y.
Proof.
  unfold yearIs, getFullYear.
  destruct (newDate hostDate timestamp) as [t|]; cbn; [|discriminate].
  intros H. apply Z.eqb_eq in H. now exists t.
Qed.

(** *** The backwards walk ends *)

Lemma countBack_ends (dailyActivity : DailyActivity) :
  dateKeyed dailyActivity ->
  forall (fuel : nat) (streak : Z) (checkDate : date) (seen : list string),
    NoDup seen -> incl seen (map_keys dailyActivity) ->
    (forall key, In key seen ->
       exists t n, checkDate = Some t /\ key = keyOfDay n
                   /\ localDay tz t <= n) ->
    (List.length dailyActivity < List.length seen + fuel)%nat ->
    exists n, countBack tz dailyActivity fuel streak checkDate = Some n.
Proof.
  intros K fuel.
  induction fuel as [|fuel IH]; intros streak checkDate seen N I S L.
  - apply NoDup_incl_length in I; [|exact N].
    unfold map_keys in I. rewrite length_map in I. lia.
  - cbn [countBack].
    destruct (hasDay dailyActivity (formatDateKey tz (dayBefore checkDate)))
      eqn:H; [|now exists streak].
    apply map_has_In in H.
    assert (exists t, dayBefore checkDate = Some t) as [t' Et'].
    { destruct (dayBefore checkDate) as [t'|]; [now exists t'|].
      rewrite formatDateKey_invalid in H.
      unfold dateKeyed in K. rewrite Forall_forall in K.
      destruct (K _ H) as [n En]. symmetry in En.
      now apply keyOfDay_not_NaN in En. }
    rewrite Et' in *. rewrite formatDateKey_valid in H.
    destruct checkDate as [t|];
      [|unfold dayBefore in Et'; cbn in Et'; discriminate].
    assert (Dt : localDay tz t' = localDay tz t - 1).
    { unfold dayBefore in Et'. cbn in Et'. unfold timeClip in Et'.
      match type of Et' with
      | context [if ?c then _ else _] => destruct c
      end; [|discriminate].
      injection Et' as <-. apply localDay_dayBefore. }
    apply (IH (streak + 1) (Some t') (keyOfDay (localDay tz t') :: seen)).
    + constructor; [|exact N]. intros Hin.
      destruct (S _ Hin) as (t0 & n & [= <-] & En & Hn).
      apply keyOfDay_inj in En. lia.
    + intros key [<-|Hin]; [exact H|now apply I].
    + intros key [<-|Hin].
      * exists t', (localDay tz t'). repeat split. lia.
      * destruct (S _ Hin) as (t0 & n & [= <-] & En & Hn).
        exists t', n. repeat split; [exact En|lia].
    + cbn [List.length]. lia.
Qed.

Lemma countStreakBackwards_ends (dailyActivity : DailyActivity)
  (startDate : date) :
  dateKeyed dailyActivity ->
  exists n, countStreakBackwards tz dailyActivity startDate = Some n.
Proof.
  intros K. unfold countStreakBackwards.
  apply (countBack_ends _ K _ _ _ []).
  - constructor.
  - intros k [].
  - intros k [].
  - cbn. lia.
Qed.

Lemma calculateStreaks_returns (dailyActivity : DailyActivity)
  (year now : Z) :
  dateKeyed dailyActivity ->
  exists r, calculateStreaks tz hostDate dailyActivity year now = Some r.
Proof.
  intros K. unfold calculateStreaks.
  destruct (List.length _ =? 0)%nat; [now eexists|].
  destruct (hasDay dailyActivity (formatDateKey tz (timeClip now))).
  - destruct (countStreakBackwards_ends _ (timeClip now) K) as [n ->].
    cbn. now eexists.
  - destruct (hasDay dailyActivity _).
    + destruct (countStreakBackwards_ends _ (timeClip (now - msPerDay)) K)
        as [n ->].
      cbn. now eexists.
    + cbn. now eexists.
Qed.

End HostFacts.

(** ** The per-message accumulation *)

Section StatsFacts.
Variable tz : Z.
Variable hostDate : value -> option Z.

Lemma sumValues_count (m : list (string * Z)) (k : string) :
  sumValues (map_set String.eqb m k (countPlusOne String.eqb m k))
  = sumValues m + 1.
Proof.
  unfold sumValues, map_values, countPlusOne.
  assert (G : forall v : Z,
    fold_right Z.add 0 (map snd (map_set String.eqb m k
      (match map_get String.eqb m k with
       | Some n => (if n =? 0 then 0 else n) + 1
       | None => v
       end)))
    = fold_right Z.add 0 (map snd m)
      + match map_get String.eqb m k with Some _ => 1 | None => v end).
  { induction m as [|[k' n] m IH]; intros v; cbn; [lia|].
    destruct (String.eqb k' k); cbn.
    - destruct (Z.eqb_spec n 0); lia.
    - rewrite IH. lia. }
  rewrite (G (0 + 1)). destruct (map_get String.eqb m k); lia.
Qed.

Lemma accumulate_sum (msgs : list MessageData) (acc : Totals) :
  sumValues (acc_dailyActivity (fold_left (accumulate tz hostDate) msgs acc))
  = sumValues (acc_dailyActivity acc) + Z.of_nat (List.length msgs).
Proof.
  revert acc. induction msgs as [|m msgs IH]; intros acc; cbn [fold_left].
  - cbn. lia.
  - rewrite IH. cbn [accumulate acc_dailyActivity List.length].
    rewrite sumValues_count. lia.
Qed.

Lemma accumulate_dateKeyed (y : Z) (msgs : list MessageData) (acc : Totals) :
  Forall (fun m => yearIs tz hostDate (message_timestamp m) y = true) msgs ->
  dateKeyed (acc_dailyActivity acc) ->
  dateKeyed (acc_dailyActivity (fold_left (accumulate tz hostDate) msgs acc)).
Proof.
  revert acc. induction msgs as [|m msgs IH]; intros acc F K; [exact K|].
  cbn [fold_left]. inversion F as [|? ? Hm F']; subst.
  apply IH; [exact F'|]. cbn [accumulate acc_dailyActivity].
  destruct (yearIs_valid _ _ _ _ Hm) as (t & -> & _).
  unfold dateKeyed in *. rewrite map_keys_set.
  destruct (map_has _ _ _); [exact K|].
  apply Forall_app. split; [exact K|]. constructor; [|constructor].
  exists (localDay tz t). apply formatDateKey_valid.
Qed.

Lemma accumulate_NoDup (msgs : list MessageData) (acc : Totals) :
  NoDup (map_keys (acc_dailyActivity acc)) ->
  NoDup (map_keys (acc_dailyActivity
                     (fold_left (accumulate tz hostDate) msgs acc))).
Proof.
  revert acc. induction msgs as [|m msgs IH]; intros acc N; [exact N|].
  cbn [fold_left]. apply IH. cbn [accumulate acc_dailyActivity].
  now apply NoDup_map_keys_set.
Qed.

Lemma yearMessages_in_year (y : Z) (c : Collected) :
  Forall (fun m => yearIs tz hostDate (message_timestamp m) y = true)
    (yearMessagesOf tz hostDate y c).
Proof.
  unfold yearMessagesOf. apply Forall_forall. intros m H.
  now apply filter_In in H.
Qed.

(** [calculateStats] returns, with these fields. *)
Lemma calculateStats_returns (y : Z) (src : DataSource) (data : SourceData)
  (now : Z) :
  let collected := collectAll tz hostDate src data None in
  let yearMessages := yearMessagesOf tz hostDate y collected in
  let acc := fold_left (accumulate tz hostDate) yearMessages totals0 in
  exists st streaks,
    calculateStats tz hostDate y src data now = Some st
    /\ calculateStreaks tz hostDate (acc_dailyActivity acc) y now
       = Some streaks
    /\ totalSessions st
       = List.length (yearSessionsOf tz hostDate y collected)
    /\ totalMessages st = List.length yearMessages
    /\ totalProjects st = List.length (projects collected)
    /\ totalCost st = acc_totalCost acc
    /\ dailyActivity st = acc_dailyActivity acc
    /\ maxStreak st = streaks_maxStreak streaks
    /\ currentStreak st = streaks_currentStreak streaks
    /\ maxStreakDays st = streaks_maxStreakDays streaks.
Proof.
  intros collected yearMessages acc.
  destruct (calculateStreaks_returns tz hostDate (acc_dailyActivity acc) y now)
    as [streaks E].
  { apply (accumulate_dateKeyed y).
    - apply yearMessages_in_year.
    - constructor. }
  unfold calculateStats. fold collected. fold yearMessages.
  change (mkTotals (VNum 0) (VNum 0) (VNum 0) []) with totals0.
  fold acc. rewrite E. cbn [bind].
  eexists _, streaks. split; [reflexivity|]. cbn. repeat split.
Qed.

End StatsFacts.


(** ** Cost: what the parsers put into the usage block *)

(** Case analysis on the reads and tests of a monadic body. *)
Ltac exn_step E :=
  match type of E with
  | context [bind ?m _] =>
      let x := fresh "x" in
      destruct m as [x|] eqn:?; cbn [bind ret] in E
  | context [if ?c then _ else _] => destruct c eqn:?
  | context [let '(_, _) := ?p in _] => destruct p eqn:?
  end.

Ltac exn_cases E :=
  repeat exn_step E; try discriminate E.

Lemma Forall_snoc {A} (P : A -> Prop) (l : list A) (x : A) :
  Forall P l -> P x -> Forall P (l ++ [x]).
Proof. intros; apply Forall_app; split; [assumption|now constructor]. Qed.

Lemma Forall_setNth (P : MessageData -> Prop) (l : list MessageData)
  (i : nat) (m : MessageData) :
  Forall P l -> P m -> Forall P (setNth l i m).
Proof.
  intros F Hm. revert i. induction F as [|x l Hx F IH]; intros i; cbn.
  - constructor.
  - destruct i; constructor; auto.
Qed.

Section CostFacts.
Variable tz : Z.
Variable hostDate : value -> option Z.

Lemma accumulate_noCost (msgs : list MessageData) (acc : Totals) :
  Forall noCost msgs ->
  acc_totalCost (fold_left (accumulate tz hostDate) msgs acc)
  = acc_totalCost acc.
Proof.
  revert acc. induction msgs as [|m msgs IH]; intros acc F; [reflexivity|].
  inversion F as [|? ? Hm F']; subst. cbn [fold_left]. rewrite IH by exact F'.
  cbn [accumulate acc_totalCost]. unfold noCost in Hm. rewrite Hm.
  now rewrite andb_false_r.
Qed.

(** *** Claude *)

Lemma claudeUsage_noCost (usage u : value) :
  claudeUsage usage = Some u ->
  truthy (getOpt (getOpt u "cost") "total") = false.
Proof.
  unfold claudeUsage. intros E. exn_cases E; injection E as <-; reflexivity.
Qed.

Lemma parseClaudeLine_noCost (y : option Z) (st st' : ClaudeResult)
  (parsed : value) :
  Forall noCost (snd st) ->
  parseClaudeLine tz hostDate y st parsed = Some st' ->
  Forall noCost (snd st').
Proof.
  destruct st as [sessions messages]. cbn [snd]. intros F E.
  unfold parseClaudeLine in E.
  exn_cases E; injection E as <-; cbn [snd]; auto;
    (apply Forall_snoc; [exact F|]); unfold noCost; cbn [message_usage];
    eapply claudeUsage_noCost; eassumption.
Qed.

Lemma parseClaudeLines_noCost (y : option Z) (lines : list line)
  (st : ClaudeResult) :
  Forall noCost (snd st) ->
  Forall noCost (snd (parseClaudeLines tz hostDate y lines st)).
Proof.
  revert st. induction lines as [|[parsed|] lines IH]; intros st F; cbn; auto.
  apply IH. destruct (parseClaudeLine tz hostDate y st parsed) eqn:E; cbn; auto.
  eapply parseClaudeLine_noCost; eassumption.
Qed.

Lemma parseClaudeFile_noCost (f : file) (y : option Z) :
  Forall noCost (snd (parseClaudeFile tz hostDate f y)).
Proof.
  destruct f as [lines|]; cbn; [|constructor].
  apply parseClaudeLines_noCost. constructor.
Qed.

(** *** Codex *)

Lemma attachUsage_noCost (n : nat) (messages : list MessageData) (u : value) :
  truthy (getOpt (getOpt u "cost") "total") = false ->
  Forall noCost messages -> Forall noCost (attachUsage n messages u).
Proof.
  intros Hu F. induction n as [|i IH]; cbn; auto.
  destruct (nth_error messages i) as [m|]; auto.
  destruct (_ && _); auto. now apply Forall_setNth.
Qed.

Lemma codexUsage_noCost (usage u : value) :
  codexUsage usage = Some u ->
  truthy (getOpt (getOpt u "cost") "total") = false.
Proof.
  unfold codexUsage. intros E. exn_cases E; injection E as <-; reflexivity.
Qed.

Lemma parseCodexLine_noCost (y : option Z) (st st' : CodexResult)
  (parsed : value) :
  Forall noCost (snd st) ->
  parseCodexLine tz hostDate y st parsed = Some (Next st') ->
  Forall noCost (snd st').
Proof.
  destruct st as [session messages]. cbn [snd]. intros F E.
  unfold parseCodexLine in E.
  exn_cases E; injection E as <-; cbn [snd]; auto;
    first [ apply Forall_snoc; [exact F|reflexivity]
          | apply attachUsage_noCost; [|exact F];
            eapply codexUsage_noCost; eassumption ].
Qed.

Lemma parseCodexLines_noCost (y : option Z) (lines : list line)
  (st : CodexResult) :
  Forall noCost (snd st) ->
  Forall noCost (snd (parseCodexLines tz hostDate y lines st)).
Proof.
  revert st. induction lines as [|[parsed|] lines IH]; intros st F; cbn; auto.
  destruct (parseCodexLine tz hostDate y st parsed) as [[st'|]|] eqn:E; cbn.
  - apply IH. eapply parseCodexLine_noCost; eassumption.
  - constructor.
  - now apply IH.
Qed.

Lemma parseCodexFile_noCost (f : file) (y : option Z) :
  Forall noCost (snd (parseCodexFile tz hostDate f y)).
Proof.
  destruct f as [lines|]; cbn; [|constructor].
  apply parseCodexLines_noCost. constructor.
Qed.

(** *** OpenCode *)

Lemma openCodeUsage_noCost (tokens u : value) :
  openCodeUsage tokens = Some u ->
  truthy (getOpt (getOpt u "cost") "total") = false.
Proof.
  unfold openCodeUsage. intros E. exn_cases E; injection E as <-; reflexivity.
Qed.

Lemma openCodeMessage_noCost (y : option Z) (doc : option value)
  (allMessages : list MessageData) :
  Forall noCost allMessages ->
  Forall noCost (eachDoc (openCodeMessage tz hostDate y) allMessages doc).
Proof.
  intros F. destruct doc as [raw|]; cbn; auto.
  destruct (openCodeMessage tz hostDate y allMessages raw) as [r|] eqn:E;
    cbn; auto.
  unfold openCodeMessage in E. exn_cases E; injection E as <-; auto.
  apply Forall_snoc; [exact F|]. unfold noCost. cbn [message_usage].
  eapply openCodeUsage_noCost; eassumption.
Qed.

Lemma fold_invariant {A B} (P : A -> Prop) (f : A -> B -> A) (l : list B)
  (a : A) :
  (forall a b, P a -> P (f a b)) -> P a -> P (fold_left f l a).
Proof. intros Hf. revert a. induction l; cbn; auto. Qed.

(** *** All sources but [pi] *)

Lemma collectAll_noCost (src : DataSource) (data : SourceData)
  (y : option Z) :
  src <> pi -> Forall noCost (messages (collectAll tz hostDate src data y)).
Proof.
  intros Hsrc. destruct src; [contradiction| | |]; unfold collectAll.
  - (* codex *)
    pose proof (fold_invariant
      (fun acc : Acc => Forall noCost (snd (fst acc)))
      (fun acc f => addFileSession acc (parseCodexFile tz hostDate f y))
      (jsonlFiles data) ([], [], [])) as H.
    destruct (fold_left _ _ _) as [[ss ms] pm]. cbn. apply H; [|constructor].
    intros [[ss' ms'] pm'] f F. cbn in F.
    pose proof (parseCodexFile_noCost f y) as P.
    destruct (parseCodexFile tz hostDate f y) as [[s|] fm]; cbn in *;
      apply Forall_app; auto.
  - (* claude *)
    pose proof (fold_invariant
      (fun acc : ClaudeAcc => Forall noCost (snd (fst acc)))
      (addClaudeFile tz hostDate y) (jsonlFiles data) ([], [], [])) as H.
    destruct (fold_left _ _ _) as [[ss ms] pm]. cbn. apply H; [|constructor].
    intros [[ss' ms'] pm'] f F. cbn in F. unfold addClaudeFile.
    pose proof (parseClaudeFile_noCost f y) as P.
    destruct (parseClaudeFile tz hostDate f y) as [fs fm].
    destruct (fold_left mergeSession fs (ss', pm')). cbn in *.
    apply Forall_app; auto.
  - (* opencode *)
    unfold collectOpenCode. destruct (fold_left _ (sessionDocs data) _).
    cbn. apply fold_invariant; [|constructor].
    intros a b. apply openCodeMessage_noCost.
Qed.

End CostFacts.



(** The [pi] source does carry costs into the total. *)
Example pi_total_cost :
  option_map totalCost
    (calculateStats utc isoHost 2025 pi
       (mkSourceData [piCostFile] [] []) noon_2025_06_15)
  = Some (VNum 5).
Proof. vm_compute. reflexivity. Qed.

(** ** The year filter of the file-scoped formats *)

Section AbandonFacts.
Variable tz : Z.
Variable hostDate : value -> option Z.

Lemma parsePiLine_abandons (y : Z) (st : PiResult) (parsed : value) :
  y <> 0 ->
  definesSessionOutside tz hostDate "session" y (Some parsed) = true ->
  parsePiLine tz hostDate (Some y) st parsed = Some Abandon.
Proof.
  intros Hy H. destruct st as [session messages].
  unfold definesSessionOutside in H. unfold parsePiLine.
  destruct (get parsed "type") as [type|]; [|discriminate].
  destruct (get parsed "timestamp") as [timestamp|]; [|discriminate].
  apply andb_prop in H as [H1 H2]. cbn [bind]. rewrite H1.
  unfold yearMismatch. rewrite H2.
  destruct (Z.eqb_spec y 0); [contradiction|reflexivity].
Qed.

Lemma parsePiLines_abandons (y : Z) (lines : list line) (st : PiResult) :
  y <> 0 ->
  existsb (definesSessionOutside tz hostDate "session" y) lines = true ->
  parsePiLines tz hostDate (Some y) lines st = (None, []).
Proof.
  intros Hy. revert st.
  induction lines as [|l lines IH]; intros st H; [discriminate|].
  cbn [existsb] in H. destruct l as [parsed|].
  - cbn [parsePiLines].
    destruct (definesSessionOutside tz hostDate "session" y (Some parsed))
      eqn:D.
    + now rewrite (parsePiLine_abandons y st parsed Hy D).
    + cbn [orb] in H.
      destruct (catch (Next st) _) as [st'|]; [now apply IH|reflexivity].
  - cbn in H. cbn [parsePiLines]. now apply IH.
Qed.

Lemma parseCodexLine_abandons (y : Z) (st : CodexResult) (parsed : value) :
  y <> 0 ->
  definesSessionOutside tz hostDate "session_meta" y (Some parsed) = true ->
  parseCodexLine tz hostDate (Some y) st parsed = Some Abandon.
Proof.
  intros Hy H. destruct st as [session messages].
  unfold definesSessionOutside in H. unfold parseCodexLine.
  destruct (get parsed "type") as [type|]; [|discriminate].
  destruct (get parsed "timestamp") as [timestamp|]; [|discriminate].
  apply andb_prop in H as [H1 H2]. cbn [bind]. rewrite H1.
  unfold yearMismatch. rewrite H2.
  destruct (Z.eqb_spec y 0); [contradiction|reflexivity].
Qed.

Lemma parseCodexLines_abandons (y : Z) (lines : list line)
  (st : CodexResult) :
  y <> 0 ->
  existsb (definesSessionOutside tz hostDate "session_meta" y) lines = true ->
  parseCodexLines tz hostDate (Some y) lines st = (None, []).
Proof.
  intros Hy. revert st.
  induction lines as [|l lines IH]; intros st H; [discriminate|].
  cbn [existsb] in H. destruct l as [parsed|].
  - cbn [parseCodexLines].
    destruct (definesSessionOutside tz hostDate "session_meta" y
                (Some parsed)) eqn:D.
    + now rewrite (parseCodexLine_abandons y st parsed Hy D).
    + cbn [orb] in H.
      destruct (catch (Next st) _) as [st'|]; [now apply IH|reflexivity].
  - cbn in H. cbn [parseCodexLines]. now apply IH.
Qed.

End AbandonFacts.



(** A year of 0 is no filter for the parsers' test [year && ...]: the file
    then gives its session and its message. *)
Example year_zero_is_no_filter :
  let result := parsePiFile utc isoHost piLateSessionFile (Some 0) in
  option_map session_id (fst result) = Some (VStr "p0")
  /\ List.length (snd result) = 1%nat.
Proof. split; vm_compute; reflexivity. Qed.

(** Without the filter the same files give their message, and the Pi message
    that came before the session line has the empty session id. *)
Example late_session_files_unfiltered :
  map message_sessionId (snd (parsePiFile utc isoHost piLateSessionFile None))
  = [VStr ""]
  /\ List.length (snd (parseCodexFile utc isoHost codexLateSessionFile None))
     = 1%nat.
Proof. split; vm_compute; reflexivity. Qed.

(** ** The token-count event of the Codex format *)

Lemma is_str_eq (v : value) (lit : string) :
  is_str v lit = true -> v = VStr lit.
Proof.
  destruct v; cbn; try discriminate. intros H. apply String.eqb_eq in H.
  now subst.
Qed.

Lemma getOpt_defined (v : value) (k : string) :
  getOpt v k <> VUndef -> exists fields, v = VObj fields.
Proof. destruct v; cbn; try congruence. intros _. now eexists. Qed.

Lemma get_getOpt (fields : list (string * value)) (k : string) :
  get (VObj fields) k = Some (getOpt (VObj fields) k).
Proof. reflexivity. Qed.

Lemma length_setNth (l : list MessageData) (i : nat) (m : MessageData) :
  List.length (setNth l i m) = List.length l.
Proof. revert i. induction l; intros [|i]; cbn; auto. Qed.

Lemma nth_error_setNth_same (l : list MessageData) (i : nat)
  (m x : MessageData) :
  nth_error l i = Some x -> nth_error (setNth l i m) i = Some m.
Proof.
  revert i. induction l; intros [|i]; cbn; try discriminate; auto.
Qed.

Lemma nth_error_setNth_other (l : list MessageData) (i j : nat)
  (m : MessageData) :
  j <> i -> nth_error (setNth l i m) j = nth_error l j.
Proof.
  revert i j. induction l; intros [|i] [|j] H; cbn; auto; try congruence.
Qed.

(** The scan leaves the list alone when no message within its reach wants
    usage, and changes the last one that does. *)
Lemma attachUsage_none (n : nat) (messages : list MessageData) (u : value) :
  (forall i m, (i < n)%nat -> nth_error messages i = Some m ->
               wantsUsage m = false) ->
  attachUsage n messages u = messages.
Proof.
  induction n as [|i IH]; intros H; cbn; [reflexivity|].
  destruct (nth_error messages i) as [m|] eqn:E; [|reflexivity].
  pose proof (H i m (Nat.lt_succ_diag_r i) E) as W. unfold wantsUsage in W.
  rewrite W. apply IH. intros j m' Hj. apply H. lia.
Qed.

Lemma attachUsage_last (n i : nat) (messages : list MessageData)
  (m : MessageData) (u : value) :
  (i < n)%nat -> (n <= List.length messages)%nat ->
  nth_error messages i = Some m -> wantsUsage m = true ->
  (forall j m', (i < j)%nat -> nth_error messages j = Some m' ->
                wantsUsage m' = false) ->
  attachUsage n messages u = setNth messages i (setUsage m u).
Proof.
  intros Hi Hn E W L. induction n as [|k IH]; [lia|]. cbn.
  destruct (Nat.eq_dec k i) as [->|Hk].
  - rewrite E. unfold wantsUsage in W. now rewrite W.
  - destruct (nth_error messages k) as [m'|] eqn:E'.
    + assert (W' : wantsUsage m' = false) by (apply (L k); [lia|exact E']).
      unfold wantsUsage in W'. rewrite W'. apply IH; lia.
    + apply nth_error_None in E'. lia.
Qed.

Section TokenCountFacts.
Variable tz : Z.
Variable hostDate : value -> option Z.

Lemma codexUsage_normalized (usage : value) :
  truthy usage = true -> codexUsage usage = Some (normalizedUsage usage).
Proof. destruct usage; cbn; try discriminate; reflexivity. Qed.

Lemma parseCodexLine_token_count (y : option Z)
  (session : option SessionData) (messages : list MessageData)
  (event : value) :
  truthy (tokenCountUsage event) = true ->
  parseCodexLine tz hostDate y (session, messages) event
  = Some (Next (session,
                attachUsage (List.length messages) messages
                  (normalizedUsage (tokenCountUsage event)))).
Proof.
  unfold tokenCountUsage. intros H.
  destruct (is_str (getOpt event "type") "event_msg") eqn:T;
    [|discriminate].
  destruct (is_str (getOpt (getOpt event "payload") "type") "token_count")
    eqn:P; [|discriminate].
  cbn [andb] in H.
  destruct (getOpt_defined event "type") as [fields ->].
  { apply is_str_eq in T. congruence. }
  destruct (getOpt_defined (getOpt (VObj fields) "payload") "type")
    as [pfields Ep].
  { apply is_str_eq in P. congruence. }
  unfold parseCodexLine. rewrite !get_getOpt. cbn [bind].
  apply is_str_eq in T. rewrite T. cbn [is_str String.eqb Ascii.eqb Bool.eqb].
  rewrite Ep in *. rewrite get_getOpt. cbn [bind].
  rewrite P. cbn [andb]. rewrite H.
  rewrite (codexUsage_normalized _ H). reflexivity.
Qed.

End TokenCountFacts.



(** ** The Claude transcript *)

Lemma map_set_absent {V} (m : list (value * V)) (k : value) (v : V) :
  map_has same_value_zero m k = false ->
  map_set same_value_zero m k v = m ++ [(k, v)].
Proof.
  unfold map_has. induction m as [|[k' v'] m IH]; cbn; [reflexivity|].
  destruct (same_value_zero k' k); [discriminate|].
  intros H. now rewrite IH.
Qed.

Lemma map_has_existsb {V} (m : list (value * V)) (k : value) :
  map_has same_value_zero m k
  = existsb (fun k' => same_value_zero k' k) (map_keys m).
Proof.
  unfold map_has. induction m as [|[k' v'] m IH]; cbn; [reflexivity|].
  destruct (same_value_zero k' k); [reflexivity|exact IH].
Qed.

Lemma map_has_false {V} (m : list (value * V)) (k : value) :
  map_has same_value_zero m k = false <->
  forall k', In k' (map_keys m) -> same_value_zero k' k = false.
Proof.
  rewrite map_has_existsb. split.
  - intros H k' Hin. destruct (same_value_zero k' k) eqn:E; [|reflexivity].
    assert (existsb (fun k' => same_value_zero k' k) (map_keys m) = true)
      by (apply existsb_exists; eauto).
    congruence.
  - intros H. destruct (existsb _ _) eqn:E; [|reflexivity].
    apply existsb_exists in E as (k' & Hin & E). rewrite (H k' Hin) in E.
    discriminate.
Qed.

Lemma pairwiseDistinct_snoc (keys : list value) (k : value) :
  pairwiseDistinct keys ->
  (forall k', In k' keys -> same_value_zero k' k = false) ->
  pairwiseDistinct (keys ++ [k]).
Proof.
  unfold pairwiseDistinct. intros P H.
  induction P as [|a l Ha P IH]; cbn.
  - constructor; [constructor|constructor].
  - constructor.
    + apply Forall_app. split; [exact Ha|].
      constructor; [|constructor]. apply H. now left.
    + apply IH. intros k' Hin. apply H. now right.
Qed.

Section ClaudeFacts.
Variable tz : Z.
Variable hostDate : value -> option Z.
Variable year : option Z.

Lemma claudeUsage_total (usage : value) :
  claudeUsage usage = Some (claudeUsageOf usage).
Proof.
  unfold claudeUsage, claudeUsageOf.
  destruct (truthy usage) eqn:T; [|reflexivity].
  destruct usage; try discriminate; reflexivity.
Qed.

(** One iteration of the loop, with its [try]/[catch]. *)
Lemma parseClaudeLine_step (st : ClaudeResult) (parsed : value) :
  catch st (parseClaudeLine tz hostDate year st parsed)
  = if claudeCounted tz hostDate year parsed then
      ((if map_has same_value_zero (fst st) (getOpt parsed "sessionId")
        then fst st
        else fst st ++ [(getOpt parsed "sessionId",
                         claudeSessionOf hostDate parsed)]),
       snd st ++ (if isTurn parsed then [claudeMessageOf hostDate parsed]
                  else []))
    else st.
Proof.
  destruct st as [sessions messages]. cbn [fst snd].
  unfold claudeCounted, parseClaudeLine.
  destruct parsed as [| |b| |n|s|items|fields]; try reflexivity.
  rewrite !get_getOpt. cbn [bind].
  set (parsed := VObj fields).
  destruct (truthy (getOpt parsed "type")); [|reflexivity].
  destruct (truthy (getOpt parsed "sessionId")); [|reflexivity].
  cbn [negb orb andb].
  destruct (yearMismatch _ _ _ _); [reflexivity|]. cbn [negb].
  rewrite claudeUsage_total. cbn [bind ret]. fold (isTurn parsed).
  destruct (map_has same_value_zero sessions (getOpt parsed "sessionId"))
    eqn:Has.
  - destruct (isTurn parsed); cbn [catch]; [reflexivity|].
    now rewrite app_nil_r.
  - rewrite (map_set_absent _ _ _ Has).
    destruct (isTurn parsed); cbn [catch]; [reflexivity|].
    now rewrite app_nil_r.
Qed.

Lemma parseClaudeLines_messages (lines : list line) (st : ClaudeResult) :
  snd (parseClaudeLines tz hostDate year lines st)
  = snd st ++ flat_map (claudeMessagesOfLine tz hostDate year) lines.
Proof.
  revert st. induction lines as [|[parsed|] lines IH]; intros st;
    cbn [parseClaudeLines flat_map claudeMessagesOfLine].
  - now rewrite app_nil_r.
  - rewrite IH, parseClaudeLine_step.
    destruct (claudeCounted tz hostDate year parsed); cbn [andb snd];
      [|reflexivity].
    destruct (isTurn parsed); cbn [snd]; now rewrite <- app_assoc.
  - apply IH.
Qed.

End ClaudeFacts.

Lemma same_value_zero_eq (a b : value) : same_value_zero a b = true -> a = b.
Proof.
  destruct a, b; cbn; try discriminate; intros H; try reflexivity.
  - apply Bool.eqb_prop in H. now subst.
  - apply Z.eqb_eq in H. now subst.
  - apply String.eqb_eq in H. now subst.
Qed.

Section ClaudeSessions.
Variable tz : Z.
Variable hostDate : value -> option Z.
Variable year : option Z.

#[local] Abbreviation counted := (claudeCounted tz hostDate year).
#[local] Abbreviation register := (claudeRegister tz hostDate year).
#[local] Abbreviation idOf := (fun parsed => getOpt parsed "sessionId").

Lemma parseClaudeLines_sessions (lines : list line) (st : ClaudeResult) :
  fst (parseClaudeLines tz hostDate year lines st)
  = fold_left register lines (fst st).
Proof.
  revert st. induction lines as [|[parsed|] lines IH]; intros st;
    cbn [parseClaudeLines fold_left claudeRegister]; [reflexivity| |apply IH].
  rewrite IH, parseClaudeLine_step.
  destruct (counted parsed); cbn [andb fst]; [|reflexivity].
  now destruct (map_has _ _ _).
Qed.

Lemma register_keys (registered : list (value * SessionData)) (l : line) :
  register registered l = registered
  \/ exists parsed,
       l = Some parsed /\ counted parsed = true
       /\ (forall k, In k (map_keys registered) ->
                     same_value_zero k (idOf parsed) = false)
       /\ register registered l
          = registered ++ [(idOf parsed, claudeSessionOf hostDate parsed)].
Proof.
  destruct l as [parsed|]; [|now left]. cbn [claudeRegister].
  destruct (counted parsed) eqn:C; [|now left].
  destruct (map_has same_value_zero registered (idOf parsed)) eqn:H;
    [now left|].
  right. exists parsed. repeat split; auto. now apply map_has_false.
Qed.

Lemma register_distinct (lines : list line)
  (registered : list (value * SessionData)) :
  pairwiseDistinct (map_keys registered) ->
  pairwiseDistinct (map_keys (fold_left register lines registered)).
Proof.
  revert registered. induction lines as [|l lines IH]; intros registered P;
    [exact P|].
  cbn [fold_left]. apply IH.
  destruct (register_keys registered l) as [->|(parsed & _ & _ & H & ->)];
    [exact P|].
  unfold map_keys. rewrite map_app. now apply pairwiseDistinct_snoc.
Qed.

Lemma register_keeps (lines : list line)
  (registered : list (value * SessionData)) (e : value * SessionData) :
  In e registered -> In e (fold_left register lines registered).
Proof.
  revert registered. induction lines as [|l lines IH]; intros registered H;
    [exact H|].
  cbn [fold_left]. apply IH.
  destruct (register_keys registered l) as [->|(parsed & _ & _ & _ & ->)];
    [exact H|].
  apply in_or_app. now left.
Qed.

(** A counted line that is the first with its id puts its own record
    into the map. *)
Lemma register_first (before after : list line) (parsed : value)
  (registered : list (value * SessionData)) :
  counted parsed = true ->
  firstWithItsId tz hostDate year before parsed ->
  (forall k, In k (map_keys registered) ->
             same_value_zero k (idOf parsed) = false) ->
  In (idOf parsed, claudeSessionOf hostDate parsed)
     (fold_left register (before ++ Some parsed :: after) registered).
Proof.
  intros C. revert registered.
  induction before as [|l before IH]; intros registered F K.
  - cbn [app fold_left claudeRegister]. rewrite C.
    apply map_has_false in K. rewrite K. cbn [negb andb].
    apply register_keeps, in_or_app. right. now left.
  - cbn [app fold_left]. apply IH.
    + intros p Hp. apply F. now right.
    + destruct (register_keys registered l)
        as [->|(p & -> & Cp & _ & ->)]; [exact K|].
      unfold map_keys. rewrite map_app. intros k Hk.
      apply in_app_or in Hk as [Hk|[<-|[]]]; [now apply K|].
      cbn [fst]. apply F; [now left|exact Cp].
Qed.

(** Every record in the map is the one of a counted line that is the
    first with its id. *)
Lemma register_only_first (lines : list line)
  (registered : list (value * SessionData)) (k : value) (s : SessionData) :
  In (k, s) (fold_left register lines registered) ->
  In (k, s) registered
  \/ exists before parsed after,
       lines = before ++ Some parsed :: after
       /\ counted parsed = true
       /\ firstWithItsId tz hostDate year before parsed
       /\ (forall k0, In k0 (map_keys registered) ->
                      same_value_zero k0 (idOf parsed) = false)
       /\ k = idOf parsed /\ s = claudeSessionOf hostDate parsed.
Proof.
  revert registered. induction lines as [|l lines IH]; intros registered H;
    [now left|].
  cbn [fold_left] in H. apply IH in H.
  destruct (register_keys registered l)
    as [E|(p & -> & Cp & Kp & E)]; rewrite E in H.
  - destruct H as [H|(before & parsed & after & -> & C & F & K & -> & ->)];
      [now left|].
    right. exists (l :: before), parsed, after. repeat split; auto.
    intros p [->|Hp] Cp; [|now apply F].
    (* [l] is counted but registered nothing: its id is in the map *)
    cbn [claudeRegister] in E. rewrite Cp in E. cbn [andb] in E.
    destruct (map_has same_value_zero registered (idOf p)) eqn:Hp.
    + rewrite map_has_existsb in Hp.
      apply existsb_exists in Hp as (k0 & Hin & Hk0).
      apply same_value_zero_eq in Hk0. subst k0. now apply K.
    + cbn [negb] in E. apply (f_equal (@List.length _)) in E.
      rewrite length_app in E. cbn in E. lia.
  - destruct H as [H|(before & parsed & after & -> & C & F & K & -> & ->)].
    + apply in_app_or in H as [H|[[= <- <-]|[]]]; [now left|].
      right. exists [], p, lines. repeat split; auto. intros q [].
    + right. exists (Some p :: before), parsed, after.
      unfold map_keys in K. rewrite map_app in K.
      repeat split; auto.
      * intros q [[= ->]|Hq] Cq; [|now apply F].
        apply K, in_or_app. right. now left.
      * intros k0 Hk0. apply K, in_or_app. now left.
Qed.

End ClaudeSessions.




(** ** Session ids in the collection *)

Section CollectFacts.
Variable tz : Z.
Variable hostDate : value -> option Z.
Variable year : option Z.

Lemma parseClaudeFile_keyed (f : file) :
  Forall keyed (fst (parseClaudeFile tz hostDate f year)).
Proof.
  destruct f as [lines|]; [|constructor]. cbn [parseClaudeFile].
  rewrite parseClaudeLines_sessions. cbn [fst].
  apply Forall_forall. intros [id session] H.
  apply register_only_first in H.
  destruct H as [[]|(_ & parsed & _ & _ & _ & _ & _ & -> & ->)].
  reflexivity.
Qed.

Lemma mergeSession_invariant (fileSessions : list (value * SessionData))
  (st : list (value * SessionData) * ProjectMap) :
  Forall keyed fileSessions ->
  pairwiseDistinct (map_keys (fst st)) /\ Forall keyed (fst st) ->
  let st' := fold_left mergeSession fileSessions st in
  pairwiseDistinct (map_keys (fst st')) /\ Forall keyed (fst st').
Proof.
  intros F. revert st. induction F as [|[id session] l Hk F IH];
    intros [allSessions projectMap] [P K]; cbn [fold_left]; [now split|].
  apply IH. unfold mergeSession.
  destruct (map_has same_value_zero allSessions id) eqn:H; [now split|].
  rewrite (map_set_absent _ _ _ H). cbn [fst]. split.
  - unfold map_keys. rewrite map_app.
    apply pairwiseDistinct_snoc; [exact P|]. now apply map_has_false.
  - now apply Forall_snoc.
Qed.

Lemma addClaudeFile_invariant (files : list file) (acc : ClaudeAcc) :
  pairwiseDistinct (map_keys (fst (fst acc))) /\ Forall keyed (fst (fst acc)) ->
  let acc' := fold_left (addClaudeFile tz hostDate year) files acc in
  pairwiseDistinct (map_keys (fst (fst acc')))
  /\ Forall keyed (fst (fst acc')).
Proof.
  revert acc. induction files as [|f files IH]; intros acc H; [exact H|].
  cbn [fold_left]. apply IH. destruct acc as [[allSessions allMessages] pm].
  unfold addClaudeFile.
  pose proof (parseClaudeFile_keyed f) as F.
  destruct (parseClaudeFile tz hostDate f year) as [fileSessions fm].
  pose proof (mergeSession_invariant fileSessions (allSessions, pm) F H) as M.
  cbv zeta in M. destruct (fold_left mergeSession fileSessions _). exact M.
Qed.

Lemma addFileSession_sessions {F}
  (parse : F -> option SessionData * list MessageData) (files : list F)
  (acc : Acc) :
  fst (fst (fold_left (fun acc f => addFileSession acc (parse f)) files acc))
  = fst (fst acc) ++ flat_map (fun f => sessionOfFile (parse f)) files.
Proof.
  revert acc. induction files as [|f files IH]; intros acc;
    cbn [fold_left flat_map].
  - now rewrite app_nil_r.
  - rewrite IH. destruct acc as [[ss ms] pm].
    unfold addFileSession, sessionOfFile.
    destruct (parse f) as [[s|] fm]; cbn [fst]; [|reflexivity].
    now rewrite <- app_assoc.
Qed.

Lemma openCodeSession_sessions (docs : list (option value))
  (st : list SessionData * ProjectMap) :
  fst (fold_left (eachDoc (openCodeSession tz hostDate year)) docs st)
  = fst st ++ flat_map (sessionOfDoc tz hostDate year) docs.
Proof.
  revert st. induction docs as [|doc docs IH]; intros st;
    cbn [fold_left flat_map].
  - now rewrite app_nil_r.
  - rewrite IH, app_assoc. f_equal. unfold sessionOfDoc.
    destruct doc as [raw|]; cbn [eachDoc]; [|now rewrite app_nil_r].
    destruct st as [ss pm]. unfold openCodeSession.
    destruct (get raw "time") as [time|]; cbn [bind catch fst];
      [|now rewrite app_nil_r].
    destruct (get time "created") as [created|]; cbn [bind catch fst];
      [|now rewrite app_nil_r].
    destruct (yearMismatch tz hostDate year created); cbn [ret catch fst];
      [now rewrite app_nil_r|].
    destruct (get raw "id") as [id|]; cbn [bind catch fst];
      [|now rewrite app_nil_r].
    destruct (get raw "directory") as [directory|]; cbn [bind ret catch fst];
      [reflexivity|now rewrite app_nil_r].
Qed.

End CollectFacts.



(** ** Max-streak detection *)

Lemma fold_left_seq_invariant {S} (P : nat -> S -> Prop) (f : S -> nat -> S)
  (start len : nat) (st : S) :
  P start st ->
  (forall k st, (start <= k < start + len)%nat -> P k st ->
                P (Datatypes.S k) (f st k)) ->
  P (start + len)%nat (fold_left f (seq start len) st).
Proof.
  revert start st. induction len as [|len IH]; intros start st H0 Hstep.
  - now rewrite Nat.add_0_r.
  - cbn [seq fold_left]. rewrite <- Nat.add_succ_comm. apply IH.
    + apply Hstep; [lia|exact H0].
    + intros k st' Hk. apply Hstep. lia.
Qed.

Section ScanFacts.
Variable hostDate : value -> option Z.
Variable activeDates : list string.

#[local] Abbreviation run := (isRun hostDate activeDates).
#[local] Abbreviation nextDay := (isNextDay hostDate activeDates).

(** A run that ends where the current run ends starts no earlier. *)
Lemma run_inside_temp (st : Scan) (k s : nat) :
  scan_tempStreakStart st = O \/ nextDay (scan_tempStreakStart st) = false ->
  (scan_tempStreakStart st <= k)%nat ->
  run s k -> (scan_tempStreakStart st <= s)%nat.
Proof.
  intros [-> |B] Hk [_ R]; [lia|].
  destruct (Nat.le_gt_cases (scan_tempStreakStart st) s) as [|Hs];
    [assumption|].
  rewrite R in B by lia. discriminate.
Qed.

Lemma run_shorter (s e e' : nat) : run s e -> (s <= e' <= e)%nat -> run s e'.
Proof. intros [B R] H. split; [lia|]. intros j Hj. apply R. lia. Qed.

Lemma scan_invariant_start :
  activeDates <> [] ->
  ScanInvariant hostDate activeDates 0 (mkScan 1 1 0 0 0).
Proof.
  intros Hne.
  assert (L : (0 < List.length activeDates)%nat)
    by (destruct activeDates; [contradiction|cbn; lia]).
  assert (R0 : run 0 0) by (split; [lia|intros j Hj; lia]).
  constructor; cbn [scan_maxStreak scan_tempStreak scan_tempStreakStart
                    scan_maxStreakStart scan_maxStreakEnd]; auto; try lia.
Qed.

Lemma scan_invariant_step (k : nat) (st : Scan) :
  (Datatypes.S k < List.length activeDates)%nat ->
  ScanInvariant hostDate activeDates k st ->
  ScanInvariant hostDate activeDates (Datatypes.S k)
    (scanStep hostDate activeDates st (Datatypes.S k)).
Proof.
  intros Hk [TR TL TS MR MS ML Long First].
  pose proof TR as [TB TN]. pose proof MR as [MB MN].
  unfold scanStep. destruct (nextDay (Datatypes.S k)) eqn:N.
  - (* the run goes on *)
    assert (TR' : run (scan_tempStreakStart st) (Datatypes.S k)).
    { split; [lia|]. intros j Hj.
      destruct (Nat.eq_dec j (Datatypes.S k)) as [-> |]; [exact N|].
      apply TN. lia. }
    assert (Ends : forall s, run s (Datatypes.S k) ->
                             (scan_tempStreakStart st <= s)%nat).
    { intros s R. apply (run_inside_temp st (Datatypes.S k)); auto. lia. }
    destruct (Z.ltb_spec (scan_maxStreak st) (scan_tempStreak st + 1)) as [G|G].
    + constructor; cbn [scan_maxStreak scan_tempStreak scan_tempStreakStart
                        scan_maxStreakStart scan_maxStreakEnd]; auto; try lia.
      * intros s e He R.
        destruct (Nat.eq_dec e (Datatypes.S k)) as [-> |Hne].
        -- pose proof (Ends s R). destruct R as [RB _]. lia.
        -- assert (Z.of_nat (e - s + 1) <= scan_maxStreak st)
             by (apply Long; [lia|exact R]).
           lia.
      * intros s e He R E.
        destruct (Nat.eq_dec e (Datatypes.S k)) as [-> |Hne]; [lia|].
        assert (Z.of_nat (e - s + 1) <= scan_maxStreak st)
          by (apply Long; [lia|exact R]).
        lia.
    + constructor; cbn [scan_maxStreak scan_tempStreak scan_tempStreakStart
                        scan_maxStreakStart scan_maxStreakEnd]; auto; try lia.
      * intros s e He R.
        destruct (Nat.eq_dec e (Datatypes.S k)) as [-> |Hne].
        -- pose proof (Ends s R). destruct R as [RB _]. lia.
        -- apply Long; [lia|exact R].
      * intros s e He R E.
        destruct (Nat.eq_dec e (Datatypes.S k)) as [-> |Hne]; [lia|].
        apply (First s e); [lia|exact R|exact E].
  - (* a gap: the run starts again at this date *)
    assert (Ends : forall s, run s (Datatypes.S k) -> s = Datatypes.S k).
    { intros s [RB RN].
      destruct (Nat.eq_dec s (Datatypes.S k)) as [|Hne]; [assumption|].
      rewrite RN in N by lia. discriminate. }
    constructor; cbn [scan_maxStreak scan_tempStreak scan_tempStreakStart
                      scan_maxStreakStart scan_maxStreakEnd]; auto; try lia.
    + split; [lia|]. intros j Hj. lia.
    + intros s e He R.
      destruct (Nat.eq_dec e (Datatypes.S k)) as [-> |Hne].
      * rewrite (Ends s R). lia.
      * apply Long; [lia|exact R].
    + intros s e He R E.
      destruct (Nat.eq_dec e (Datatypes.S k)) as [-> |Hne]; [lia|].
      apply (First s e); [lia|exact R|exact E].
Qed.

Lemma scanStreaks_invariant :
  activeDates <> [] ->
  ScanInvariant hostDate activeDates (List.length activeDates - 1)
    (scanStreaks hostDate activeDates).
Proof.
  intros Hne. unfold scanStreaks.
  assert (L : (0 < List.length activeDates)%nat)
    by (destruct activeDates; [contradiction|cbn; lia]).
  pose proof (fold_left_seq_invariant
    (fun i st => ScanInvariant hostDate activeDates (i - 1) st)
    (scanStep hostDate activeDates) 1 (List.length activeDates - 1)
    (mkScan 1 1 0 0 0)) as H.
  cbv beta in H.
  replace (1 + (List.length activeDates - 1) - 1)%nat
    with (List.length activeDates - 1)%nat in H by lia.
  apply H.
  - now apply scan_invariant_start.
  - intros k st Hk I. destruct k as [|k]; [lia|].
    replace (Datatypes.S (Datatypes.S k) - 1)%nat with (Datatypes.S k) by lia.
    replace (Datatypes.S k - 1)%nat with k in I by lia.
    apply scan_invariant_step; [lia|exact I].
Qed.

(** The set of days is the range of the winning run. *)
Lemma In_set_add (set : list string) (x y : string) :
  In y (set_add set x) <-> In y set \/ y = x.
Proof.
  unfold set_add. destruct (existsb (String.eqb x) set) eqn:E.
  - split; [now left|]. intros [H| ->]; [exact H|].
    apply existsb_exists in E as (z & Hz & Ez).
    apply String.eqb_eq in Ez. now subst.
  - rewrite in_app_iff. cbn. intuition.
Qed.

Lemma In_fold_set_add (indices : list nat) (set : list string) (x : string) :
  In x (fold_left
          (fun set i =>
             match nth_error activeDates i with
             | Some d => set_add set d
             | None => set
             end) indices set)
  <-> In x set
      \/ exists i, In i indices /\ nth_error activeDates i = Some x.
Proof.
  revert set. induction indices as [|i indices IH]; intros set; cbn [fold_left].
  - split; [now left|]. intros [H|(i & [] & _)]. exact H.
  - rewrite IH. destruct (nth_error activeDates i) as [d|] eqn:E.
    + rewrite In_set_add. split.
      * intros [[H| ->]|(j & Hj & Ej)]; [now left| |].
        -- right. exists i. split; [now left|exact E].
        -- right. exists j. split; [now right|exact Ej].
      * intros [H|(j & [<-|Hj] & Ej)].
        -- left. now left.
        -- left. right. congruence.
        -- right. now exists j.
    + split.
      * intros [H|(j & Hj & Ej)]; [now left|].
        right. exists j. split; [now right|exact Ej].
      * intros [H|(j & [<-|Hj] & Ej)]; [now left|congruence|].
        right. now exists j.
Qed.

Lemma In_streakDays (st : Scan) (x : string) :
  In x (streakDays activeDates st)
  <-> exists i, (scan_maxStreakStart st <= i <= scan_maxStreakEnd st)%nat
                /\ nth_error activeDates i = Some x.
Proof.
  unfold streakDays. rewrite In_fold_set_add. split.
  - intros [[]|(i & Hi & E)]. exists i. split; [|exact E].
    apply in_seq in Hi. lia.
  - intros (i & Hi & E). right. exists i. split; [|exact E].
    apply in_seq. lia.
Qed.

End ScanFacts.

(** C7.  Over the sorted active dates (any non-empty array of dates), the run
    that the scan records is a run of consecutive days of length [maxStreak];
    no run of the array is longer; a run as long ends no earlier than the
    recorded one, so that among the longest runs the first one met is kept
    and a later one of equal length never replaces it; and the dates of
    [maxStreakDays] are exactly those at the indices from [maxStreakStart] to
    [maxStreakEnd], both included. *)
Theorem first_longest_run_is_recorded :
  forall (hostDate : value -> option Z) (activeDates : list string),
    activeDates <> [] ->
    let st := scanStreaks hostDate activeDates in
    isRun hostDate activeDates (scan_maxStreakStart st) (scan_maxStreakEnd st)
    /\ scan_maxStreak st
       = Z.of_nat (scan_maxStreakEnd st - scan_maxStreakStart st + 1)
    /\ (forall s e, isRun hostDate activeDates s e ->
                    Z.of_nat (e - s + 1) <= scan_maxStreak st)
    /\ (forall s e, isRun hostDate activeDates s e ->
                    Z.of_nat (e - s + 1) = scan_maxStreak st ->
                    (scan_maxStreakEnd st <= e)%nat)
    /\ (forall date,
          In date (streakDays activeDates st)
          <-> exists i,
                (scan_maxStreakStart st <= i <= scan_maxStreakEnd st)%nat
                /\ nth_error activeDates i = Some date).
Proof.
  intros hostDate activeDates Hne st.
  destruct (scanStreaks_invariant hostDate activeDates Hne)
    as [_ _ _ MR _ ML Long First].
  fold st in MR, ML, Long, First.
  split; [exact MR|]. split; [exact ML|]. split; [|split].
  - intros s e R. apply Long; [|exact R]. destruct R as [B _]. lia.
  - intros s e R. apply (First s e); [|exact R]. destruct R as [B _]. lia.
  - intros date. apply In_streakDays.
Qed.

Lemma first_longest_run_is_recorded_witness :
  tiedRuns <> []
  /\ let st := scanStreaks isoHost tiedRuns in
     isRun isoHost tiedRuns (scan_maxStreakStart st) (scan_maxStreakEnd st)
     /\ scan_maxStreak st
        = Z.of_nat (scan_maxStreakEnd st - scan_maxStreakStart st + 1)
     /\ (forall s e, isRun isoHost tiedRuns s e ->
                     Z.of_nat (e - s + 1) <= scan_maxStreak st)
     /\ (forall s e, isRun isoHost tiedRuns s e ->
                     Z.of_nat (e - s + 1) = scan_maxStreak st ->
                     (scan_maxStreakEnd st <= e)%nat)
     /\ (forall date,
           In date (streakDays tiedRuns st)
           <-> exists i,
                 (scan_maxStreakStart st <= i <= scan_maxStreakEnd st)%nat
                 /\ nth_error tiedRuns i = Some date).
Proof.
  assert (Hne : tiedRuns <> []) by discriminate.
  split; [exact Hne|].
  exact (first_longest_run_is_recorded isoHost tiedRuns Hne).
Defined.

(** Of the two runs of two days the first one is recorded. *)
Example tied_runs_keep_the_first :
  let st := scanStreaks isoHost tiedRuns in
  scan_maxStreak st = 2
  /\ (scan_maxStreakStart st, scan_maxStreakEnd st) = (0%nat, 1%nat)
  /\ streakDays tiedRuns st = ["2025-01-01"; "2025-01-02"].
Proof. vm_compute. repeat split. Qed.

(** ** The set of max-streak days *)

Lemma year_range_days (n : Z) :
  1000 <= fst (fst (civil_from_days n)) <= 9999 -> -400000 <= n <= 3000000.
Proof.
  unfold civil_from_days; cbv zeta. cbn [fst]. case_cmp; intros; calendar.
Qed.

Lemma round_div_days (k : Z) : round_div (k * msPerDay) msPerDay = k.
Proof. unfold round_div, msPerDay. calendar. Qed.

Lemma fold_set_add_fresh (l acc : list string) :
  NoDup (acc ++ l) -> fold_left set_add l acc = acc ++ l.
Proof.
  revert acc. induction l as [|x l IH]; intros acc N; cbn [fold_left].
  - now rewrite app_nil_r.
  - assert (Hx : existsb (String.eqb x) acc = false).
    { destruct (existsb _ _) eqn:E; [|reflexivity].
      apply existsb_exists in E as (y & Hy & Ey).
      apply String.eqb_eq in Ey. subst y.
      apply NoDup_remove_2 in N. exfalso. apply N, in_or_app. now left. }
    unfold set_add at 2. rewrite Hx.
    rewrite IH; rewrite <- app_assoc; [reflexivity|exact N].
Qed.

Lemma skipn_cons_nth {A} (l : list A) (s : nat) (x : A) :
  nth_error l s = Some x -> skipn s l = x :: skipn (S s) l.
Proof.
  revert s. induction l as [|a l IH]; intros [|s]; cbn; try discriminate.
  - now intros [= ->].
  - intros H. rewrite (IH s H). now destruct l.
Qed.

Lemma fold_over_indices (dates : list string) (len s : nat)
  (acc : list string) :
  (s + len <= List.length dates)%nat ->
  fold_left
    (fun set i =>
       match nth_error dates i with
       | Some d => set_add set d
       | None => set
       end) (seq s len) acc
  = fold_left set_add (firstn len (skipn s dates)) acc.
Proof.
  revert s acc. induction len as [|len IH]; intros s acc H; [reflexivity|].
  cbn [seq fold_left].
  destruct (nth_error dates s) as [d|] eqn:E.
  - rewrite (skipn_cons_nth _ _ _ E). cbn [firstn fold_left].
    apply IH. lia.
  - apply nth_error_None in E. lia.
Qed.

Lemma NoDup_slice {A} (l : list A) (s len : nat) :
  NoDup l -> NoDup (firstn len (skipn s l)).
Proof.
  intros N. rewrite <- (firstn_skipn s l) in N.
  apply NoDup_app_remove_l in N.
  rewrite <- (firstn_skipn len (skipn s l)) in N.
  now apply NoDup_app_remove_r in N.
Qed.

(** With distinct dates the set of days is the slice of the array. *)
Lemma streakDays_slice (dates : list string) (st : Scan) :
  NoDup dates ->
  (scan_maxStreakStart st <= scan_maxStreakEnd st < List.length dates)%nat ->
  streakDays dates st
  = firstn (S (scan_maxStreakEnd st) - scan_maxStreakStart st)
      (skipn (scan_maxStreakStart st) dates).
Proof.
  intros N B. unfold streakDays. rewrite fold_over_indices by lia.
  rewrite fold_set_add_fresh; [reflexivity|]. cbn [app].
  now apply NoDup_slice.
Qed.

Lemma nth_error_slice {A} (l : list A) (s len i : nat) :
  (i < len)%nat ->
  nth_error (firstn len (skipn s l)) i = nth_error l (s + i).
Proof.
  intros H. rewrite nth_error_firstn.
  destruct (Nat.ltb_spec i len); [|lia]. apply nth_error_skipn.
Qed.

Lemma Sorted_adjacent {A} (R : A -> A -> Prop) (l : list A) (i : nat)
  (a b : A) :
  Sorted R l -> nth_error l i = Some a -> nth_error l (S i) = Some b -> R a b.
Proof.
  intros S. revert i. induction S as [|x l S IH H]; intros i Ha Hb.
  - destruct i; discriminate.
  - destruct i as [|i].
    + cbn in Ha, Hb. injection Ha as ->. destruct l as [|y l]; [discriminate|].
      cbn in Hb. injection Hb as ->. now inversion H.
    + cbn in Ha, Hb. now apply (IH i).
Qed.

Section StreakDayFacts.
Variable tz : Z.
Variable hostDate : value -> option Z.

Lemma newDate_keyOfDay (n : Z) :
  1000 <= fst (fst (civil_from_days n)) <= 9999 ->
  newDate hostDate (VStr (keyOfDay n)) = Some (n * msPerDay).
Proof.
  intros Hy. cbn [newDate]. rewrite (parseIsoDateOnly_keyOfDay n Hy).
  unfold timeClip. apply year_range_days in Hy.
  destruct (Z.leb_spec (Z.abs (n * msPerDay)) 8640000000000000) as [|H];
    [reflexivity|].
  unfold msPerDay in H. lia.
Qed.

(** Between two date keys the test of the scan holds exactly when the second
    is the day after the first. *)
Lemma isNextDay_keys (dates : list string) (j : nat) (a b : Z) :
  nth_error dates (j - 1) = Some (keyOfDay a) ->
  nth_error dates j = Some (keyOfDay b) ->
  1000 <= fst (fst (civil_from_days a)) <= 9999 ->
  1000 <= fst (fst (civil_from_days b)) <= 9999 ->
  isNextDay hostDate dates j = true -> b = a + 1.
Proof.
  intros Ea Eb Ya Yb. unfold isNextDay, dateAt. rewrite Ea, Eb.
  rewrite (newDate_keyOfDay a Ya), (newDate_keyOfDay b Yb). cbn [diffDays].
  replace (b * msPerDay - a * msPerDay) with ((b - a) * msPerDay) by lia.
  rewrite round_div_days. intros H. apply Z.eqb_eq in H. lia.
Qed.

Lemma activeDates_facts (dailyActivity : DailyActivity) (year : Z) :
  NoDup (map_keys dailyActivity) ->
  let activeDates := activeDatesOf dailyActivity year in
  NoDup activeDates
  /\ Sorted (fun a b => String.leb a b = true) activeDates
  /\ forall date, In date activeDates -> In date (map_keys dailyActivity).
Proof.
  intros N activeDates. unfold activeDates, activeDatesOf.
  set (kept := filter _ (map_keys dailyActivity)).
  pose proof (StringSort.Permuted_sort kept) as P.
  split; [|split].
  - eapply Permutation_NoDup; [exact P|]. now apply NoDup_filter.
  - pose proof (StringSort.Sorted_sort kept) as S.
    eapply Sorted_ind with (P := fun l => Sorted _ l); [| |exact S].
    + constructor.
    + intros a l _ IH H. constructor; [exact IH|].
      destruct H as [|b l' H]; constructor. exact H.
  - intros date H. apply Permutation_sym in P.
    apply (Permutation_in _ P) in H. unfold kept in H.
    now apply filter_In in H.
Qed.

(** What [calculateStreaks] returns, up to the current streak. *)
Lemma calculateStreaks_fields (dailyActivity : DailyActivity) (year now : Z) :
  dateKeyed dailyActivity ->
  let activeDates := activeDatesOf dailyActivity year in
  exists r,
    calculateStreaks tz hostDate dailyActivity year now = Some r
    /\ (activeDates = [] ->
        streaks_maxStreak r = 0 /\ streaks_currentStreak r = 0
        /\ streaks_maxStreakDays r = [])
    /\ (activeDates <> [] ->
        streaks_maxStreak r = scan_maxStreak (scanStreaks hostDate activeDates)
        /\ streaks_maxStreakDays r
           = streakDays activeDates (scanStreaks hostDate activeDates)).
Proof.
  intros K activeDates.
  destruct (calculateStreaks_returns tz hostDate dailyActivity year now K)
    as [r E].
  exists r. split; [exact E|]. unfold calculateStreaks in E.
  fold activeDates in E.
  destruct activeDates as [|d l] eqn:A.
  - cbn in E. injection E as <-. split; [now repeat split|congruence].
  - cbn [List.length Nat.eqb] in E. split; [discriminate|]. intros _.
    destruct (if hasDay _ _ then _ else _) as [current|]; [|discriminate].
    cbn [bind] in E. injection E as <-. now split.
Qed.

End StreakDayFacts.

(** C8.  For a daily-activity map (distinct keys, each the date key of a
    day), any target year and any wall clock, [calculateStreaks] returns; the
    number of dates in [maxStreakDays] is [maxStreak]; the dates are in
    ascending order and, the keys being of the form [YYYY-MM-DD] (years 1000
    to 9999, which [new Date] reads as ISO dates), each is the calendar day
    after the one before it; with no active date in the year [maxStreak] is 0
    and the set is empty; with exactly one, [maxStreak] is 1. *)
Theorem max_streak_days_match_max_streak :
  forall (tz : Z) (hostDate : value -> option Z)
         (dailyActivity : DailyActivity) (year now : Z),
    NoDup (map_keys dailyActivity) ->
    dateKeyed dailyActivity ->
    exists r,
      calculateStreaks tz hostDate dailyActivity year now = Some r
      /\ Z.of_nat (List.length (streaks_maxStreakDays r)) = streaks_maxStreak r
      /\ (forall i a b,
            nth_error (streaks_maxStreakDays r) i = Some a ->
            nth_error (streaks_maxStreakDays r) (S i) = Some b ->
            String.leb a b = true
            /\ (isoKeyed dailyActivity ->
                exists n, a = keyOfDay n /\ b = keyOfDay (n + 1)))
      /\ (activeDatesOf dailyActivity year = [] ->
          streaks_maxStreak r = 0 /\ streaks_maxStreakDays r = [])
      /\ (List.length (activeDatesOf dailyActivity year) = 1%nat ->
          streaks_maxStreak r = 1).
Proof.
  intros tz hostDate dailyActivity year now N K.
  destruct (calculateStreaks_fields tz hostDate dailyActivity year now K)
    as (r & E & Hempty & Hsome).
  destruct (activeDates_facts dailyActivity year N) as (ND & Srt & Sub).
  set (activeDates := activeDatesOf dailyActivity year) in *.
  exists r. split; [exact E|].
  destruct activeDates as [|d0 rest] eqn:A.
  - destruct (Hempty eq_refl) as (-> & _ & ->).
    repeat split; try reflexivity; try discriminate.
    all: intros i a b Ha; destruct i; discriminate.
  - rewrite <- A in *.
    assert (Hne : activeDates <> []) by (rewrite A; discriminate).
    destruct (Hsome Hne) as [-> ->].
    destruct (scanStreaks_invariant hostDate activeDates Hne)
      as [_ _ _ MR _ ML _ _].
    set (st := scanStreaks hostDate activeDates) in *.
    pose proof MR as [MB MN].
    rewrite (streakDays_slice activeDates st ND MB).
    set (len := (S (scan_maxStreakEnd st) - scan_maxStreakStart st)%nat).
    assert (Hlen : List.length (firstn len (skipn (scan_maxStreakStart st)
                                              activeDates)) = len).
    { rewrite length_firstn, length_skipn. unfold len. lia. }
    split; [rewrite Hlen, ML; unfold len; lia|].
    split; [|split].
    + intros i a b Ha Hb.
      assert (Hi : (S i < len)%nat).
      { rewrite <- Hlen. apply nth_error_Some. congruence. }
      rewrite nth_error_slice in Ha, Hb by lia.
      split.
      * rewrite Nat.add_succ_r in Hb.
        exact (Sorted_adjacent (fun a b => String.leb a b = true) activeDates
                 (scan_maxStreakStart st + i) a b Srt Ha Hb).
      * intros Iso. unfold isoKeyed in Iso. rewrite Forall_forall in Iso.
        destruct (Iso a) as (na & -> & Ya);
          [eapply Sub, nth_error_In, Ha|].
        destruct (Iso b) as (nb & -> & Yb);
          [eapply Sub, nth_error_In, Hb|].
        exists na. split; [reflexivity|]. f_equal.
        rewrite Nat.add_succ_r in Hb.
        apply (isNextDay_keys hostDate activeDates
                 (S (scan_maxStreakStart st + i)) na nb); auto.
        -- rewrite <- Ha. f_equal. lia.
        -- apply MN. unfold len in Hi. lia.
    + rewrite A. discriminate.
    + intros L1. unfold st, scanStreaks. rewrite L1. reflexivity.
Qed.

Lemma max_streak_days_match_max_streak_witness :
  NoDup (map_keys januaryActivity)
  /\ dateKeyed januaryActivity
  /\ exists r,
       calculateStreaks utc isoHost januaryActivity 2025 noon_2025_06_15
       = Some r
       /\ Z.of_nat (List.length (streaks_maxStreakDays r)) = streaks_maxStreak r
       /\ (forall i a b,
             nth_error (streaks_maxStreakDays r) i = Some a ->
             nth_error (streaks_maxStreakDays r) (S i) = Some b ->
             String.leb a b = true
             /\ (isoKeyed januaryActivity ->
                 exists n, a = keyOfDay n /\ b = keyOfDay (n + 1)))
       /\ (activeDatesOf januaryActivity 2025 = [] ->
           streaks_maxStreak r = 0 /\ streaks_maxStreakDays r = [])
       /\ (List.length (activeDatesOf januaryActivity 2025) = 1%nat ->
           streaks_maxStreak r = 1).
Proof.
  assert (N : NoDup (map_keys januaryActivity)).
  { cbn. repeat constructor; cbn; intuition discriminate. }
  assert (K : dateKeyed januaryActivity).
  { repeat constructor.
    - exists 20092. vm_compute. reflexivity.
    - exists 20089. vm_compute. reflexivity.
    - exists 20090. vm_compute. reflexivity. }
  split; [exact N|]. split; [exact K|].
  exact (max_streak_days_match_max_streak utc isoHost januaryActivity
           2025 noon_2025_06_15 N K).
Defined.

(** The keys of the sample map are ISO date keys. *)
Example january_keys_are_iso : isoKeyed januaryActivity.
Proof.
  repeat constructor.
  - exists 20092. split; vm_compute; [reflexivity|split; discriminate].
  - exists 20089. split; vm_compute; [reflexivity|split; discriminate].
  - exists 20090. split; vm_compute; [reflexivity|split; discriminate].
Qed.

(** The three active days give a max streak of the first two. *)
Example january_streak :
  option_map (fun r => (streaks_maxStreak r, streaks_maxStreakDays r))
    (calculateStreaks utc isoHost januaryActivity 2025 noon_2025_06_15)
  = Some (2, ["2025-01-01"; "2025-01-02"]).
Proof. vm_compute. reflexivity. Qed.

(** ** The current streak at the start of the year *)

Lemma prefix_append (a b : string) : String.prefix a (a ++ b) = true.
Proof.
  induction a as [|c a IH]; cbn; [now destruct b|].
  destruct (ascii_dec c c); [exact IH|contradiction].
Qed.

Section NewYearFacts.
Variable tz : Z.
Variable hostDate : value -> option Z.

Lemma accumulate_dateKeyedIn (y : Z) (msgs : list MessageData) (acc : Totals) :
  Forall (fun m => yearIs tz hostDate (message_timestamp m) y = true) msgs ->
  dateKeyedIn y (acc_dailyActivity acc) ->
  dateKeyedIn y (acc_dailyActivity
                   (fold_left (accumulate tz hostDate) msgs acc)).
Proof.
  revert acc. induction msgs as [|m msgs IH]; intros acc F K; [exact K|].
  cbn [fold_left]. inversion F as [|? ? Hm F']; subst.
  apply IH; [exact F'|]. cbn [accumulate acc_dailyActivity].
  destruct (yearIs_valid _ _ _ _ Hm) as (t & -> & Y).
  unfold dateKeyedIn in *. rewrite map_keys_set.
  destruct (map_has _ _ _); [exact K|].
  apply Forall_app. split; [exact K|]. constructor; [|constructor].
  exists (localDay tz t). split; [apply formatDateKey_valid|exact Y].
Qed.

Lemma accumulate_keeps_keys (msgs : list MessageData) (acc : Totals)
  (key : string) :
  In key (map_keys (acc_dailyActivity acc)) ->
  In key (map_keys (acc_dailyActivity
                      (fold_left (accumulate tz hostDate) msgs acc))).
Proof.
  revert acc. induction msgs as [|m msgs IH]; intros acc H; [exact H|].
  cbn [fold_left]. apply IH. cbn [accumulate acc_dailyActivity].
  rewrite map_keys_set. destruct (map_has _ _ _); [exact H|].
  apply in_or_app. now left.
Qed.

Lemma accumulate_has_day (msgs : list MessageData) (acc : Totals)
  (m : MessageData) :
  In m msgs ->
  In (messageDay tz hostDate m)
     (map_keys (acc_dailyActivity
                  (fold_left (accumulate tz hostDate) msgs acc))).
Proof.
  revert acc. induction msgs as [|m' msgs IH]; intros acc H; [destruct H|].
  destruct H as [-> |H].
  - cbn [fold_left]. apply accumulate_keeps_keys.
    cbn [accumulate acc_dailyActivity]. rewrite map_keys_set.
    fold (messageDay tz hostDate m).
    destruct (map_has _ _ _) eqn:E; [now apply map_has_In|].
    apply in_or_app. right. now left.
  - cbn [fold_left]. now apply IH.
Qed.

Lemma dateKeyedIn_dateKeyed (y : Z) (dailyActivity : DailyActivity) :
  dateKeyedIn y dailyActivity -> dateKeyed dailyActivity.
Proof.
  unfold dateKeyedIn, dateKeyed. apply Forall_impl.
  intros key (n & E & _). now exists n.
Qed.

(** From the first of January of the year of the map the walk stops at once:
    the day before is no key of the map. *)
Lemma countStreakBackwards_january_first (dailyActivity : DailyActivity)
  (y now : Z) :
  dateKeyedIn y dailyActivity ->
  civil_from_days (localDay tz now) = (y, 1, 1) ->
  countStreakBackwards tz dailyActivity (Some now) = Some 1.
Proof.
  intros K C. unfold countStreakBackwards. cbn [countBack].
  destruct (hasDay dailyActivity (formatDateKey tz (dayBefore (Some now))))
    eqn:H; [|reflexivity].
  exfalso. apply map_has_In in H.
  unfold dateKeyedIn in K. rewrite Forall_forall in K.
  destruct (K _ H) as (n & E & Y).
  unfold dayBefore in E. cbn [bind] in E.
  destruct (timeClip (now - msPerDay)) as [t|] eqn:T.
  - unfold timeClip in T.
    destruct (Z.abs (now - msPerDay) <=? 8640000000000000); [|discriminate].
    injection T as <-.
    rewrite formatDateKey_valid, localDay_dayBefore in E.
    apply keyOfDay_inj in E. subst n.
    rewrite (year_before_january_first _ _ C) in Y. lia.
  - rewrite formatDateKey_invalid in E. symmetry in E.
    now apply keyOfDay_not_NaN in E.
Qed.

End NewYearFacts.




(** ** What the project list counts *)

Lemma distinctValues_app (seen l1 l2 : list value) :
  distinctValues seen (l1 ++ l2) = distinctValues (distinctValues seen l1) l2.
Proof.
  revert seen. induction l1 as [|v l1 IH]; intros seen; cbn; [reflexivity|].
  destruct (existsb _ seen); apply IH.
Qed.

Lemma map_keys_countProject (projectMap : ProjectMap) (path : value) :
  map_keys (countProject projectMap path)
  = distinctValues (map_keys projectMap) [path].
Proof.
  unfold countProject. cbn [distinctValues].
  rewrite <- map_has_existsb.
  generalize (countPlusOne same_value_zero projectMap path).
  intros n. unfold map_has, map_keys.
  induction projectMap as [|[k c] pm IH]; cbn; [reflexivity|].
  destruct (same_value_zero k path); cbn; [reflexivity|].
  rewrite IH. now destruct (map_get same_value_zero pm path).
Qed.

Lemma projectsOf_add (ss : list SessionData) (projectMap : ProjectMap)
  (s : SessionData) :
  projectsOf ss projectMap ->
  projectsOf (ss ++ [s]) (countProject projectMap (session_cwd s)).
Proof.
  unfold projectsOf. intros H.
  now rewrite map_keys_countProject, map_app, distinctValues_app, H.
Qed.

Section ProjectFacts.
Variable tz : Z.
Variable hostDate : value -> option Z.
Variable year : option Z.

Lemma addFileSession_projects {F}
  (parse : F -> option SessionData * list MessageData) (files : list F)
  (acc : Acc) :
  projectsOf (fst (fst acc)) (snd acc) ->
  let acc' := fold_left (fun acc f => addFileSession acc (parse f)) files acc in
  projectsOf (fst (fst acc')) (snd acc').
Proof.
  apply (fold_invariant
           (fun acc : Acc => projectsOf (fst (fst acc)) (snd acc))).
  intros [[ss ms] pm] f H. unfold addFileSession.
  destruct (parse f) as [[s|] fm]; cbn [fst snd] in *; [|exact H].
  now apply projectsOf_add.
Qed.

Lemma openCodeSession_projects (docs : list (option value))
  (st : list SessionData * ProjectMap) :
  projectsOf (fst st) (snd st) ->
  let st' := fold_left (eachDoc (openCodeSession tz hostDate year)) docs st in
  projectsOf (fst st') (snd st').
Proof.
  apply (fold_invariant
           (fun st : list SessionData * ProjectMap =>
              projectsOf (fst st) (snd st))).
  intros [ss pm] doc H. destruct doc as [raw|]; cbn [eachDoc]; [|exact H].
  destruct (openCodeSession tz hostDate year (ss, pm) raw) as [r|] eqn:E;
    cbn [catch]; [|exact H].
  unfold openCodeSession in E.
  exn_cases E; injection E as <-; cbn [fst snd] in *;
    first [ exact H
          | now apply (projectsOf_add ss pm (mkSession _ _ _ _ _ _)) ].
Qed.

Lemma mergeSession_projects (fileSessions : list (value * SessionData))
  (st : list (value * SessionData) * ProjectMap) :
  projectsOf (map_values (fst st)) (snd st) ->
  let st' := fold_left mergeSession fileSessions st in
  projectsOf (map_values (fst st')) (snd st').
Proof.
  apply (fold_invariant
           (fun st : list (value * SessionData) * ProjectMap =>
              projectsOf (map_values (fst st)) (snd st))).
  intros [allSessions pm] [id session] H. unfold mergeSession.
  destruct (map_has same_value_zero allSessions id) eqn:E; [exact H|].
  rewrite (map_set_absent _ _ _ E). cbn [fst snd] in *.
  unfold map_values. rewrite map_app. now apply projectsOf_add.
Qed.

Lemma addClaudeFile_projects (files : list file) (acc : ClaudeAcc) :
  projectsOf (map_values (fst (fst acc))) (snd acc) ->
  let acc' := fold_left (addClaudeFile tz hostDate year) files acc in
  projectsOf (map_values (fst (fst acc'))) (snd acc').
Proof.
  apply (fold_invariant
           (fun acc : ClaudeAcc =>
              projectsOf (map_values (fst (fst acc))) (snd acc))).
  intros [[allSessions allMessages] pm] f H. unfold addClaudeFile.
  destruct (parseClaudeFile tz hostDate f year) as [fileSessions fm].
  pose proof (mergeSession_projects fileSessions (allSessions, pm) H) as M.
  cbv zeta in M. now destruct (fold_left mergeSession fileSessions _).
Qed.

(** Whatever the source, the project list of [collectAll] has one entry for
    each distinct working directory among the sessions it returns; without a
    year filter, as [calculateStats] calls it, these are the sessions of every
    year. *)
Lemma projects_are_the_paths_of_the_sessions (src : DataSource)
  (data : SourceData) :
  let collected := collectAll tz hostDate src data year in
  List.length (projects collected) = distinctPaths (sessions collected).
Proof.
  assert (Start : projectsOf [] []) by reflexivity.
  assert (Len : forall ss pm s,
    projectsOf ss pm ->
    List.length (projectList s pm) = distinctPaths ss).
  { intros ss pm s H. unfold projectList, distinctPaths.
    rewrite <- H. unfold map_keys. now rewrite !length_map. }
  destruct src; cbv zeta; unfold collectAll.
  - pose proof (addFileSession_projects
                  (fun f => parsePiFile tz hostDate f year)
                  (jsonlFiles data) ([], [], []) Start) as H.
    cbv zeta in H. destruct (fold_left _ _ _) as [[ss ms] pm].
    now apply Len.
  - pose proof (addFileSession_projects
                  (fun f => parseCodexFile tz hostDate f year)
                  (jsonlFiles data) ([], [], []) Start) as H.
    cbv zeta in H. destruct (fold_left _ _ _) as [[ss ms] pm].
    now apply Len.
  - pose proof (addClaudeFile_projects (jsonlFiles data) ([], [], []) Start)
      as H.
    cbv zeta in H. destruct (fold_left _ _ _) as [[ss ms] pm].
    now apply Len.
  - unfold collectOpenCode.
    pose proof (openCodeSession_projects (sessionDocs data) ([], []) Start)
      as H.
    cbv zeta in H. destruct (fold_left _ (sessionDocs data) _) as [ss pm].
    now apply Len.
Qed.

End ProjectFacts.

(** C1.  The project list is not year-filtered.  [calculateStats] calls
    [collectAll] without a year and takes the length of its project list, so
    [totalProjects] is the number of distinct working directories among the
    sessions of every year.  For the [pi] source with one log file whose only
    session started in 2023 in [/old], the summary of the target year 2025
    has no session ([totalSessions] is 0, and so is the number of distinct
    working directories among the sessions of 2025), but [totalProjects]
    is 1. *)
Theorem total_projects_counts_other_years :
  (forall (tz : Z) (hostDate : value -> option Z) (y : Z) (src : DataSource)
          (data : SourceData) (now : Z),
      exists st,
        calculateStats tz hostDate y src data now = Some st
        /\ totalProjects st
           = distinctPaths (sessions (collectAll tz hostDate src data None)))
  /\ exists st,
       calculateStats utc isoHost 2025 pi
         (mkSourceData [piOldSessionFile] [] []) noon_2025_06_15 = Some st
       /\ totalSessions st = 0%nat
       /\ distinctPaths
            (yearSessionsOf utc isoHost 2025
               (collectAll utc isoHost pi
                  (mkSourceData [piOldSessionFile] [] []) None)) = 0%nat
       /\ totalProjects st = 1%nat.
Proof.
  split.
  - intros tz hostDate y src data now.
    destruct (calculateStats_returns tz hostDate y src data now)
      as (st & streaks & E & _ & _ & _ & Hp & _).
    exists st. split; [exact E|]. rewrite Hp.
    apply projects_are_the_paths_of_the_sessions.
  - eexists. split; [vm_compute; reflexivity|].
    repeat split; vm_compute; reflexivity.
Qed.

(** ** The weekday distribution *)

Section WeekdayFacts.
Variable tz : Z.
Variable hostDate : value -> option Z.

Lemma weekdayStep_invariant (counts : list Z) (len : nat) :
  let st := fold_left (weekdayStep counts) (seq 0 len) (O, 0) in
  (forall i c, (i < len)%nat -> nth_error counts i = Some c -> c <= snd st)
  /\ ((snd st = 0 /\ fst st = O)
      \/ (0 < snd st /\ (fst st < len)%nat
          /\ nth_error counts (fst st) = Some (snd st)
          /\ forall j c, (j < fst st)%nat -> nth_error counts j = Some c ->
                         c < snd st)).
Proof.
  pose (P := fun (k : nat) (st : nat * Z) =>
    (forall i c, (i < k)%nat -> nth_error counts i = Some c -> c <= snd st)
    /\ ((snd st = 0 /\ fst st = O)
        \/ (0 < snd st /\ (fst st < k)%nat
            /\ nth_error counts (fst st) = Some (snd st)
            /\ forall j c, (j < fst st)%nat -> nth_error counts j = Some c ->
                           c < snd st))).
  assert (H : P (0 + len)%nat
                (fold_left (weekdayStep counts) (seq 0 len) (O, 0))).
  { apply fold_left_seq_invariant.
    - split; [intros; lia | left; split; reflexivity].
    - intros k [d mx] _ [Hle Hcase]. unfold P. cbn [fst snd] in *.
      unfold weekdayStep. cbn [fst snd].
      destruct (nth_error counts k) as [c|] eqn:Ek.
      + destruct (Z.ltb_spec mx c) as [Hlt|Hge]; cbn [fst snd].
        * split.
          -- intros i c' Hi Hc'.
             destruct (Nat.eq_dec i k) as [-> |Hne].
             ++ rewrite Ek in Hc'. injection Hc' as <-. lia.
             ++ specialize (Hle i c' ltac:(lia) Hc'). lia.
          -- right. split; [|split; [lia|split; [exact Ek|]]].
             ++ destruct Hcase as [[-> _]|[Hpos _]]; lia.
             ++ intros j c' Hj Hc'. specialize (Hle j c' Hj Hc'). lia.
        * split.
          -- intros i c' Hi Hc'.
             destruct (Nat.eq_dec i k) as [-> |Hne].
             ++ rewrite Ek in Hc'. injection Hc' as <-. lia.
             ++ apply (Hle i c'); [lia|exact Hc'].
          -- destruct Hcase as [Hz|[Hpos [Hd [Hn Hf]]]]; [left; exact Hz|].
             right. split; [exact Hpos|]. split; [lia|]. split; [exact Hn|exact Hf].
      + cbn [fst snd]. split.
        * intros i c' Hi Hc'.
          destruct (Nat.eq_dec i k) as [-> |Hne]; [congruence|].
          apply (Hle i c'); [lia|exact Hc'].
        * destruct Hcase as [Hz|[Hpos [Hd [Hn Hf]]]]; [left; exact Hz|].
          right. split; [exact Hpos|]. split; [lia|]. split; [exact Hn|exact Hf]. }
  exact H.
Qed.

Lemma buildWeekdayActivity_counts (counts : list Z) :
  weekday_counts (buildWeekdayActivity counts) = counts.
Proof.
  unfold buildWeekdayActivity.
  destruct (fold_left (weekdayStep counts) (seq 0 7) (O, 0)). reflexivity.
Qed.

(** X1.  [buildWeekdayActivity] reports the first weekday with the largest
    count: no counter exceeds [maxCount], the counter of [mostActiveDay] is
    [maxCount] and every earlier weekday has a smaller one; when no counter
    is positive it reports Sunday with a count of 0.  The name is the one of
    the reported weekday. *)
Theorem most_active_weekday_is_first_maximum (counts : list Z) :
  let w := buildWeekdayActivity counts in
  weekday_counts w = counts
  /\ (forall i c, (i < 7)%nat -> nth_error counts i = Some c ->
                  c <= weekday_maxCount w)
  /\ ((weekday_maxCount w = 0 /\ weekday_mostActiveDay w = O
       /\ weekday_mostActiveDayName w = VStr "Sunday")
      \/ (0 < weekday_maxCount w
          /\ nth_error counts (weekday_mostActiveDay w)
             = Some (weekday_maxCount w)
          /\ (forall j c, (j < weekday_mostActiveDay w)%nat ->
                          nth_error counts j = Some c ->
                          c < weekday_maxCount w)
          /\ exists name,
               nth_error WEEKDAY_NAMES_FULL (weekday_mostActiveDay w)
               = Some name
               /\ weekday_mostActiveDayName w = VStr name)).
Proof.
  intros w. subst w. unfold buildWeekdayActivity.
  pose proof (weekdayStep_invariant counts 7) as H. cbv zeta in H.
  destruct (fold_left (weekdayStep counts) (seq 0 7) (O, 0)) as [d mx].
  cbn [fst snd weekday_counts weekday_maxCount weekday_mostActiveDay
       weekday_mostActiveDayName] in *.
  destruct H as [Hle Hcase].
  split; [reflexivity|]. split; [exact Hle|].
  destruct Hcase as [[-> ->]|[Hpos [Hd [Hn Hf]]]].
  - left. repeat split.
  - right. split; [exact Hpos|]. split; [exact Hn|]. split; [exact Hf|].
    destruct (nth_error WEEKDAY_NAMES_FULL d) as [name|] eqn:En.
    + exists name. split; reflexivity.
    + apply nth_error_None in En. cbn in En. lia.
Qed.

Lemma increment_map (f : nat -> Z) (i s len : nat) :
  increment (map f (seq s len)) i
  = map (fun w => if (w =? s + i)%nat then f w + 1 else f w) (seq s len).
Proof.
  revert i s. induction len as [|len IH]; intros i s; [destruct i; reflexivity|].
  cbn [seq map]. destruct i as [|i]; cbn [increment].
  - replace (s + 0)%nat with s by lia. rewrite Nat.eqb_refl. f_equal.
    apply map_ext_in. intros w Hw. apply in_seq in Hw.
    destruct (Nat.eqb_spec w s); [lia|reflexivity].
  - destruct (Nat.eqb_spec s (s + S i)); [lia|]. f_equal.
    rewrite IH. apply map_ext. intros w.
    replace (S s + i)%nat with (s + S i)%nat by lia. reflexivity.
Qed.

Lemma getDay_range (d : date) (w : Z) : getDay tz d = Some w -> 0 <= w < 7.
Proof.
  destruct d as [t|]; cbn; [|discriminate].
  intros [= <-]. apply Z.mod_pos_bound. lia.
Qed.

Lemma tally_weekdays (msgs : list MessageData) (acc : Tally) (f : nat -> Z) :
  tally_weekdayCounts acc = map f (seq 0 7) ->
  tally_weekdayCounts (fold_left (tally tz hostDate) msgs acc)
  = map (fun w => f w + countOn (onWeekday tz hostDate w) msgs) (seq 0 7).
Proof.
  revert acc f. induction msgs as [|m msgs IH]; intros acc f Hacc.
  - cbn [fold_left]. rewrite Hacc. apply map_ext. intros w.
    unfold countOn. cbn. lia.
  - cbn [fold_left].
    rewrite (IH _ (fun w => f w + countOn (onWeekday tz hostDate w) [m])).
    + apply map_ext. intros w. unfold countOn. cbn [filter].
      destruct (onWeekday tz hostDate w m); cbn [List.length]; lia.
    + unfold tally. cbn [tally_weekdayCounts]. rewrite Hacc.
      unfold countWeekday, countOn, onWeekday. cbn [filter].
      destruct (getDay tz (newDate hostDate (message_timestamp m)))
        as [d|] eqn:Ed.
      * apply getDay_range in Ed. rewrite increment_map.
        apply map_ext. intros w. cbn [Nat.add].
        destruct (Nat.eqb_spec w (Z.to_nat d)) as [-> |Hne].
        -- rewrite Z2Nat.id by lia. rewrite Z.eqb_refl. cbn. lia.
        -- destruct (Z.eqb_spec d (Z.of_nat w)) as [-> |Hd].
           ++ rewrite Nat2Z.id in Hne. congruence.
           ++ cbn. lia.
      * apply map_ext. intros w. cbn. lia.
Qed.

End WeekdayFacts.

Section SummaryFacts.
Variable tz : Z.
Variable hostDate : value -> option Z.
Variable hostNumber : string -> option Z.
Variable getModelDisplayName : value -> value.
Variable getModelProvider : value -> value.
Variable getProviderDisplayName : value -> value.

#[local] Abbreviation highlights :=
  (calculateHighlights tz hostDate hostNumber getModelDisplayName
     getModelProvider getProviderDisplayName).

Lemma highlights_fields (y : Z) (src : DataSource) (data : SourceData)
  (now : Z) :
  let collected := collectAll tz hostDate src data None in
  let yearMessages := yearMessagesOf tz hostDate y collected in
  let counts := fold_left (tally tz hostDate) yearMessages tally0 in
  let h := highlights y src data now in
  (firstSessionDate h, daysSinceFirstSession h)
  = firstSession hostNumber (sessions collected) now
  /\ topModels h
     = topModelsOf getModelDisplayName getModelProvider
         (tally_modelCounts counts)
  /\ topProviders h
     = topProvidersOf getProviderDisplayName (tally_providerCounts counts)
  /\ mostActiveDay h
     = findMostActiveDay tz hostNumber
         (acc_dailyActivity
            (fold_left (accumulate tz hostDate) yearMessages totals0))
  /\ weekdayActivity h = buildWeekdayActivity (tally_weekdayCounts counts).
Proof.
  cbv zeta. unfold calculateHighlights.
  destruct (firstSession hostNumber _ now) as [d n].
  repeat split.
Qed.

Lemma weekdays_of_valid (msgs : list MessageData) (y : Z) :
  Forall (fun m => yearIs tz hostDate (message_timestamp m) y = true) msgs ->
  sumOf (map (fun w => countOn (onWeekday tz hostDate w) msgs) (seq 0 7))
  = Z.of_nat (List.length msgs).
Proof.
  induction 1 as [|m msgs Hm _ IH]; [reflexivity|].
  apply yearIs_valid in Hm. destruct Hm as [t [Ht _]].
  cbn [List.length]. rewrite Nat2Z.inj_succ, <- IH.
  unfold countOn, onWeekday. cbn [filter]. rewrite Ht.
  pose proof (getDay_range tz (Some t) _ eq_refl) as Hd.
  cbn [getDay option_map] in *.
  set (d := (localDay tz t + 4) mod 7) in *. clearbody d.
  cbn [seq map sumOf fold_right].
  assert (Hcases : d = 0 \/ d = 1 \/ d = 2 \/ d = 3 \/ d = 4 \/ d = 5
                   \/ d = 6) by lia.
  repeat (destruct Hcases as [-> |Hcases]); try subst d;
    cbn [Z.of_nat Pos.of_succ_nat Pos.succ Z.eqb Pos.eqb List.length];
    rewrite ?Nat2Z.inj_succ; lia.
Qed.

(** X2.  The seven weekday counters of the summary count the messages of
    the year by the weekday of their local date, Sunday first. *)
Theorem weekday_counts_count_the_messages (y : Z) (src : DataSource)
  (data : SourceData) (now : Z) :
  let yearMessages :=
    yearMessagesOf tz hostDate y (collectAll tz hostDate src data None) in
  weekday_counts (weekdayActivity (highlights y src data now))
  = map (fun w => countOn (onWeekday tz hostDate w) yearMessages) (seq 0 7).
Proof.
  intros yearMessages.
  destruct (highlights_fields y src data now) as (_ & _ & _ & _ & ->).
  rewrite buildWeekdayActivity_counts.
  rewrite (tally_weekdays tz hostDate _ tally0 (fun _ => 0)); [|reflexivity].
  reflexivity.
Qed.

End SummaryFacts.

(** ** The most active day *)

Section MostActiveFacts.
Variable tz : Z.
Variable hostDate : value -> option Z.
Variable hostNumber : string -> option Z.

Lemma mostActive_fold (l : list (string * Z)) (st : string * Z) :
  let r := fold_left mostActiveStep l st in
  (r = st /\ Forall (fun e => snd e <= snd st) l)
  \/ (exists before after,
        l = before ++ r :: after
        /\ snd st < snd r
        /\ Forall (fun e => snd e < snd r) before
        /\ Forall (fun e => snd e <= snd r) after).
Proof.
  revert st. induction l as [|e l IH]; intros st; cbn [fold_left].
  - left. split; [reflexivity|constructor].
  - set (st' := mostActiveStep st e).
    assert (Hst' : st' = if snd st <? snd e then e else st) by reflexivity.
    clearbody st'.
    destruct (Z.ltb_spec (snd st) (snd e)) as [Hlt|Hge]; subst st'.
    + destruct (IH e) as [[Hr Hall]|(b & a & Hl & Hs & Hb & Ha)].
      * right. exists [], l. cbv zeta in Hr. rewrite Hr.
        split; [reflexivity|]. split; [exact Hlt|].
        split; [constructor|exact Hall].
      * right. exists (e :: b), a. cbv zeta in *.
        split; [rewrite Hl at 1; reflexivity|]. split; [lia|].
        split; [constructor; [exact Hs|exact Hb]|exact Ha].
    + destruct (IH st) as [[Hr Hall]|(b & a & Hl & Hs & Hb & Ha)].
      * left. cbv zeta in *. split; [exact Hr|].
        constructor; [exact Hge|exact Hall].
      * right. exists (e :: b), a. cbv zeta in *.
        split; [rewrite Hl at 1; reflexivity|]. split; [exact Hs|].
        split; [constructor; [lia|exact Hb]|exact Ha].
Qed.

(** What [findMostActiveDay] returns, whatever the keys are: nothing when
    no count is positive or when the entry it stops at has the empty string
    for a key. *)
Lemma findMostActiveDay_cases (dailyActivity : DailyActivity) :
  match findMostActiveDay tz hostNumber dailyActivity with
  | Some day =>
      exists before after,
        dailyActivity
        = before ++ (mostActive_date day, mostActive_count day) :: after
        /\ 0 < mostActive_count day
        /\ Forall (fun e => snd e < mostActive_count day) before
        /\ Forall (fun e => snd e <= mostActive_count day) after
  | None =>
      Forall (fun e => snd e <= 0) dailyActivity
      \/ In EmptyString (map_keys dailyActivity)
  end.
Proof.
  unfold findMostActiveDay.
  destruct dailyActivity as [|e0 rest] eqn:Eda; [left; constructor|].
  rewrite <- Eda in *. replace (List.length dailyActivity =? 0)%nat with false
    by (rewrite Eda; reflexivity).
  destruct (mostActive_fold dailyActivity (EmptyString, 0))
    as [[Hr Hall]|(b & a & Hl & Hs & Hb & Ha)]; cbv zeta in *.
  - rewrite Hr. cbn. left. exact Hall.
  - destruct (fold_left mostActiveStep dailyActivity (EmptyString, 0))
      as [d c]. cbn [fst snd] in *.
    destruct (String.eqb_spec d "") as [-> |Hne].
    + right. rewrite Hl. unfold map_keys.
      rewrite map_app. apply in_or_app. right. left. reflexivity.
    + cbn [mostActive_date mostActive_count]. exists b, a.
      repeat split; assumption.
Qed.

(** X4.  [findMostActiveDay] reports the first entry, in the order of the
    map, whose count is the largest: the entries before it have smaller
    counts and no entry has a larger one.  It reports nothing only when no
    count is positive (the keys being non-empty strings, as date keys
    are). *)
Theorem most_active_day_is_first_maximum (dailyActivity : DailyActivity) :
  ~ In EmptyString (map_keys dailyActivity) ->
  match findMostActiveDay tz hostNumber dailyActivity with
  | Some day =>
      exists before after,
        dailyActivity
        = before ++ (mostActive_date day, mostActive_count day) :: after
        /\ 0 < mostActive_count day
        /\ Forall (fun e => snd e < mostActive_count day) before
        /\ Forall (fun e => snd e <= mostActive_count day) after
  | None => Forall (fun e => snd e <= 0) dailyActivity
  end.
Proof.
  intros Hkeys.
  pose proof (findMostActiveDay_cases dailyActivity) as Hcases.
  destruct (findMostActiveDay tz hostNumber dailyActivity) as [day|].
  - exact Hcases.
  - destruct Hcases as [Hall|Hempty]; [exact Hall|].
    contradiction.
Qed.

End MostActiveFacts.

Lemma most_active_day_is_first_maximum_witness :
  ~ In EmptyString (map_keys januaryActivity)
  /\ match findMostActiveDay utc (fun _ => None) januaryActivity with
     | Some day =>
         exists before after,
           januaryActivity
           = before ++ (mostActive_date day, mostActive_count day) :: after
           /\ 0 < mostActive_count day
           /\ Forall (fun e => snd e < mostActive_count day) before
           /\ Forall (fun e => snd e <= mostActive_count day) after
     | None => Forall (fun e => snd e <= 0) januaryActivity
     end.
Proof.
  assert (K : ~ In EmptyString (map_keys januaryActivity)).
  { cbn. intuition discriminate. }
  split; [exact K|].
  exact (most_active_day_is_first_maximum utc (fun _ => None)
           januaryActivity K).
Defined.

Lemma split_not_nil (sep : ascii) (s : string) : split sep s <> [].
Proof.
  destruct s as [|c s]; cbn; [discriminate|].
  destruct (Ascii.eqb c sep); [discriminate|].
  destruct (split sep s); discriminate.
Qed.

Lemma split_digits (acc v : Z) (s : string) :
  digits_value acc s = Some v -> split "-" s = [s].
Proof.
  revert acc. induction s as [|c s IH]; intros acc H; [reflexivity|].
  cbn [digits_value] in H.
  destruct (digit_of_ascii c) as [d|] eqn:Ed; [|discriminate].
  cbn [split].
  destruct (Ascii.eqb_spec c "-") as [-> |Hne]; [discriminate|].
  rewrite (IH _ H). reflexivity.
Qed.

Lemma split_append (a b : string) :
  split "-" a = [a] ->
  split "-" (a ++ "-" ++ b) = a :: split "-" b.
Proof.
  induction a as [|c a IH]; intros H; [reflexivity|].
  cbn [split append] in *.
  destruct (Ascii.eqb c "-").
  - injection H as H _. discriminate.
  - destruct (split "-" a) as [|p ps] eqn:Ea.
    + exfalso. exact (split_not_nil _ _ Ea).
    + injection H as -> ->. rewrite IH by reflexivity. reflexivity.
Qed.

Section FormattedDateFacts.
Variable tz : Z.
Variable hostNumber : string -> option Z.

Lemma numbers_of_keyOfDay (n : Z) :
  1000 <= fst (fst (civil_from_days n)) <= 9999 ->
  map (numberOfString hostNumber) (split "-" (keyOfDay n))
  = [Some (fst (fst (civil_from_days n)));
     Some (snd (fst (civil_from_days n)));
     Some (snd (civil_from_days n))].
Proof.
  intros Hy. unfold keyOfDay.
  pose proof (civil_from_days_valid n) as Hv.
  destruct (civil_from_days n) as [[y m] d]. cbn [fst snd] in *.
  destruct Hv as [Hm Hd].
  assert (Hd' : 1 <= d <= 31).
  { unfold daysInMonth in Hd.
    destruct (m =? 2); [destruct (isLeapYear y); lia|].
    destruct ((m =? 4) || (m =? 6) || (m =? 9) || (m =? 11)); lia. }
  destruct (four_digits y Hy) as [_ Vy].
  destruct (two_digits m ltac:(lia)) as [_ Vm].
  destruct (two_digits d ltac:(lia)) as [_ Vd].
  unfold dateKey.
  rewrite split_append by exact (split_digits _ _ _ Vy).
  rewrite split_append by exact (split_digits _ _ _ Vm).
  rewrite (split_digits _ _ _ Vd).
  cbn [map]. unfold numberOfString. rewrite Vy, Vm, Vd. reflexivity.
Qed.

Lemma localDate_of_civil (n : Z) :
  - msPerDay <= tz <= msPerDay ->
  1000 <= fst (fst (civil_from_days n)) <= 9999 ->
  localDate tz (Some (fst (fst (civil_from_days n))))
    (Some (snd (fst (civil_from_days n)) - 1))
    (Some (snd (civil_from_days n)))
  = Some (n * msPerDay - tz).
Proof.
  intros Htz Hy.
  pose proof (civil_from_days_valid n) as Hv.
  pose proof (days_from_civil_from_days n) as Hn.
  pose proof (year_range_days n Hy) as Hr.
  destruct (civil_from_days n) as [[y m] d]. cbn [fst snd] in *.
  destruct Hv as [Hm Hd].
  assert (Hd' : 1 <= d <= 31).
  { unfold daysInMonth in Hd.
    destruct (m =? 2); [destruct (isLeapYear y); lia|].
    destruct ((m =? 4) || (m =? 6) || (m =? 9) || (m =? 11)); lia. }
  unfold localDate.
  replace ((0 <=? y) && (y <=? 99)) with false
    by (symmetry; apply andb_false_iff; right; apply Z.leb_gt; lia).
  replace ((m - 1) / 12) with 0 by (symmetry; apply Z.div_small; lia).
  replace ((m - 1) mod 12 + 1) with m
    by (rewrite Z.mod_small by lia; lia).
  rewrite Z.add_0_r.
  assert (Hfirst : days_from_civil y m 1 = n - d + 1).
  { rewrite <- Hn. unfold days_from_civil. lia. }
  rewrite Hfirst. unfold msPerDay in *.
  replace (Z.abs ((n - d + 1) * (24 * 60 * 60 * 1000)) <=? 8640000000000000)
    with true by (symmetry; apply Z.leb_le; lia).
  replace (n - d + 1 + d - 1) with n by lia.
  unfold timeClip.
  replace (Z.abs (n * (24 * 60 * 60 * 1000) - tz) <=? 8640000000000000)
    with true by (symmetry; apply Z.leb_le; lia).
  reflexivity.
Qed.

(** X5.  The formatted date of the most active day is the month name and
    the day of month of its own date key, in every time zone: the key
    [YYYY-MM-DD] is taken apart and read as a local date, so the day does
    not shift. *)
Theorem most_active_day_formats_its_own_date (dailyActivity : DailyActivity)
  (day : MostActiveDay) (n : Z) :
  - msPerDay <= tz <= msPerDay ->
  findMostActiveDay tz hostNumber dailyActivity = Some day ->
  mostActive_date day = keyOfDay n ->
  1000 <= fst (fst (civil_from_days n)) <= 9999 ->
  exists name,
    nth_error monthNames (Z.to_nat (snd (fst (civil_from_days n)) - 1))
    = Some name
    /\ mostActive_formattedDate day
       = (name ++ " " ++ string_of_Z (snd (civil_from_days n)))%string.
Proof.
  intros Htz Hfind Hkey Hy. unfold findMostActiveDay in Hfind.
  destruct (List.length dailyActivity =? 0)%nat; [discriminate|].
  destruct (fold_left mostActiveStep dailyActivity (EmptyString, 0))
    as [maxDate maxCount].
  destruct (String.eqb maxDate ""); [discriminate|].
  injection Hfind as <-. cbn [mostActive_date mostActive_formattedDate] in *.
  subst maxDate. rewrite (numbers_of_keyOfDay n Hy). cbn [nth option_map].
  rewrite (localDate_of_civil n Htz Hy).
  unfold formatMonthDay, getMonth1, getDate. cbn [option_map].
  assert (Hl : localDay tz (n * msPerDay - tz) = n).
  { unfold localDay, msPerDay.
    replace (n * (24 * 60 * 60 * 1000) - tz + tz)
      with (n * (24 * 60 * 60 * 1000)) by lia.
    apply Z.div_mul. lia. }
  rewrite Hl.
  pose proof (civil_from_days_valid n) as Hv.
  destruct (civil_from_days n) as [[y m] d]. cbn [fst snd] in *.
  destruct Hv as [Hm _].
  destruct (nth_error monthNames (Z.to_nat (m - 1))) as [name|] eqn:En.
  - exists name. split; reflexivity.
  - apply nth_error_None in En. cbn [List.length monthNames] in En. lia.
Qed.

End FormattedDateFacts.

Lemma most_active_day_formats_its_own_date_witness :
  exists day,
    findMostActiveDay utc (fun _ => None) januaryActivity = Some day
    /\ mostActive_date day = "2025-01-02"
    /\ mostActive_count day = 5
    /\ mostActive_formattedDate day = "Jan 2".
Proof.
  assert (Htz : - msPerDay <= utc <= msPerDay) by (vm_compute; split; discriminate).
  assert (Hy : 1000 <= fst (fst (civil_from_days 20090)) <= 9999)
    by (vm_compute; split; discriminate).
  destruct (findMostActiveDay utc (fun _ => None) januaryActivity)
    as [day|] eqn:E; [|discriminate E].
  exists day.
  assert (Hk : mostActive_date day = keyOfDay 20090).
  { vm_compute in E. injection E as <-. vm_compute. reflexivity. }
  destruct (most_active_day_formats_its_own_date utc (fun _ => None)
              januaryActivity day 20090 Htz E Hk Hy) as (name & Hn & Hf).
  split; [reflexivity|].
  vm_compute in Hn. injection Hn as <-.
  repeat split.
  - rewrite Hk. vm_compute. reflexivity.
  - vm_compute in E. injection E as <-. reflexivity.
  - rewrite Hf. vm_compute. reflexivity.
Defined.

Section CounterFacts.
Context {K : Type}.
Variable keq : K -> K -> bool.

Lemma countPlusOne_positive (m : list (K * Z)) (k : K) :
  Forall (fun e => 1 <= snd e) m -> 1 <= countPlusOne keq m k.
Proof.
  unfold countPlusOne. induction 1 as [|[k' v'] m Hv _ IH]; cbn [map_get].
  - lia.
  - destruct (keq k' k); [|exact IH]. cbn [snd] in Hv.
    destruct (Z.eqb_spec v' 0); lia.
Qed.

Lemma map_set_positive (m : list (K * Z)) (k : K) (v : Z) :
  1 <= v -> Forall (fun e => 1 <= snd e) m ->
  Forall (fun e => 1 <= snd e) (map_set keq m k v).
Proof.
  intros Hv. induction 1 as [|[k' v'] m Hv' Hm IH]; cbn [map_set].
  - constructor; [exact Hv|constructor].
  - destruct (keq k' k); constructor; assumption.
Qed.

Lemma count_positive (m : list (K * Z)) (k : K) :
  Forall (fun e => 1 <= snd e) m ->
  Forall (fun e => 1 <= snd e) (map_set keq m k (countPlusOne keq m k)).
Proof.
  intros H. apply map_set_positive; [apply countPlusOne_positive|]; exact H.
Qed.

End CounterFacts.

Lemma map_get_middle {V} (before after : list (string * V)) (k : string)
  (v : V) :
  ~ In k (map_keys before) ->
  map_get String.eqb (before ++ (k, v) :: after) k = Some v.
Proof.
  induction before as [|[k' v'] before IH]; intros Hk; cbn [app map_get].
  - rewrite String.eqb_refl. reflexivity.
  - destruct (String.eqb_spec k' k) as [-> |Hne].
    + exfalso. apply Hk. left. reflexivity.
    + apply IH. intros Hin. apply Hk. right. exact Hin.
Qed.

Lemma keyOfDay_not_empty (n : Z) : keyOfDay n <> EmptyString.
Proof.
  unfold keyOfDay. destruct (civil_from_days n) as [[y m] d].
  unfold dateKey. intros H. apply (f_equal String.length) in H.
  rewrite !length_append in H. cbn in H. lia.
Qed.

Section MostActiveOfYear.
Variable tz : Z.
Variable hostDate : value -> option Z.
Variable hostNumber : string -> option Z.
Variable getModelDisplayName : value -> value.
Variable getModelProvider : value -> value.
Variable getProviderDisplayName : value -> value.

#[local] Abbreviation highlights :=
  (calculateHighlights tz hostDate hostNumber getModelDisplayName
     getModelProvider getProviderDisplayName).

Lemma accumulate_positive (msgs : list MessageData) (acc : Totals) :
  Forall (fun e => 1 <= snd e) (acc_dailyActivity acc) ->
  Forall (fun e => 1 <= snd e)
    (acc_dailyActivity (fold_left (accumulate tz hostDate) msgs acc)).
Proof.
  revert acc. induction msgs as [|m msgs IH]; intros acc H; [exact H|].
  cbn [fold_left]. apply IH. unfold accumulate. cbn [acc_dailyActivity].
  apply count_positive. exact H.
Qed.


End MostActiveOfYear.

(** ** The rankings of models and providers *)

Lemma insertByCount_permutation (e : value * Z) (sorted : list (value * Z)) :
  Permutation (e :: sorted) (insertByCount e sorted).
Proof.
  induction sorted as [|e' rest IH]; cbn [insertByCount]; [reflexivity|].
  destruct (snd e' <=? snd e); [reflexivity|].
  rewrite perm_swap. apply perm_skip. exact IH.
Qed.

Lemma sortByCount_permutation (entries : list (value * Z)) :
  Permutation entries (sortByCount entries).
Proof.
  induction entries as [|e rest IH]; [reflexivity|].
  cbn [sortByCount fold_right]. fold (sortByCount rest).
  rewrite <- insertByCount_permutation. apply perm_skip. exact IH.
Qed.

Lemma insertByCount_descending (e : value * Z) (sorted : list (value * Z)) :
  descending sorted -> descending (insertByCount e sorted).
Proof.
  unfold descending. induction 1 as [|e' rest Hrest IH Hall];
    cbn [insertByCount].
  - constructor; constructor.
  - destruct (Z.leb_spec (snd e') (snd e)) as [Hle|Hgt].
    + constructor; [constructor; assumption|].
      constructor; [exact Hle|].
      eapply Forall_impl; [|exact Hall]. cbv beta. intros x Hx. lia.
    + constructor; [exact IH|].
      apply (Permutation_Forall (insertByCount_permutation e rest)).
      constructor; [lia|exact Hall].
Qed.

Lemma sortByCount_descending (entries : list (value * Z)) :
  descending (sortByCount entries).
Proof.
  induction entries as [|e rest IH]; [constructor|].
  cbn [sortByCount fold_right]. apply insertByCount_descending. exact IH.
Qed.

Lemma insertByCount_stable (c : Z) (e : value * Z)
  (sorted : list (value * Z)) :
  ofCount c (insertByCount e sorted) = ofCount c (e :: sorted).
Proof.
  unfold ofCount. induction sorted as [|e' rest IH]; cbn [insertByCount];
    [reflexivity|].
  destruct (Z.leb_spec (snd e') (snd e)) as [Hle|Hgt]; [reflexivity|].
  cbn [filter] in *. rewrite IH.
  destruct (Z.eqb_spec (snd e) c) as [He|He]; [|reflexivity].
  destruct (Z.eqb_spec (snd e') c) as [He'|He']; [lia|reflexivity].
Qed.

Lemma sortByCount_stable (c : Z) (entries : list (value * Z)) :
  ofCount c (sortByCount entries) = ofCount c entries.
Proof.
  induction entries as [|e rest IH]; [reflexivity|].
  cbn [sortByCount fold_right]. fold (sortByCount rest).
  rewrite insertByCount_stable. unfold ofCount in *. cbn [filter].
  rewrite IH. reflexivity.
Qed.

Lemma descending_app (top rest : list (value * Z)) :
  descending (top ++ rest) ->
  descending top
  /\ Forall (fun e => Forall (fun e' => snd e' <= snd e) rest) top.
Proof.
  unfold descending. induction top as [|e top IH]; cbn [app]; intros H.
  - split; constructor.
  - apply StronglySorted_inv in H. destruct H as [Hs Hall].
    destruct (IH Hs) as [Htop Hrest].
    apply Forall_app in Hall. destruct Hall as [Ht Hr].
    split; constructor; assumption.
Qed.

(** X7.  The rankings [topModels] and [topProviders] list the three
    entries of the largest counts of their map (all of them when the map has
    fewer), largest first: an entry of the map that is not listed has a
    count no larger than any listed one. *)
Theorem ranking_lists_the_three_largest
  (getModelDisplayName getModelProvider getProviderDisplayName
     : value -> value)
  (counts : list (value * Z)) :
  let top := topEntries counts in
  map (fun ms => (model_id ms, model_count ms))
    (topModelsOf getModelDisplayName getModelProvider counts) = top
  /\ map (fun ps => (provider_id ps, provider_count ps))
       (topProvidersOf getProviderDisplayName counts) = top
  /\ List.length top = Nat.min 3 (List.length counts)
  /\ descending top
  /\ exists rest,
       Permutation counts (top ++ rest)
       /\ Forall (fun e => Forall (fun e' => snd e' <= snd e) rest) top.
Proof.
  cbv zeta.
  split; [|split].
  { unfold topModelsOf. rewrite map_map. rewrite <- (map_id (topEntries counts)) at 2.
    apply map_ext. intros [id count]. reflexivity. }
  { unfold topProvidersOf. rewrite map_map.
    rewrite <- (map_id (topEntries counts)) at 2.
    apply map_ext. intros [id count]. reflexivity. }
  unfold topEntries.
  pose proof (sortByCount_permutation counts) as Hperm.
  pose proof (sortByCount_descending counts) as Hdesc.
  rewrite <- (firstn_skipn 3 (sortByCount counts)) in Hdesc.
  apply descending_app in Hdesc. destruct Hdesc as [Htop Hrest].
  split; [|split; [exact Htop|]].
  - rewrite length_firstn, (Permutation_length Hperm). reflexivity.
  - exists (skipn 3 (sortByCount counts)). split; [|exact Hrest].
    rewrite firstn_skipn. exact Hperm.
Qed.

(** X8.  Ties in the ranking go to the entry that entered the map first:
    the listed entries of a given count are the first entries of that count
    in the map, in the order of the map. *)
Theorem ranking_keeps_the_order_of_ties (counts : list (value * Z)) (c : Z) :
  exists rest,
    ofCount c counts = ofCount c (topEntries counts) ++ rest.
Proof.
  exists (ofCount c (skipn 3 (sortByCount counts))).
  unfold topEntries, ofCount. rewrite <- filter_app, firstn_skipn.
  symmetry. apply sortByCount_stable.
Qed.

Lemma same_value_zero_sym (a b : value) :
  same_value_zero a b = same_value_zero b a.
Proof.
  destruct a, b; cbn; try reflexivity.
  - destruct b, b0; reflexivity.
  - apply Z.eqb_sym.
  - apply String.eqb_sym.
Qed.

Lemma countUse_keys (counts : list (value * Z)) (k : value) :
  pairwiseDistinct (map_keys counts) ->
  pairwiseDistinct (map_keys (countUse counts k)).
Proof.
  intros H. unfold countUse.
  change (map_set same_value_zero counts k
            (countPlusOne same_value_zero counts k))
    with (countProject counts k).
  rewrite map_keys_countProject. cbn [distinctValues].
  destruct (existsb (fun k' => same_value_zero k' k) (map_keys counts))
    eqn:E; [exact H|].
  apply pairwiseDistinct_snoc; [exact H|].
  intros k' Hk'. destruct (same_value_zero k' k) eqn:Ek; [|reflexivity].
  assert (Hex : existsb (fun k' => same_value_zero k' k) (map_keys counts)
                = true).
  { apply existsb_exists. exists k'. split; assumption. }
  congruence.
Qed.

Lemma countUse_count (counts : list (value * Z)) (used k : value) :
  Forall (fun e => 1 <= snd e) counts ->
  countOf (countUse counts used) k
  = countOf counts k + (if same_value_zero used k then 1 else 0).
Proof.
  unfold countOf, countUse, countPlusOne.
  induction 1 as [|[e n] rest Hn _ IH]; cbn [map_get map_set snd] in *.
  - destruct (same_value_zero used k); reflexivity.
  - destruct (same_value_zero e used) eqn:Eu.
    + apply same_value_zero_eq in Eu. subst e. cbn [map_get].
      destruct (same_value_zero used k); [|lia].
      destruct (Z.eqb_spec n 0); lia.
    + cbn [map_get]. destruct (same_value_zero e k) eqn:Ek; [|exact IH].
      apply same_value_zero_eq in Ek. subst e.
      rewrite same_value_zero_sym, Eu. lia.
Qed.

Lemma countOf_entry (counts : list (value * Z)) (s : string) (c : Z) :
  pairwiseDistinct (map_keys counts) ->
  In (VStr s, c) counts -> countOf counts (VStr s) = c.
Proof.
  unfold countOf, pairwiseDistinct.
  induction counts as [|[e n] rest IH]; intros Hd Hin; [destruct Hin|].
  cbn [map_keys map fst] in Hd. inversion Hd as [|a l Hall Hrest]; subst.
  cbn [map_get]. destruct Hin as [[= -> ->]|Hin].
  - cbn. rewrite String.eqb_refl. reflexivity.
  - destruct (same_value_zero e (VStr s)) eqn:Ee.
    + exfalso. rewrite Forall_forall in Hall.
      assert (Hk : In (VStr s) (map fst rest)).
      { apply in_map_iff. exists (VStr s, c). split; [reflexivity|exact Hin]. }
      specialize (Hall _ Hk). congruence.
    + apply IH; assumption.
Qed.

Section RankingFacts.
Variable tz : Z.
Variable hostDate : value -> option Z.
Variable hostNumber : string -> option Z.
Variable getModelDisplayName : value -> value.
Variable getModelProvider : value -> value.
Variable getProviderDisplayName : value -> value.

#[local] Abbreviation highlights :=
  (calculateHighlights tz hostDate hostNumber getModelDisplayName
     getModelProvider getProviderDisplayName).

(** The counters of one kind after the messages [msgs]: [pick] is the test
    of the loop and the key it counts. *)
Lemma counter_invariant (project : Tally -> list (value * Z))
  (pick : MessageData -> bool) (key : MessageData -> value)
  (msgs : list MessageData) (acc : Tally) :
  (forall acc m,
     project (tally tz hostDate acc m)
     = if pick m then countUse (project acc) (key m) else project acc) ->
  Forall (fun e => 1 <= snd e) (project acc) ->
  pairwiseDistinct (map_keys (project acc)) ->
  let counts := project (fold_left (tally tz hostDate) msgs acc) in
  Forall (fun e => 1 <= snd e) counts
  /\ pairwiseDistinct (map_keys counts)
  /\ forall k,
       countOf counts k
       = countOf (project acc) k
         + countOn (fun m => pick m && same_value_zero (key m) k) msgs.
Proof.
  intros Hstep. revert acc.
  induction msgs as [|m msgs IH]; intros acc Hpos Hkeys; cbn [fold_left].
  - split; [exact Hpos|]. split; [exact Hkeys|].
    intros k. unfold countOn. cbn. lia.
  - destruct (IH (tally tz hostDate acc m)) as (Hp & Hk & Hc).
    + rewrite Hstep. destruct (pick m); [|exact Hpos].
      apply count_positive. exact Hpos.
    + rewrite Hstep. destruct (pick m); [|exact Hkeys].
      apply countUse_keys. exact Hkeys.
    + split; [exact Hp|]. split; [exact Hk|]. intros k. rewrite Hc, Hstep.
      unfold countOn. cbn [filter].
      destruct (pick m); cbn [andb].
      * rewrite countUse_count by exact Hpos.
        destruct (same_value_zero (key m) k); cbn [List.length];
          rewrite ?Nat2Z.inj_succ; lia.
      * lia.
Qed.

Lemma topEntries_incl (counts : list (value * Z)) (e : value * Z) :
  In e (topEntries counts) -> In e counts.
Proof.
  intros H. unfold topEntries in H.
  apply (Permutation_in _ (Permutation_sym (sortByCount_permutation counts))).
  rewrite <- (firstn_skipn 3 (sortByCount counts)).
  apply in_or_app. left. exact H.
Qed.

(** X9.  The count of a listed model is the number of assistant messages of
    the year that name it, and likewise for a listed provider. *)
Theorem listed_counts_are_numbers_of_messages (y : Z) (src : DataSource)
  (data : SourceData) (now : Z) :
  let yearMessages :=
    yearMessagesOf tz hostDate y (collectAll tz hostDate src data None) in
  let h := highlights y src data now in
  Forall (fun ms => forall s, model_id ms = VStr s ->
                    model_count ms
                    = countOn (namesModel (VStr s)) yearMessages)
    (topModels h)
  /\ Forall (fun ps => forall s, provider_id ps = VStr s ->
                       provider_count ps
                       = countOn (namesProvider (VStr s)) yearMessages)
       (topProviders h).
Proof.
  intros yearMessages h. subst h.
  destruct (highlights_fields tz hostDate hostNumber getModelDisplayName
              getModelProvider getProviderDisplayName y src data now)
    as (_ & -> & -> & _ & _).
  fold yearMessages. split.
  - destruct (counter_invariant tally_modelCounts
                (fun m => is_str (message_role m) "assistant"
                          && truthy (message_modelId m))
                message_modelId yearMessages tally0)
      as (_ & Hk & Hc); [reflexivity|constructor|constructor|].
    cbv zeta in *. apply Forall_forall. intros ms Hin s Hs.
    unfold topModelsOf in Hin. apply in_map_iff in Hin.
    destruct Hin as ([id c] & <- & Hin). cbn [model_id model_count] in *.
    subst id. apply topEntries_incl in Hin.
    rewrite <- (countOf_entry _ s c Hk Hin), Hc. reflexivity.
  - destruct (counter_invariant tally_providerCounts
                (fun m => is_str (message_role m) "assistant"
                          && truthy (message_provider m))
                message_provider yearMessages tally0)
      as (_ & Hk & Hc); [reflexivity|constructor|constructor|].
    cbv zeta in *. apply Forall_forall. intros ps Hin s Hs.
    unfold topProvidersOf in Hin. apply in_map_iff in Hin.
    destruct Hin as ([id c] & <- & Hin). cbn [provider_id provider_count] in *.
    subst id. apply topEntries_incl in Hin.
    rewrite <- (countOf_entry _ s c Hk Hin), Hc. reflexivity.
Qed.

End RankingFacts.

(** ** The first session *)

Lemma mathMin_cases (first : option Z) (rest : list (option Z)) :
  match mathMin first rest with
  | Some least =>
      In (Some least) (first :: rest)
      /\ Forall (fun x => exists t, x = Some t /\ least <= t) (first :: rest)
  | None => In None (first :: rest)
  end.
Proof.
  revert first. induction rest as [|x rest IH]; intros first; cbn [mathMin].
  - destruct first as [a|].
    + split; [left; reflexivity|].
      constructor; [|constructor]. exists a. split; [reflexivity|lia].
    + left. reflexivity.
  - specialize (IH (match first, x with
                    | Some a, Some b => Some (Z.min a b)
                    | _, _ => None
                    end)).
    destruct (mathMin _ rest) as [least|].
    + destruct IH as [Hin Hall].
      apply Forall_cons_iff in Hall. destruct Hall as [(t & Ht & Hle) Hall].
      destruct first as [a|]; [|discriminate Ht].
      destruct x as [b|]; [|discriminate Ht].
      injection Ht as <-. split.
      * destruct Hin as [Hin|Hin].
        -- injection Hin as Hin.
           destruct (Z.min_spec a b) as [[_ Hm]|[_ Hm]]; rewrite Hm in Hin;
             subst least; [left|right; left]; reflexivity.
        -- right. right. exact Hin.
      * constructor; [exists a; split; [reflexivity|lia]|].
        constructor; [exists b; split; [reflexivity|lia]|exact Hall].
    + destruct IH as [Hn|Hin].
      * destruct first as [a|]; [|left; reflexivity].
        destruct x as [b|]; [discriminate Hn|right; left; reflexivity].
      * right. right. exact Hin.
Qed.

Section FirstSessionFacts.
Variable tz : Z.
Variable hostDate : value -> option Z.
Variable hostNumber : string -> option Z.
Variable getModelDisplayName : value -> value.
Variable getModelProvider : value -> value.
Variable getProviderDisplayName : value -> value.

#[local] Abbreviation highlights :=
  (calculateHighlights tz hostDate hostNumber getModelDisplayName
     getModelProvider getProviderDisplayName).

(** X10.  The first-session metrics look at the sessions of all years, not
    only at those of the year asked for.  Without any session the first
    session date is the present moment and the number of days is 0.  With
    sessions whose timestamps are all numbers, the date is the least
    timestamp and the number of days is the whole days from it to the
    present; one session whose timestamp is not a number makes both
    NaN. *)
Theorem first_session_is_the_earliest_of_all_years (y : Z)
  (src : DataSource) (data : SourceData) (now : Z) :
  let allSessions := sessions (collectAll tz hostDate src data None) in
  let h := highlights y src data now in
  (allSessions = []
   /\ firstSessionDate h = timeClip now
   /\ daysSinceFirstSession h = Some 0)
  \/ (exists s first,
        In s allSessions
        /\ toNumber hostNumber (session_timestamp s) = Some first
        /\ Forall (fun s' => exists t,
                     toNumber hostNumber (session_timestamp s') = Some t
                     /\ first <= t) allSessions
        /\ firstSessionDate h = timeClip first
        /\ daysSinceFirstSession h = Some ((now - first) / msPerDay))
  \/ (exists s,
        In s allSessions
        /\ toNumber hostNumber (session_timestamp s) = None
        /\ firstSessionDate h = None
        /\ daysSinceFirstSession h = None).
Proof.
  intros allSessions h. subst h.
  destruct (highlights_fields tz hostDate hostNumber getModelDisplayName
              getModelProvider getProviderDisplayName y src data now)
    as (Hfirst & _).
  cbv zeta in Hfirst. fold allSessions in Hfirst.
  apply (f_equal fst) in Hfirst as Hdate.
  apply (f_equal snd) in Hfirst as Hdays.
  cbn [fst snd] in Hdate, Hdays. rewrite Hdate, Hdays. clear Hfirst Hdate Hdays.
  unfold firstSession.
  destruct allSessions as [|s0 rest].
  - left. repeat split.
  - right. cbn [map].
    pose proof (mathMin_cases (toNumber hostNumber (session_timestamp s0))
                  (map (fun s => toNumber hostNumber (session_timestamp s))
                     rest)) as Hmin.
    change (toNumber hostNumber (session_timestamp s0)
            :: map (fun s => toNumber hostNumber (session_timestamp s)) rest)
      with (map (fun s => toNumber hostNumber (session_timestamp s))
              (s0 :: rest)) in Hmin.
    destruct (mathMin (toNumber hostNumber (session_timestamp s0))
                (map (fun s => toNumber hostNumber (session_timestamp s))
                   rest)) as [first|];
      cbn [fst snd bind option_map].
    + left. destruct Hmin as [Hin Hleast].
      apply in_map_iff in Hin. destruct Hin as (s & Hts & Hs).
      rewrite Forall_map in Hleast.
      exists s, first. split; [exact Hs|]. split; [exact Hts|].
      split; [exact Hleast|split; reflexivity].
    + right. apply in_map_iff in Hmin. destruct Hmin as (s & Hts & Hs).
      exists s. repeat split; assumption.
Qed.

End FirstSessionFacts.

(** ** Finding the files and the source *)

Lemma append_assoc (a b c : string) :
  ((a ++ b) ++ c)%string = (a ++ b ++ c)%string.
Proof. induction a as [|x a IH]; cbn; [reflexivity|rewrite IH; reflexivity]. Qed.

Lemma substring_append (a b : string) (k n : nat) :
  substring (String.length a + k) n (a ++ b) = substring k n b.
Proof. induction a as [|x a IH]; cbn; [reflexivity|exact IH]. Qed.

Lemma endsWith_append (a b suffix : string) :
  endsWith b suffix = true -> endsWith (a ++ b) suffix = true.
Proof.
  unfold endsWith. intros H. apply andb_true_iff in H. destruct H as [Hl Hs].
  apply Nat.leb_le in Hl. apply andb_true_iff. split.
  - apply Nat.leb_le. rewrite length_append. lia.
  - rewrite length_append.
    replace (String.length a + String.length b - String.length suffix)%nat
      with (String.length a + (String.length b - String.length suffix))%nat
      by lia.
    rewrite substring_append. exact Hs.
Qed.

Lemma jsonlUnder_deeper (dir entry path : string) :
  jsonlUnder (join dir entry) path -> jsonlUnder dir path.
Proof.
  intros [He [rest ->]]. split; [exact He|].
  exists (entry ++ "/" ++ rest)%string. unfold join.
  rewrite !append_assoc. reflexivity.
Qed.

Lemma walk_lists_jsonl_files :
  forall (node : FsNode) (dir : string),
    Forall (jsonlUnder dir) (walk dir node).
Proof.
  fix IH 1. intros [|[entries|]] dir; cbn [walk]; try constructor.
  induction entries as [|[entry stats] rest IHrest]; [constructor|].
  destruct stats as [child|]; [|exact IHrest].
  pose proof (IH child (join dir entry)) as Hchild.
  destruct child as [|inner].
  - destruct (endsWith entry ".jsonl") eqn:Ee; [|exact IHrest].
    constructor; [|exact IHrest]. split.
    + unfold join. apply endsWith_append. apply endsWith_append. exact Ee.
    + exists entry. reflexivity.
  - apply Forall_app. split; [|exact IHrest].
    eapply Forall_impl; [|exact Hchild].
    intros path. apply jsonlUnder_deeper.
Qed.

Lemma walk_entries (dir : string) (entries : list (string * option FsNode)) :
  walk dir (FsDir (Some entries))
  = flat_map (fun '(entry, stats) =>
                match stats with
                | Some FsFile =>
                    if endsWith entry ".jsonl" then [join dir entry] else []
                | Some child => walk (join dir entry) child
                | None => []
                end) entries.
Proof.
  cbn [walk]. induction entries as [|[entry stats] rest IH]; [reflexivity|].
  cbn [flat_map]. rewrite <- IH.
  destruct stats as [[|inner]|]; try reflexivity.
  destruct (endsWith entry ".jsonl"); reflexivity.
Qed.

(** X11.  [findJsonlFiles] lists only paths under the directory it is given
    that end in [.jsonl].  Of the entries of a readable directory it lists
    every one that is not a directory and has such a name, and all that it
    lists for the directories among them; where the directory cannot be
    read, or the path is not a directory, it lists nothing. *)
Theorem jsonl_files_are_found_under_the_directory (dir : string)
  (node : FsNode) :
  Forall (jsonlUnder dir) (findJsonlFiles dir node)
  /\ match node with
     | FsDir (Some entries) =>
         Forall (fun '(entry, stats) =>
                   match stats with
                   | Some FsFile =>
                       endsWith entry ".jsonl" = true ->
                       In (join dir entry) (findJsonlFiles dir node)
                   | Some child =>
                       incl (findJsonlFiles (join dir entry) child)
                         (findJsonlFiles dir node)
                   | None => True
                   end) entries
     | _ => findJsonlFiles dir node = []
     end.
Proof.
  unfold findJsonlFiles. split; [apply walk_lists_jsonl_files|].
  destruct node as [|[entries|]]; try reflexivity.
  rewrite walk_entries. apply Forall_forall.
  intros [entry stats] Hin. destruct stats as [[|inner]|]; [| |exact I].
  - intros He. apply in_flat_map. exists (entry, Some FsFile).
    split; [exact Hin|]. rewrite He. left. reflexivity.
  - intros path Hpath. apply in_flat_map. exists (entry, Some (FsDir inner)).
    split; [exact Hin|exact Hpath].
Qed.

Lemma getAvailableSources_exist (checkDataExists : DataSource -> bool)
  (source : DataSource) :
  In source (getAvailableSources checkDataExists) ->
  checkDataExists source = true.
Proof.
  unfold getAvailableSources. intros H. apply filter_In in H. apply H.
Qed.

(** X12.  When [main] goes on to scan a source, the data directory of that
    source can be read; a source named on the command line is the one
    scanned, and a single available source is taken without asking. *)
Theorem chosen_source_has_data (requested : option string)
  (checkDataExists : DataSource -> bool)
  (select : list DataSource -> option DataSource) (source : DataSource) :
  (forall options answer, select options = Some answer -> In answer options) ->
  chooseSource requested checkDataExists select = Scan_source source ->
  checkDataExists source = true
  /\ (forall name, requested = Some name -> name <> EmptyString ->
                   sourceOfName name = Some source)
  /\ (requested = None ->
      In source (getAvailableSources checkDataExists)).
Proof.
  intros Hselect H. unfold chooseSource in H.
  destruct requested as [name|].
  - destruct (String.eqb_spec name "") as [-> |Hne]; cbn [negb] in H.
    + assert (Hin : In source (getAvailableSources checkDataExists)).
      { destruct (getAvailableSources checkDataExists) as [|a [|b rest]];
          [discriminate H|injection H as <-; left; reflexivity|].
        destruct (select (a :: b :: rest)) as [answer|] eqn:Ea;
          [|discriminate H].
        injection H as <-. exact (Hselect _ _ Ea). }
      split; [exact (getAvailableSources_exist _ _ Hin)|].
      split; [|discriminate]. intros name' [= <-] Hne. congruence.
    + cbn [bind] in H. destruct (sourceOfName name) as [s|] eqn:Es;
        [|discriminate H].
      destruct (checkDataExists s) eqn:Ec; [|discriminate H].
      injection H as <-. split; [exact Ec|]. split; [|discriminate].
      intros name' [= <-] _. exact Es.
  - assert (Hin : In source (getAvailableSources checkDataExists)).
    { destruct (getAvailableSources checkDataExists) as [|a [|b rest]];
        [discriminate H|injection H as <-; left; reflexivity|].
      destruct (select (a :: b :: rest)) as [answer|] eqn:Ea;
        [|discriminate H].
      injection H as <-. exact (Hselect _ _ Ea). }
    split; [exact (getAvailableSources_exist _ _ Hin)|].
    split; [discriminate|]. intros _. exact Hin.
Qed.

Lemma chosen_source_has_data_witness :
  let checkDataExists := fun source =>
    match source with claude => true | _ => false end in
  checkDataExists claude = true
  /\ sourceOfName "claude" = Some claude.
Proof.
  intros checkDataExists.
  assert (Hselect : forall (options : list DataSource) (answer : DataSource),
            (fun _ : list DataSource => @None DataSource) options
            = Some answer -> In answer options) by discriminate.
  destruct (chosen_source_has_data (Some "claude") checkDataExists
              (fun _ => None) claude Hselect eq_refl) as (He & Hn & _).
  split; [exact He|]. apply (Hn "claude"); [reflexivity|discriminate].
Defined.

(** ** The year filter of [collectAll] *)

Section YearFilterFacts.
Variable tz : Z.
Variable hostDate : value -> option Z.
Variable y : Z.
Hypothesis year_given : y <> 0.

#[local] Abbreviation sessionOk := (sessionIn tz hostDate y).
#[local] Abbreviation messageOk := (messageIn tz hostDate y).

Lemma passes_filter (timestamp : value) :
  yearMismatch tz hostDate (Some y) timestamp = false ->
  yearIs tz hostDate timestamp y = true.
Proof.
  unfold yearMismatch. destruct (Z.eqb_spec y 0) as [Hy|_]; [contradiction|].
  cbn [negb andb]. destruct (yearIs tz hostDate timestamp y);
    [reflexivity|discriminate].
Qed.

Ltac in_year :=
  match goal with
  | H : yearMismatch tz hostDate (Some y) ?t = false |- _ =>
      exact (passes_filter t H)
  end.

#[local] Abbreviation optionOk := (fileSessionIn tz hostDate y).

Lemma parsePiLine_in_year (st st' : PiResult) (parsed : value) :
  optionOk (fst st) /\ Forall messageOk (snd st) ->
  parsePiLine tz hostDate (Some y) st parsed = Some (Next st') ->
  optionOk (fst st') /\ Forall messageOk (snd st').
Proof.
  destruct st as [session messages]. cbn [fst snd]. intros [Hs F] E.
  unfold parsePiLine in E.
  exn_cases E; injection E as <-; cbn [fst snd]; (split; [|]);
    first [ exact Hs | exact F
          | unfold fileSessionIn, sessionIn; cbn [session_timestamp]; in_year
          | apply Forall_snoc; [exact F|];
            unfold messageIn; cbn [message_timestamp]; in_year ].
Qed.

Lemma parsePiFile_in_year (f : file) :
  let r := parsePiFile tz hostDate f (Some y) in
  optionOk (fst r) /\ Forall messageOk (snd r).
Proof.
  cbv zeta. destruct f as [lines|]; cbn [parsePiFile];
    [|split; [exact I|constructor]].
  assert (H : forall st, optionOk (fst st) /\ Forall messageOk (snd st) ->
            let r := parsePiLines tz hostDate (Some y) lines st in
            optionOk (fst r) /\ Forall messageOk (snd r)).
  { induction lines as [|[parsed|] lines IH]; intros st Hst; cbn [parsePiLines];
      [exact Hst| |apply IH; exact Hst].
    destruct (parsePiLine tz hostDate (Some y) st parsed) as [[st'|]|] eqn:E;
      cbn [catch].
    - apply IH. eapply parsePiLine_in_year; eassumption.
    - split; [exact I|constructor].
    - apply IH. exact Hst. }
  apply H. split; [exact I|constructor].
Qed.

Lemma attachUsage_in_year (n : nat) (messages : list MessageData)
  (u : value) :
  Forall messageOk messages -> Forall messageOk (attachUsage n messages u).
Proof.
  intros F. induction n as [|i IH]; cbn [attachUsage]; [exact F|].
  destruct (nth_error messages i) as [m|] eqn:Em; [|exact F].
  destruct (_ && _); [|exact IH].
  apply Forall_setNth; [exact F|].
  rewrite Forall_forall in F. apply nth_error_In in Em.
  exact (F m Em).
Qed.

Lemma parseCodexLine_in_year (st st' : CodexResult) (parsed : value) :
  optionOk (fst st) /\ Forall messageOk (snd st) ->
  parseCodexLine tz hostDate (Some y) st parsed = Some (Next st') ->
  optionOk (fst st') /\ Forall messageOk (snd st').
Proof.
  destruct st as [session messages]. cbn [fst snd]. intros [Hs F] E.
  unfold parseCodexLine in E.
  exn_cases E; injection E as <-; cbn [fst snd]; (split; [|]);
    first [ exact Hs | exact F
          | unfold fileSessionIn, sessionIn; cbn [session_timestamp]; in_year
          | apply Forall_snoc; [exact F|];
            unfold messageIn; cbn [message_timestamp]; in_year
          | apply attachUsage_in_year; exact F ].
Qed.

Lemma parseCodexFile_in_year (f : file) :
  let r := parseCodexFile tz hostDate f (Some y) in
  optionOk (fst r) /\ Forall messageOk (snd r).
Proof.
  cbv zeta. destruct f as [lines|]; cbn [parseCodexFile];
    [|split; [exact I|constructor]].
  assert (H : forall st, optionOk (fst st) /\ Forall messageOk (snd st) ->
            let r := parseCodexLines tz hostDate (Some y) lines st in
            optionOk (fst r) /\ Forall messageOk (snd r)).
  { induction lines as [|[parsed|] lines IH]; intros st Hst;
      cbn [parseCodexLines]; [exact Hst| |apply IH; exact Hst].
    destruct (parseCodexLine tz hostDate (Some y) st parsed)
      as [[st'|]|] eqn:E; cbn [catch].
    - apply IH. eapply parseCodexLine_in_year; eassumption.
    - split; [exact I|constructor].
    - apply IH. exact Hst. }
  apply H. split; [exact I|constructor].
Qed.

Lemma addFileSession_in_year (acc : Acc)
  (parsed : option SessionData * list MessageData) :
  optionOk (fst parsed) /\ Forall messageOk (snd parsed) ->
  Forall sessionOk (fst (fst acc)) /\ Forall messageOk (snd (fst acc)) ->
  let acc' := addFileSession acc parsed in
  Forall sessionOk (fst (fst acc')) /\ Forall messageOk (snd (fst acc')).
Proof.
  destruct acc as [[ss ms] pm]. destruct parsed as [[s|] fm];
    cbn [fst snd addFileSession fileSessionIn]; intros [Hs Hm] [Fs Fm]; split;
    first [ exact Fs | apply Forall_app; split; assumption
          | apply Forall_snoc; assumption ].
Qed.

Lemma map_set_values {K V} (keq : K -> K -> bool) (Q : V -> Prop)
  (m : list (K * V)) (k : K) (v : V) :
  Forall (fun e => Q (snd e)) m -> Q v ->
  Forall (fun e => Q (snd e)) (map_set keq m k v).
Proof.
  intros F Hv. induction F as [|[k' v'] m Hv' F IH]; cbn [map_set].
  - constructor; [exact Hv|constructor].
  - destruct (keq k' k); constructor; assumption.
Qed.

Lemma parseClaudeLine_in_year (st st' : ClaudeResult) (parsed : value) :
  Forall (fun e => sessionOk (snd e)) (fst st) /\ Forall messageOk (snd st) ->
  parseClaudeLine tz hostDate (Some y) st parsed = Some st' ->
  Forall (fun e => sessionOk (snd e)) (fst st')
  /\ Forall messageOk (snd st').
Proof.
  destruct st as [sessions messages]. cbn [fst snd]. intros [Hs F] E.
  unfold parseClaudeLine in E.
  exn_cases E; injection E as <-; cbn [fst snd]; (split; [|]);
    first [ exact Hs | exact F
          | apply map_set_values; [exact Hs|];
            unfold sessionIn; cbn [session_timestamp]; in_year
          | apply Forall_snoc; [exact F|];
            unfold messageIn; cbn [message_timestamp]; in_year ].
Qed.

Lemma parseClaudeFile_in_year (f : file) :
  let r := parseClaudeFile tz hostDate f (Some y) in
  Forall (fun e => sessionOk (snd e)) (fst r) /\ Forall messageOk (snd r).
Proof.
  cbv zeta. destruct f as [lines|]; cbn [parseClaudeFile];
    [|split; constructor].
  assert (H : forall st,
            Forall (fun e => sessionOk (snd e)) (fst st)
            /\ Forall messageOk (snd st) ->
            let r := parseClaudeLines tz hostDate (Some y) lines st in
            Forall (fun e => sessionOk (snd e)) (fst r)
            /\ Forall messageOk (snd r)).
  { induction lines as [|[parsed|] lines IH]; intros st Hst;
      cbn [parseClaudeLines]; [exact Hst| |apply IH; exact Hst].
    apply IH.
    destruct (parseClaudeLine tz hostDate (Some y) st parsed) as [st'|] eqn:E;
      cbn [catch]; [|exact Hst].
    eapply parseClaudeLine_in_year; eassumption. }
  apply H. split; constructor.
Qed.

Lemma mergeSession_in_year (fileSessions : list (value * SessionData))
  (st : list (value * SessionData) * ProjectMap) :
  Forall (fun e => sessionOk (snd e)) fileSessions ->
  Forall (fun e => sessionOk (snd e)) (fst st) ->
  Forall (fun e => sessionOk (snd e))
    (fst (fold_left mergeSession fileSessions st)).
Proof.
  intros F. revert st. induction F as [|[id s] rest Hs F IH]; intros st Hst;
    [exact Hst|].
  cbn [fold_left]. apply IH. destruct st as [all pm].
  unfold mergeSession. destruct (map_has same_value_zero all id);
    cbn [fst]; [exact Hst|].
  apply map_set_values; assumption.
Qed.

Lemma collectFiles_in_year (src : DataSource) (data : SourceData) :
  src <> opencode ->
  let c := collectAll tz hostDate src data (Some y) in
  Forall sessionOk (sessions c) /\ Forall messageOk (messages c).
Proof.
  intros Hsrc. cbv zeta. destruct src; [| | |contradiction];
    unfold collectAll.
  - (* pi *)
    pose proof (fold_invariant
      (fun acc : Acc => Forall sessionOk (fst (fst acc))
                        /\ Forall messageOk (snd (fst acc)))
      (fun acc f => addFileSession acc (parsePiFile tz hostDate f (Some y)))
      (jsonlFiles data) ([], [], [])) as H.
    destruct (fold_left _ _ _) as [[ss ms] pm]. cbn [sessions messages].
    apply H; [|split; constructor].
    intros acc f Hacc. apply addFileSession_in_year;
      [apply parsePiFile_in_year|exact Hacc].
  - (* codex *)
    pose proof (fold_invariant
      (fun acc : Acc => Forall sessionOk (fst (fst acc))
                        /\ Forall messageOk (snd (fst acc)))
      (fun acc f => addFileSession acc (parseCodexFile tz hostDate f (Some y)))
      (jsonlFiles data) ([], [], [])) as H.
    destruct (fold_left _ _ _) as [[ss ms] pm]. cbn [sessions messages].
    apply H; [|split; constructor].
    intros acc f Hacc. apply addFileSession_in_year;
      [apply parseCodexFile_in_year|exact Hacc].
  - (* claude *)
    pose proof (fold_invariant
      (fun acc : ClaudeAcc =>
         Forall (fun e => sessionOk (snd e)) (fst (fst acc))
         /\ Forall messageOk (snd (fst acc)))
      (addClaudeFile tz hostDate (Some y)) (jsonlFiles data) ([], [], []))
      as H.
    destruct (fold_left _ _ _) as [[ss ms] pm]. cbn [sessions messages].
    cbn [fst snd] in H. destruct H as [Hs Hm].
    + intros [[ss' ms'] pm'] f [Fs Fm]. cbn [fst snd] in *.
      unfold addClaudeFile.
      destruct (parseClaudeFile_in_year f) as [Ps Pm].
      destruct (parseClaudeFile tz hostDate f (Some y)) as [fs fm].
      pose proof (mergeSession_in_year fs (ss', pm') Ps Fs) as M.
      destruct (fold_left mergeSession fs (ss', pm')) as [ss'' pm''].
      cbn [fst snd] in *. split; [exact M|].
      apply Forall_app. split; assumption.
    + split; constructor.
    + split; [|exact Hm]. unfold map_values. apply Forall_map. exact Hs.
Qed.

Lemma collectOpenCode_in_year (data : SourceData) :
  let c := collectOpenCode tz hostDate data (Some y) in
  Forall sessionOk (sessions c) /\ Forall messageOk (messages c).
Proof.
  cbv zeta.
  - unfold collectOpenCode.
    pose proof (fold_invariant
      (fun st : list SessionData * ProjectMap => Forall sessionOk (fst st))
      (eachDoc (openCodeSession tz hostDate (Some y))) (sessionDocs data)
      ([], [])) as Hs.
    destruct (fold_left _ (sessionDocs data) _) as [ss pm].
    cbn [sessions messages fst] in *. split.
    + apply Hs; [|constructor].
      intros [ss' pm'] [raw|] F; cbn [eachDoc fst] in *; [|exact F].
      destruct (openCodeSession tz hostDate (Some y) (ss', pm') raw)
        as [r|] eqn:E; cbn [catch]; [|exact F].
      unfold openCodeSession in E.
      exn_cases E; injection E as <-; cbn [fst];
        first [ exact F
              | apply Forall_snoc; [exact F|];
                unfold sessionIn; cbn [session_timestamp]; in_year ].
    + apply fold_invariant; [|constructor].
      intros ms' [raw|] F; cbn [eachDoc]; [|exact F].
      destruct (openCodeMessage tz hostDate (Some y) ms' raw) as [r|] eqn:E;
        cbn [catch]; [|exact F].
      unfold openCodeMessage in E.
      exn_cases E; injection E as <-;
        first [ exact F
              | apply Forall_snoc; [exact F|];
                unfold messageIn; cbn [message_timestamp]; in_year ].
Qed.

End YearFilterFacts.

Lemma DataSource_eq_dec (a b : DataSource) : {a = b} + {a <> b}.
Proof. decide equality. Defined.

(** X13.  With a year filter, [collectAll] returns sessions and messages of
    that year only, for every source. *)
Theorem year_filter_keeps_the_year_only (tz : Z)
  (hostDate : value -> option Z) (y : Z) (src : DataSource)
  (data : SourceData) :
  y <> 0 ->
  let c := collectAll tz hostDate src data (Some y) in
  Forall (sessionIn tz hostDate y) (sessions c)
  /\ Forall (messageIn tz hostDate y) (messages c).
Proof.
  intros Hy. cbv zeta.
  destruct (DataSource_eq_dec src opencode) as [-> |Hsrc].
  - exact (collectOpenCode_in_year tz hostDate y Hy data).
  - exact (collectFiles_in_year tz hostDate y Hy src data Hsrc).
Qed.

Lemma year_filter_keeps_the_year_only_witness :
  let c := collectAll utc isoHost pi (mkSourceData [piCostFile] [] [])
             (Some 2025) in
  List.length (sessions c) = 1%nat
  /\ Forall (sessionIn utc isoHost 2025) (sessions c)
  /\ Forall (messageIn utc isoHost 2025) (messages c).
Proof.
  assert (Hy : 2025 <> 0) by discriminate.
  destruct (year_filter_keeps_the_year_only utc isoHost 2025 pi
              (mkSourceData [piCostFile] [] []) Hy) as [Hs Hm].
  split; [reflexivity|]. split; [exact Hs|exact Hm].
Defined.

(** ** What the project list counts, project by project *)

Lemma count_sum {K} (keq : K -> K -> bool) (m : list (K * Z)) (k : K) :
  sumOf (map_values (map_set keq m k (countPlusOne keq m k)))
  = sumOf (map_values m) + 1.
Proof.
  unfold sumOf, map_values, countPlusOne.
  induction m as [|[k' v'] m IH]; cbn [map_get map_set map snd fold_right].
  - lia.
  - destruct (keq k' k); cbn [map snd fold_right].
    + destruct (Z.eqb_spec v' 0); lia.
    + rewrite IH. lia.
Qed.

Lemma countOn_snoc {A} (p : A -> bool) (l : list A) (x : A) :
  countOn p (l ++ [x]) = countOn p l + (if p x then 1 else 0).
Proof.
  unfold countOn. rewrite filter_app, length_app. cbn [filter].
  destruct (p x); cbn [List.length]; lia.
Qed.

Lemma projectsCount_add (ss : list SessionData) (projectMap : ProjectMap)
  (s : SessionData) :
  projectsCount ss projectMap ->
  projectsCount (ss ++ [s]) (countProject projectMap (session_cwd s)).
Proof.
  intros (Hpos & Hkeys & Hsum & Hcount). unfold countProject.
  split; [apply count_positive; exact Hpos|].
  split; [apply (countUse_keys projectMap); exact Hkeys|].
  split.
  - rewrite count_sum, Hsum, length_app. cbn [List.length]. lia.
  - intros k. rewrite countOn_snoc, <- Hcount.
    apply (countUse_count projectMap (session_cwd s) k Hpos).
Qed.

Lemma projectsCount_nil : projectsCount [] [].
Proof.
  split; [constructor|]. split; [constructor|]. split; [reflexivity|].
  intros k. reflexivity.
Qed.

Section ProjectCountFacts.
Variable tz : Z.
Variable hostDate : value -> option Z.

Lemma addFileSession_counts {F}
  (parse : F -> option SessionData * list MessageData) (files : list F)
  (acc : Acc) :
  projectsCount (fst (fst acc)) (snd acc) ->
  let acc' := fold_left (fun acc f => addFileSession acc (parse f)) files acc in
  projectsCount (fst (fst acc')) (snd acc').
Proof.
  intros H. apply (fold_invariant
    (fun acc : Acc => projectsCount (fst (fst acc)) (snd acc))); [|exact H].
  intros [[ss ms] pm] f Hacc. cbn [fst snd] in Hacc.
  destruct (parse f) as [[s|] fm]; cbn [addFileSession fst snd];
    [|exact Hacc].
  apply projectsCount_add. exact Hacc.
Qed.

Lemma mergeSession_counts (fileSessions : list (value * SessionData))
  (st : list (value * SessionData) * ProjectMap) :
  projectsCount (map_values (fst st)) (snd st) ->
  let st' := fold_left mergeSession fileSessions st in
  projectsCount (map_values (fst st')) (snd st').
Proof.
  intros H. apply (fold_invariant
    (fun st : list (value * SessionData) * ProjectMap =>
       projectsCount (map_values (fst st)) (snd st))); [|exact H].
  intros [all pm] [id s] Hst. cbn [fst snd] in Hst. unfold mergeSession.
  destruct (map_has same_value_zero all id) eqn:Eh; cbn [fst snd];
    [exact Hst|].
  rewrite map_set_absent by exact Eh. unfold map_values.
  rewrite map_app. cbn [map snd]. apply projectsCount_add. exact Hst.
Qed.

Lemma collectAll_counts (src : DataSource) (data : SourceData)
  (year : option Z) :
  let c := collectAll tz hostDate src data year in
  exists projectMap,
    projects c = projectList src projectMap
    /\ projectsCount (sessions c) projectMap.
Proof.
  cbv zeta. destruct src; unfold collectAll.
  - pose proof (addFileSession_counts
      (fun f => parsePiFile tz hostDate f year) (jsonlFiles data)
      ([], [], []) projectsCount_nil) as H. cbv zeta in H.
    destruct (fold_left _ _ _) as [[ss ms] pm]. cbn [fst snd] in H.
    exists pm. split; [reflexivity|exact H].
  - pose proof (addFileSession_counts
      (fun f => parseCodexFile tz hostDate f year) (jsonlFiles data)
      ([], [], []) projectsCount_nil) as H. cbv zeta in H.
    destruct (fold_left _ _ _) as [[ss ms] pm]. cbn [fst snd] in H.
    exists pm. split; [reflexivity|exact H].
  - pose proof (fold_invariant
      (fun acc : ClaudeAcc =>
         projectsCount (map_values (fst (fst acc))) (snd acc))
      (addClaudeFile tz hostDate year) (jsonlFiles data) ([], [], [])) as H.
    destruct (fold_left _ _ _) as [[ss ms] pm]. cbn [fst snd] in H.
    exists pm. split; [reflexivity|]. cbn [sessions]. apply H.
    + intros [[ss' ms'] pm'] f Hacc. cbn [fst snd] in *.
      unfold addClaudeFile.
      destruct (parseClaudeFile tz hostDate f year) as [fs fm].
      pose proof (mergeSession_counts fs (ss', pm') Hacc) as M.
      cbv zeta in M.
      destruct (fold_left mergeSession fs (ss', pm')) as [ss'' pm''].
      exact M.
    + exact projectsCount_nil.
  - unfold collectOpenCode.
    pose proof (fold_invariant
      (fun st : list SessionData * ProjectMap =>
         projectsCount (fst st) (snd st))
      (eachDoc (openCodeSession tz hostDate year)) (sessionDocs data)
      ([], [])) as H.
    destruct (fold_left _ (sessionDocs data) _) as [ss pm].
    cbn [fst snd] in H. exists pm. split; [reflexivity|].
    cbn [sessions]. apply H; [|exact projectsCount_nil].
    intros [ss' pm'] [raw|] Hst; cbn [eachDoc fst snd] in *; [|exact Hst].
    destruct (openCodeSession tz hostDate year (ss', pm') raw) as [r|] eqn:E;
      cbn [catch]; [|exact Hst].
    unfold openCodeSession in E.
    exn_cases E; injection E as <-; cbn [fst snd];
      first [ exact Hst
            | match goal with
              | |- projectsCount (?ss ++ [?s]) _ =>
                  apply (projectsCount_add ss pm' s); exact Hst
              end ].
Qed.


End ProjectCountFacts.

(** ** Date keys and the daily counters *)

(** X15.  Two moments get the same date key exactly when they fall on the
    same local calendar day, and the key of an Invalid Date is the key of no
    moment: the daily-activity map has one entry for each local day. *)
Theorem date_key_is_the_local_day (tz t1 t2 : Z) :
  (formatDateKey tz (Some t1) = formatDateKey tz (Some t2)
   <-> localDay tz t1 = localDay tz t2)
  /\ formatDateKey tz None <> formatDateKey tz (Some t1).
Proof.
  rewrite !formatDateKey_valid, formatDateKey_invalid. split; [split|].
  - apply keyOfDay_inj.
  - intros ->. reflexivity.
  - intros H. exact (keyOfDay_not_NaN _ (eq_sym H)).
Qed.

Lemma countOfDay_count (m : list (string * Z)) (used key : string) :
  countOfDay (map_set String.eqb m used (countPlusOne String.eqb m used)) key
  = countOfDay m key + (if String.eqb used key then 1 else 0).
Proof.
  unfold countOfDay, countPlusOne.
  induction m as [|[e n] rest IH]; cbn [map_get map_set].
  - destruct (String.eqb used key); reflexivity.
  - destruct (String.eqb_spec e used) as [-> |Hu]; cbn [map_get].
    + destruct (String.eqb used key); [|lia].
      destruct (Z.eqb_spec n 0); lia.
    + destruct (String.eqb_spec e key) as [-> |Hk]; [|exact IH].
      destruct (String.eqb_spec used key); [congruence|lia].
Qed.

Section DailyCountFacts.
Variable tz : Z.
Variable hostDate : value -> option Z.

Lemma accumulate_counts (msgs : list MessageData) (acc : Totals)
  (key : string) :
  countOfDay (acc_dailyActivity (fold_left (accumulate tz hostDate) msgs acc))
    key
  = countOfDay (acc_dailyActivity acc) key
    + countOn (onDay tz hostDate key) msgs.
Proof.
  revert acc. induction msgs as [|m msgs IH]; intros acc; cbn [fold_left].
  - unfold countOn. cbn. lia.
  - rewrite IH. unfold accumulate. cbn [acc_dailyActivity].
    rewrite countOfDay_count. unfold countOn, onDay, messageDay.
    cbn [filter].
    destruct (String.eqb
                (formatDateKey tz (newDate hostDate (message_timestamp m)))
                key); cbn [List.length]; rewrite ?Nat2Z.inj_succ; lia.
Qed.


End DailyCountFacts.

(** ** The current streak *)

Section CurrentStreakFacts.
Variable tz : Z.
Variable hostDate : value -> option Z.

Lemma countBack_counts (dailyActivity : DailyActivity) :
  forall (fuel : nat) (streak t n : Z),
    countBack tz dailyActivity fuel streak (Some t) = Some n ->
    exists k : nat,
      n = streak + Z.of_nat k
      /\ (k < fuel)%nat
      /\ (forall j, 1 <= j <= Z.of_nat k ->
            hasDay dailyActivity (keyOfDay (localDay tz t - j)) = true)
      /\ hasDay dailyActivity
           (formatDateKey tz (timeClip (t - (Z.of_nat k + 1) * msPerDay)))
         = false.
Proof.
  intros fuel. induction fuel as [|fuel IH]; intros streak t n E;
    [discriminate E|].
  cbn [countBack] in E.
  assert (Hday : dayBefore (Some t) = timeClip (t - msPerDay))
    by reflexivity.
  rewrite Hday in E.
  destruct (hasDay dailyActivity (formatDateKey tz (timeClip (t - msPerDay))))
    eqn:Hd.
  - destruct (timeClip (t - msPerDay)) as [t'|] eqn:Et'.
    + assert (t' = t - msPerDay) as ->.
      { unfold timeClip in Et'.
        destruct (Z.abs (t - msPerDay) <=? 8640000000000000);
          [injection Et' as <-; reflexivity|discriminate Et']. }
      rewrite formatDateKey_valid, localDay_dayBefore in Hd.
      destruct (IH (streak + 1) (t - msPerDay) n E)
        as (k & Hn & Hk & Hall & Hend).
      rewrite localDay_dayBefore in Hall.
      exists (S k). split; [lia|]. split; [lia|]. split.
      * intros j Hj. destruct (Z.eq_dec j 1) as [-> |Hne]; [exact Hd|].
        replace (localDay tz t - j) with (localDay tz t - 1 - (j - 1)) by lia.
        apply Hall. lia.
      * rewrite <- Hend. f_equal. f_equal. f_equal. lia.
    + cbn [countBack] in E. destruct fuel as [|fuel']; [discriminate E|].
      cbn [countBack dayBefore bind] in E.
      rewrite Hd in E.
      exfalso. clear IH Hday. revert E. generalize (streak + 1 + 1).
      induction fuel' as [|fuel'' IH']; intros s E; [discriminate E|].
      cbn [countBack dayBefore bind] in E. rewrite Hd in E.
      exact (IH' _ E).
  - injection E as <-. exists O. split; [lia|]. split; [lia|]. split.
    + intros j Hj. lia.
    + change (Z.of_nat 0 + 1) with 1. rewrite Z.mul_1_l. exact Hd.
Qed.

Lemma countStreakBackwards_counts (dailyActivity : DailyActivity)
  (t k : Z) :
  countStreakBackwards tz dailyActivity (Some t) = Some k ->
  1 <= k <= Z.of_nat (List.length dailyActivity) + 1
  /\ (forall j, 1 <= j < k ->
        hasDay dailyActivity (keyOfDay (localDay tz t - j)) = true)
  /\ hasDay dailyActivity
       (formatDateKey tz (timeClip (t - k * msPerDay))) = false.
Proof.
  intros E. unfold countStreakBackwards in E.
  destruct (countBack_counts dailyActivity _ _ _ _ E)
    as (n & -> & Hn & Hall & Hend).
  split; [lia|]. split.
  - intros j Hj. apply Hall. lia.
  - replace (1 + Z.of_nat n) with (Z.of_nat n + 1) by lia. exact Hend.
Qed.


Lemma calculateStreaks_current (dailyActivity : DailyActivity)
  (year now : Z) :
  dateKeyed dailyActivity ->
  exists r,
    calculateStreaks tz hostDate dailyActivity year now = Some r
    /\ (activeDatesOf dailyActivity year = [] ->
        streaks_currentStreak r = 0 /\ streaks_maxStreak r = 0)
    /\ (activeDatesOf dailyActivity year <> [] ->
        streaks_maxStreak r
        = scan_maxStreak
            (scanStreaks hostDate (activeDatesOf dailyActivity year))
        /\ Some (streaks_currentStreak r)
           = if hasDay dailyActivity (formatDateKey tz (timeClip now))
             then countStreakBackwards tz dailyActivity (timeClip now)
             else if hasDay dailyActivity
                       (formatDateKey tz (timeClip (now - msPerDay)))
             then countStreakBackwards tz dailyActivity
                    (timeClip (now - msPerDay))
             else Some 0).
Proof.
  intros K. unfold calculateStreaks.
  destruct (activeDatesOf dailyActivity year) as [|d ds] eqn:Ea.
  - cbn. eexists. split; [reflexivity|]. split; [split; reflexivity|].
    intros H. contradiction.
  - cbn [List.length Nat.eqb].
    destruct (hasDay dailyActivity (formatDateKey tz (timeClip now))).
    + destruct (countStreakBackwards_ends tz dailyActivity (timeClip now) K)
        as [n ->].
      cbn. eexists. split; [reflexivity|]. split; [discriminate|].
      intros _. split; reflexivity.
    + destruct (hasDay dailyActivity _).
      * destruct (countStreakBackwards_ends tz dailyActivity
                    (timeClip (now - msPerDay)) K) as [n ->].
        cbn. eexists. split; [reflexivity|]. split; [discriminate|].
        intros _. split; reflexivity.
      * cbn. eexists. split; [reflexivity|]. split; [discriminate|].
        intros _. split; reflexivity.
Qed.


End CurrentStreakFacts.



(** ** The longest streak and the number of active days *)

Lemma length_le_sum (m : list (string * Z)) :
  Forall (fun e => 1 <= snd e) m ->
  Z.of_nat (List.length m) <= sumValues m.
Proof.
  unfold sumValues, map_values.
  induction 1 as [|e m He _ IH]; cbn [List.length map fold_right]; [lia|].
  rewrite Nat2Z.inj_succ. lia.
Qed.

Lemma activeDates_length (dailyActivity : DailyActivity) (year : Z) :
  (List.length (activeDatesOf dailyActivity year)
   <= List.length dailyActivity)%nat.
Proof.
  unfold activeDatesOf.
  rewrite <- (Permutation_length (StringSort.Permuted_sort _)).
  etransitivity; [apply filter_length_le|].
  unfold map_keys. rewrite length_map. reflexivity.
Qed.

Lemma activeDates_of_the_year (dailyActivity : DailyActivity) (year : Z) :
  dateKeyedIn year dailyActivity ->
  dailyActivity <> [] ->
  activeDatesOf dailyActivity year <> [].
Proof.
  intros K Hne Hempty. apply (f_equal (@List.length string)) in Hempty.
  unfold activeDatesOf in Hempty.
  rewrite <- (Permutation_length (StringSort.Permuted_sort _)) in Hempty.
  destruct dailyActivity as [|[key n] rest]; [contradiction|].
  unfold dateKeyedIn in K. cbn [map_keys map fst] in *.
  apply Forall_inv in K. destruct K as (d & -> & Hy).
  cbn [filter] in Hempty.
  assert (Hp : String.prefix (string_of_Z year) (keyOfDay d) = true).
  { unfold keyOfDay. destruct (civil_from_days d) as [[y m] dd].
    cbn [fst] in Hy. subst y. unfold dateKey. apply prefix_append. }
  rewrite Hp in Hempty. discriminate Hempty.
Qed.

Section MaxStreakFacts.
Variable tz : Z.
Variable hostDate : value -> option Z.


End MaxStreakFacts.

(** ** The token totals *)

Section TokenFacts.
Variable tz : Z.
Variable hostDate : value -> option Z.

Lemma accumulate_tokens (msgs : list MessageData) (acc : Totals)
  (input output : Z) :
  Forall numericTokens msgs ->
  acc_totalInputTokens acc = VNum input ->
  acc_totalOutputTokens acc = VNum output ->
  let acc' := fold_left (accumulate tz hostDate) msgs acc in
  acc_totalInputTokens acc' = VNum (input + sumTokens "input" msgs)
  /\ acc_totalOutputTokens acc' = VNum (output + sumTokens "output" msgs).
Proof.
  intros F. revert acc input output.
  induction F as [|m msgs (i & o & Hi & Ho) _ IH]; intros acc input output Ei Eo.
  - cbn. rewrite Ei, Eo, !Z.add_0_r. split; reflexivity.
  - cbn [fold_left].
    destruct (IH (accumulate tz hostDate acc m) (input + i) (output + o))
      as [Hin Hout].
    + unfold accumulate. cbn [acc_totalInputTokens]. rewrite Ei.
      unfold tokensOf in Hi. destruct (truthy (message_usage m)).
      * rewrite Hi. reflexivity.
      * injection Hi as <-. rewrite Z.add_0_r. reflexivity.
    + unfold accumulate. cbn [acc_totalOutputTokens]. rewrite Eo.
      unfold tokensOf in Ho. destruct (truthy (message_usage m)).
      * rewrite Ho. reflexivity.
      * injection Ho as <-. rewrite Z.add_0_r. reflexivity.
    + cbv zeta in *. rewrite Hin, Hout. unfold sumTokens, sumOf.
      cbn [map fold_right]. rewrite Hi, Ho. cbn [numberOf].
      split; f_equal; lia.
Qed.


End TokenFacts.


(** ** The order of the reads, and filtering while collecting *)

Lemma Permutation_filter_same {A} (p : A -> bool) (l l' : list A) :
  Permutation l l' -> Permutation (filter p l) (filter p l').
Proof.
  induction 1 as [|x l l' _ IH|x x' l|l l' l'' _ IH1 _ IH2]; cbn [filter].
  - constructor.
  - destruct (p x); [constructor|]; exact IH.
  - destruct (p x), (p x'); try reflexivity. apply perm_swap.
  - etransitivity; eassumption.
Qed.

Lemma filter_flat_map {A B} (p : B -> bool) (f : A -> list B) (l : list A) :
  filter p (flat_map f l) = flat_map (fun x => filter p (f x)) l.
Proof.
  induction l as [|x l IH]; [reflexivity|].
  cbn [flat_map]. rewrite filter_app, IH. reflexivity.
Qed.

Section OrderFacts.
Variable tz : Z.
Variable hostDate : value -> option Z.

Lemma addFileSession_messages {F}
  (parse : F -> option SessionData * list MessageData) (files : list F)
  (acc : Acc) :
  snd (fst (fold_left (fun acc f => addFileSession acc (parse f)) files acc))
  = snd (fst acc) ++ flat_map (fun f => snd (parse f)) files.
Proof.
  revert acc. induction files as [|f files IH]; intros acc;
    cbn [fold_left flat_map].
  - rewrite app_nil_r. reflexivity.
  - rewrite IH, app_assoc. f_equal.
    destruct acc as [[ss ms] pm]. destruct (parse f) as [[s|] fm];
      reflexivity.
Qed.

Lemma addClaudeFile_messages (year : option Z) (files : list file)
  (acc : ClaudeAcc) :
  snd (fst (fold_left (addClaudeFile tz hostDate year) files acc))
  = snd (fst acc)
    ++ flat_map (fun f => snd (parseClaudeFile tz hostDate f year)) files.
Proof.
  revert acc. induction files as [|f files IH]; intros acc;
    cbn [fold_left flat_map].
  - rewrite app_nil_r. reflexivity.
  - rewrite IH, app_assoc. f_equal.
    destruct acc as [[ss ms] pm]. unfold addClaudeFile.
    destruct (parseClaudeFile tz hostDate f year) as [fs fm].
    destruct (fold_left mergeSession fs (ss, pm)). reflexivity.
Qed.

Lemma openCodeMessage_messages (year : option Z) (docs : list (option value))
  (allMessages : list MessageData) :
  fold_left (eachDoc (openCodeMessage tz hostDate year)) docs allMessages
  = allMessages ++ flat_map (messageOfDoc tz hostDate year) docs.
Proof.
  revert allMessages. induction docs as [|doc docs IH]; intros allMessages;
    cbn [fold_left flat_map].
  - rewrite app_nil_r. reflexivity.
  - rewrite IH, app_assoc. f_equal. unfold messageOfDoc.
    destruct doc as [raw|]; cbn [eachDoc]; [|rewrite app_nil_r; reflexivity].
    unfold openCodeMessage.
    repeat match goal with
           | |- context [bind ?m _] =>
               destruct m; cbn [bind ret catch];
               [|rewrite app_nil_r; reflexivity]
           | |- context [if ?c then _ else _] =>
               destruct c; cbn [bind ret catch];
               [rewrite app_nil_r; reflexivity|]
           end.
    reflexivity.
Qed.

Lemma collected_messages (src : DataSource) (data : SourceData)
  (year : option Z) :
  messages (collectAll tz hostDate src data year)
  = match src with
    | pi => flat_map (fun f => snd (parsePiFile tz hostDate f year))
              (jsonlFiles data)
    | codex => flat_map (fun f => snd (parseCodexFile tz hostDate f year))
                 (jsonlFiles data)
    | claude => flat_map (fun f => snd (parseClaudeFile tz hostDate f year))
                  (jsonlFiles data)
    | opencode => flat_map (messageOfDoc tz hostDate year) (messageDocs data)
    end.
Proof.
  destruct src; unfold collectAll.
  - pose proof (addFileSession_messages
      (fun f => parsePiFile tz hostDate f year) (jsonlFiles data)
      ([], [], [])) as H.
    destruct (fold_left _ _ _) as [[ss ms] pm]. exact H.
  - pose proof (addFileSession_messages
      (fun f => parseCodexFile tz hostDate f year) (jsonlFiles data)
      ([], [], [])) as H.
    destruct (fold_left _ _ _) as [[ss ms] pm]. exact H.
  - pose proof (addClaudeFile_messages year (jsonlFiles data) ([], [], []))
      as H.
    destruct (fold_left _ _ _) as [[ss ms] pm]. exact H.
  - unfold collectOpenCode.
    destruct (fold_left _ (sessionDocs data) _) as [ss pm].
    cbn [messages]. apply openCodeMessage_messages.
Qed.

Lemma collected_sessions (src : DataSource) (data : SourceData)
  (year : option Z) :
  src <> claude ->
  sessions (collectAll tz hostDate src data year)
  = match src with
    | pi => flat_map (fun f => sessionOfFile (parsePiFile tz hostDate f year))
              (jsonlFiles data)
    | codex =>
        flat_map (fun f => sessionOfFile (parseCodexFile tz hostDate f year))
          (jsonlFiles data)
    | _ => flat_map (sessionOfDoc tz hostDate year) (sessionDocs data)
    end.
Proof.
  intros Hsrc. destruct src; [| |contradiction|]; unfold collectAll.
  - pose proof (addFileSession_sessions
      (fun f => parsePiFile tz hostDate f year) (jsonlFiles data)
      ([], [], [])) as H.
    destruct (fold_left _ _ _) as [[ss ms] pm]. exact H.
  - pose proof (addFileSession_sessions
      (fun f => parseCodexFile tz hostDate f year) (jsonlFiles data)
      ([], [], [])) as H.
    destruct (fold_left _ _ _) as [[ss ms] pm]. exact H.
  - unfold collectOpenCode.
    pose proof (openCodeSession_sessions tz hostDate year (sessionDocs data)
                  ([], [])) as H.
    destruct (fold_left _ (sessionDocs data) _) as [ss pm]. exact H.
Qed.


End OrderFacts.


(** ** Filtering while collecting *)

Section FilterFacts.
Variable tz : Z.
Variable hostDate : value -> option Z.
Variable y : Z.
Hypothesis year_given : y <> 0.

Lemma yearMismatch_yearIs (timestamp : value) :
  yearMismatch tz hostDate (Some y) timestamp
  = negb (yearIs tz hostDate timestamp y).
Proof.
  unfold yearMismatch. destruct (Z.eqb_spec y 0); [contradiction|reflexivity].
Qed.

Lemma messageOfDoc_filtered (doc : option value) :
  messageOfDoc tz hostDate (Some y) doc
  = filter (fun m => yearIs tz hostDate (message_timestamp m) y)
      (messageOfDoc tz hostDate None doc).
Proof.
  unfold messageOfDoc. destruct doc as [raw|]; cbn [eachDoc]; [|reflexivity].
  unfold openCodeMessage.
  destruct (get raw "time") as [time|]; cbn [bind catch]; [|reflexivity].
  destruct (get time "created") as [created|]; cbn [bind catch];
    [|reflexivity].
  rewrite yearMismatch_yearIs. cbn [yearMismatch].
  destruct (yearIs tz hostDate created y) eqn:Ey; cbn [negb].
  - repeat match goal with
           | |- context [bind ?m _] =>
               destruct m; cbn [bind ret catch]; [|reflexivity]
           end.
    cbn [filter message_timestamp app]. rewrite Ey. reflexivity.
  - cbn [ret catch].
    repeat match goal with
           | |- context [bind ?m _] =>
               destruct m; cbn [bind ret catch]; [|reflexivity]
           end.
    cbn [filter message_timestamp app]. rewrite Ey. reflexivity.
Qed.

Lemma sessionOfDoc_filtered (doc : option value) :
  sessionOfDoc tz hostDate (Some y) doc
  = filter (fun s => yearIs tz hostDate (session_timestamp s) y)
      (sessionOfDoc tz hostDate None doc).
Proof.
  unfold sessionOfDoc. destruct doc as [raw|]; cbn [eachDoc]; [|reflexivity].
  unfold openCodeSession.
  destruct (get raw "time") as [time|]; cbn [bind catch]; [|reflexivity].
  destruct (get time "created") as [created|]; cbn [bind catch];
    [|reflexivity].
  rewrite yearMismatch_yearIs. cbn [yearMismatch].
  destruct (yearIs tz hostDate created y) eqn:Ey; cbn [negb].
  - repeat match goal with
           | |- context [bind ?m _] =>
               destruct m; cbn [bind ret catch]; [|reflexivity]
           end.
    cbn [fst filter session_timestamp app]. rewrite Ey. reflexivity.
  - cbn [ret catch fst].
    repeat match goal with
           | |- context [bind ?m _] =>
               destruct m; cbn [bind ret catch]; [|reflexivity]
           end.
    cbn [fst filter session_timestamp app]. rewrite Ey. reflexivity.
Qed.

Lemma claudeMessagesOfLine_filtered (l : line) :
  claudeMessagesOfLine tz hostDate (Some y) l
  = filter (fun m => yearIs tz hostDate (message_timestamp m) y)
      (claudeMessagesOfLine tz hostDate None l).
Proof.
  unfold claudeMessagesOfLine. destruct l as [parsed|]; [|reflexivity].
  unfold claudeCounted. rewrite yearMismatch_yearIs. cbn [yearMismatch negb].
  rewrite andb_true_r, negb_involutive.
  destruct (truthy (getOpt parsed "type")); cbn [andb]; [|reflexivity].
  destruct (truthy (getOpt parsed "sessionId")); cbn [andb]; [|reflexivity].
  destruct (isTurn parsed); cbn [andb];
    [|rewrite andb_false_r; reflexivity].
  rewrite andb_true_r. cbn [filter claudeMessageOf message_timestamp].
  destruct (yearIs tz hostDate
              (parseTimestamp hostDate (getOpt parsed "timestamp")) y);
    reflexivity.
Qed.

Lemma parseClaudeFile_filtered (f : file) :
  snd (parseClaudeFile tz hostDate f (Some y))
  = filter (fun m => yearIs tz hostDate (message_timestamp m) y)
      (snd (parseClaudeFile tz hostDate f None)).
Proof.
  destruct f as [lines|]; cbn [parseClaudeFile]; [|reflexivity].
  rewrite !parseClaudeLines_messages. cbn [snd app].
  rewrite filter_flat_map. apply flat_map_ext. intros l.
  apply claudeMessagesOfLine_filtered.
Qed.


End FilterFacts.



(** ** Messages and the session of their file *)

Lemma get_type (parsed type : value) (tag : string) :
  get parsed "type" = Some type ->
  is_str (getOpt parsed "type") tag = false ->
  is_str type tag = false.
Proof.
  destruct parsed; cbn; try discriminate; intros [= <-]; auto.
Qed.

Section SessionIdFacts.
Variable tz : Z.
Variable hostDate : value -> option Z.

Lemma parsePiLines_one_session (year : option Z) (s : SessionData)
  (lines : list line) (messages : list MessageData) :
  Forall (fun l => hasType "session" l = false) lines ->
  Forall (messageOf s) messages ->
  let r := parsePiLines tz hostDate year lines (Some s, messages) in
  fst r = Some s /\ Forall (messageOf s) (snd r).
Proof.
  intros F. revert messages.
  induction F as [|[parsed|] lines Hl _ IH]; intros messages Hm;
    cbn [parsePiLines]; [split; [reflexivity|exact Hm]| |apply IH; exact Hm].
  cbn [hasType] in Hl.
  destruct (parsePiLine tz hostDate year (Some s, messages) parsed)
    as [[st'|]|] eqn:E; cbn [catch]; [| |apply IH; exact Hm].
  - unfold parsePiLine in E.
    destruct (get parsed "type") as [type|] eqn:Et; cbn [bind] in E;
      [|discriminate E].
    rewrite (get_type _ _ _ Et Hl) in E.
    exn_cases E; injection E as <-; apply IH;
      first [ exact Hm | apply Forall_snoc; [exact Hm|reflexivity] ].
  - exfalso. unfold parsePiLine in E.
    destruct (get parsed "type") as [type|] eqn:Et; cbn [bind] in E;
      [|discriminate E].
    rewrite (get_type _ _ _ Et Hl) in E.
    exn_cases E.
Qed.

Lemma attachUsage_one_session (s : SessionData) (n : nat)
  (messages : list MessageData) (u : value) :
  Forall (messageOf s) messages ->
  Forall (messageOf s) (attachUsage n messages u).
Proof.
  intros F. induction n as [|i IH]; cbn [attachUsage]; [exact F|].
  destruct (nth_error messages i) as [m|] eqn:Em; [|exact F].
  destruct (_ && _); [|exact IH].
  apply Forall_setNth; [exact F|].
  rewrite Forall_forall in F. apply nth_error_In in Em.
  exact (F m Em).
Qed.

Lemma parseCodexLines_one_session (year : option Z) (s : SessionData)
  (lines : list line) (messages : list MessageData) :
  Forall (fun l => hasType "session_meta" l = false) lines ->
  Forall (messageOf s) messages ->
  let r := parseCodexLines tz hostDate year lines (Some s, messages) in
  fst r = Some s /\ Forall (messageOf s) (snd r).
Proof.
  intros F. revert messages.
  induction F as [|[parsed|] lines Hl _ IH]; intros messages Hm;
    cbn [parseCodexLines]; [split; [reflexivity|exact Hm]| |apply IH; exact Hm].
  cbn [hasType] in Hl.
  destruct (parseCodexLine tz hostDate year (Some s, messages) parsed)
    as [[st'|]|] eqn:E; cbn [catch]; [| |apply IH; exact Hm].
  - unfold parseCodexLine in E.
    destruct (get parsed "type") as [type|] eqn:Et; cbn [bind] in E;
      [|discriminate E].
    rewrite (get_type _ _ _ Et Hl) in E.
    exn_cases E; injection E as <-; apply IH;
      first [ exact Hm
            | apply Forall_snoc; [exact Hm|reflexivity]
            | apply attachUsage_one_session; exact Hm ].
  - exfalso. unfold parseCodexLine in E.
    destruct (get parsed "type") as [type|] eqn:Et; cbn [bind] in E;
      [|discriminate E].
    rewrite (get_type _ _ _ Et Hl) in E.
    exn_cases E.
Qed.


End SessionIdFacts.

